(** * Huemelody: input arbitration and colour-to-action engine

    A shallow embedding of [src/Huemelody.ino] (the ColorSense sketch):
    the button arbiter [handleButton], the quadrature decoder
    [handleEncoder], the classifier pipeline [checkColor],
    [checkPainterColor], [checkPainterCompletion], the playback front end
    [playAudio], [playTrack], the mode switch [switchMode] and the
    cooperative main [loop].

    The sketch keeps its state in global variables; here they are the
    fields of one [State] record that every function receives and returns.
    Calls into the peripherals (audio decoder, SD card, LED ring, sleep
    controller) are recorded, in program order, in the [log] field. *)

From Stdlib Require Import ZArith QArith Lia Bool String List.
From stdpp Require Import base list strings.
Import ListNotations.

Local Open Scope string_scope.
Local Open Scope list_scope.
Local Open Scope Z_scope.

(** ** Constants of the sketch *)

Definition MODE_SWITCH_PRESS_DURATION : Z := 3000.
Definition SLEEP_PRESS_DURATION : Z := 5000.
Definition ROTATION_DEBOUNCE : Z := 10.
Definition TRACK_NAVIGATION_DEBOUNCE : Z := 100.
Definition MIN_VOLUME : Z := 0.
Definition MAX_VOLUME : Z := 21.
Definition VOLUME_STEP : Z := 1.
Definition VOLUME_DISPLAY_DURATION : Z := 1000.
Definition COLOR_COUNT_THRESHOLD : Z := 5.
Definition COLOR_FAMILY_COUNT : nat := 16.

(** Digital levels: [HIGH] is [true], [LOW] is [false]. The button is wired
    with a pull-up, so [LOW] means pressed. *)
Definition HIGH : bool := true.
Definition LOW : bool := false.

(** ** Data structures *)

Inductive OperationMode := COLOR_RECOGNITION | PAINTER_COLLECTION.

Definition mode_eqb (a b : OperationMode) : bool :=
  match a, b with
  | COLOR_RECOGNITION, COLOR_RECOGNITION => true
  | PAINTER_COLLECTION, PAINTER_COLLECTION => true
  | _, _ => false
  end.

(** The globals [r], [g], [b] are C [float]s. Every finite float is a
    rational; the classifier only compares them with 8-bit bounds, and a
    NaN or an infinity fails the two-sided range test whatever the bounds,
    so the three non-finite cases share one constructor. *)
Inductive fval := Finite (q : Q) | NonFinite.

Record Sample := mkSample { sample_r : fval; sample_g : fval; sample_b : fval }.

Record ColorThreshold := mkColorThreshold {
  ct_rMin : Z; ct_rMax : Z;
  ct_gMin : Z; ct_gMax : Z;
  ct_bMin : Z; ct_bMax : Z;
  colorId : string;
  audioFile : string
}.

Record PainterColor := mkPainterColor {
  pc_rMin : Z; pc_rMax : Z;
  pc_gMin : Z; pc_gMax : Z;
  pc_bMin : Z; pc_bMax : Z;
  painterId : string;
  colorIndex : Z
}.

(** Calls that leave the core, in the order the sketch makes them. The
    first four mark the arbiter's and the player's decisions: entry into
    [switchMode], the flip of [isColorDetectionEnabled] on a short press,
    the call of [esp_deep_sleep_start], and entry into [playTrack]. *)
Inductive Event :=
| EvSwitchMode
| EvToggleDetection (enabled : bool)
| EvDeepSleep
| EvPlayTrack (filename : string)
| EvStopSong
| EvConnect (filename : string) (ok : bool)
| EvAudioLoop
| EvSetVolume (v : Z)
| EvNextTrack
| EvPreviousTrack
| EvBlink (count : Z)
| EvShowVolume (v : Z)
| EvRestoreLeds
| EvShowColor
| EvSleepAnimation
| EvSensorDisable.

Record State := mkState {
  currentMode : OperationMode;
  isColorDetectionEnabled : bool;
  isLooping : bool;
  currentPlayingFile : string;
  currentVolume : Z;
  isShowingVolume : bool;
  volumeDisplayStartTime : Z;
  lastButtonState : bool;
  buttonPressStartTime : Z;
  isLongPressing : bool;
  sleepPressStartTime : Z;
  isSleepPressing : bool;
  isEncoderPressed : bool;
  volumeAdjustedWhilePressed : bool;
  lastRotationTime : Z;
  lastTrackNavigationTime : Z;
  colorCounters : list Z;
  painterCollectionStatus : list (list bool);
  lastEncoded : Z;
  lastDir : Z;
  validRotations : Z;
  rgb : Sample;
  audioRunning : bool;
  log : list Event
}.

Definition set_currentMode (v : OperationMode) (s : State) : State :=
  mkState v (isColorDetectionEnabled s) (isLooping s) (currentPlayingFile s) (currentVolume s) (isShowingVolume s) (volumeDisplayStartTime s) (lastButtonState s) (buttonPressStartTime s) (isLongPressing s) (sleepPressStartTime s) (isSleepPressing s) (isEncoderPressed s) (volumeAdjustedWhilePressed s) (lastRotationTime s) (lastTrackNavigationTime s) (colorCounters s) (painterCollectionStatus s) (lastEncoded s) (lastDir s) (validRotations s) (rgb s) (audioRunning s) (log s).
Definition set_isColorDetectionEnabled (v : bool) (s : State) : State :=
  mkState (currentMode s) v (isLooping s) (currentPlayingFile s) (currentVolume s) (isShowingVolume s) (volumeDisplayStartTime s) (lastButtonState s) (buttonPressStartTime s) (isLongPressing s) (sleepPressStartTime s) (isSleepPressing s) (isEncoderPressed s) (volumeAdjustedWhilePressed s) (lastRotationTime s) (lastTrackNavigationTime s) (colorCounters s) (painterCollectionStatus s) (lastEncoded s) (lastDir s) (validRotations s) (rgb s) (audioRunning s) (log s).
Definition set_isLooping (v : bool) (s : State) : State :=
  mkState (currentMode s) (isColorDetectionEnabled s) v (currentPlayingFile s) (currentVolume s) (isShowingVolume s) (volumeDisplayStartTime s) (lastButtonState s) (buttonPressStartTime s) (isLongPressing s) (sleepPressStartTime s) (isSleepPressing s) (isEncoderPressed s) (volumeAdjustedWhilePressed s) (lastRotationTime s) (lastTrackNavigationTime s) (colorCounters s) (painterCollectionStatus s) (lastEncoded s) (lastDir s) (validRotations s) (rgb s) (audioRunning s) (log s).
Definition set_currentPlayingFile (v : string) (s : State) : State :=
  mkState (currentMode s) (isColorDetectionEnabled s) (isLooping s) v (currentVolume s) (isShowingVolume s) (volumeDisplayStartTime s) (lastButtonState s) (buttonPressStartTime s) (isLongPressing s) (sleepPressStartTime s) (isSleepPressing s) (isEncoderPressed s) (volumeAdjustedWhilePressed s) (lastRotationTime s) (lastTrackNavigationTime s) (colorCounters s) (painterCollectionStatus s) (lastEncoded s) (lastDir s) (validRotations s) (rgb s) (audioRunning s) (log s).
Definition set_currentVolume (v : Z) (s : State) : State :=
  mkState (currentMode s) (isColorDetectionEnabled s) (isLooping s) (currentPlayingFile s) v (isShowingVolume s) (volumeDisplayStartTime s) (lastButtonState s) (buttonPressStartTime s) (isLongPressing s) (sleepPressStartTime s) (isSleepPressing s) (isEncoderPressed s) (volumeAdjustedWhilePressed s) (lastRotationTime s) (lastTrackNavigationTime s) (colorCounters s) (painterCollectionStatus s) (lastEncoded s) (lastDir s) (validRotations s) (rgb s) (audioRunning s) (log s).
Definition set_isShowingVolume (v : bool) (s : State) : State :=
  mkState (currentMode s) (isColorDetectionEnabled s) (isLooping s) (currentPlayingFile s) (currentVolume s) v (volumeDisplayStartTime s) (lastButtonState s) (buttonPressStartTime s) (isLongPressing s) (sleepPressStartTime s) (isSleepPressing s) (isEncoderPressed s) (volumeAdjustedWhilePressed s) (lastRotationTime s) (lastTrackNavigationTime s) (colorCounters s) (painterCollectionStatus s) (lastEncoded s) (lastDir s) (validRotations s) (rgb s) (audioRunning s) (log s).
Definition set_volumeDisplayStartTime (v : Z) (s : State) : State :=
  mkState (currentMode s) (isColorDetectionEnabled s) (isLooping s) (currentPlayingFile s) (currentVolume s) (isShowingVolume s) v (lastButtonState s) (buttonPressStartTime s) (isLongPressing s) (sleepPressStartTime s) (isSleepPressing s) (isEncoderPressed s) (volumeAdjustedWhilePressed s) (lastRotationTime s) (lastTrackNavigationTime s) (colorCounters s) (painterCollectionStatus s) (lastEncoded s) (lastDir s) (validRotations s) (rgb s) (audioRunning s) (log s).
Definition set_lastButtonState (v : bool) (s : State) : State :=
  mkState (currentMode s) (isColorDetectionEnabled s) (isLooping s) (currentPlayingFile s) (currentVolume s) (isShowingVolume s) (volumeDisplayStartTime s) v (buttonPressStartTime s) (isLongPressing s) (sleepPressStartTime s) (isSleepPressing s) (isEncoderPressed s) (volumeAdjustedWhilePressed s) (lastRotationTime s) (lastTrackNavigationTime s) (colorCounters s) (painterCollectionStatus s) (lastEncoded s) (lastDir s) (validRotations s) (rgb s) (audioRunning s) (log s).
Definition set_buttonPressStartTime (v : Z) (s : State) : State :=
  mkState (currentMode s) (isColorDetectionEnabled s) (isLooping s) (currentPlayingFile s) (currentVolume s) (isShowingVolume s) (volumeDisplayStartTime s) (lastButtonState s) v (isLongPressing s) (sleepPressStartTime s) (isSleepPressing s) (isEncoderPressed s) (volumeAdjustedWhilePressed s) (lastRotationTime s) (lastTrackNavigationTime s) (colorCounters s) (painterCollectionStatus s) (lastEncoded s) (lastDir s) (validRotations s) (rgb s) (audioRunning s) (log s).
Definition set_isLongPressing (v : bool) (s : State) : State :=
  mkState (currentMode s) (isColorDetectionEnabled s) (isLooping s) (currentPlayingFile s) (currentVolume s) (isShowingVolume s) (volumeDisplayStartTime s) (lastButtonState s) (buttonPressStartTime s) v (sleepPressStartTime s) (isSleepPressing s) (isEncoderPressed s) (volumeAdjustedWhilePressed s) (lastRotationTime s) (lastTrackNavigationTime s) (colorCounters s) (painterCollectionStatus s) (lastEncoded s) (lastDir s) (validRotations s) (rgb s) (audioRunning s) (log s).
Definition set_sleepPressStartTime (v : Z) (s : State) : State :=
  mkState (currentMode s) (isColorDetectionEnabled s) (isLooping s) (currentPlayingFile s) (currentVolume s) (isShowingVolume s) (volumeDisplayStartTime s) (lastButtonState s) (buttonPressStartTime s) (isLongPressing s) v (isSleepPressing s) (isEncoderPressed s) (volumeAdjustedWhilePressed s) (lastRotationTime s) (lastTrackNavigationTime s) (colorCounters s) (painterCollectionStatus s) (lastEncoded s) (lastDir s) (validRotations s) (rgb s) (audioRunning s) (log s).
Definition set_isSleepPressing (v : bool) (s : State) : State :=
  mkState (currentMode s) (isColorDetectionEnabled s) (isLooping s) (currentPlayingFile s) (currentVolume s) (isShowingVolume s) (volumeDisplayStartTime s) (lastButtonState s) (buttonPressStartTime s) (isLongPressing s) (sleepPressStartTime s) v (isEncoderPressed s) (volumeAdjustedWhilePressed s) (lastRotationTime s) (lastTrackNavigationTime s) (colorCounters s) (painterCollectionStatus s) (lastEncoded s) (lastDir s) (validRotations s) (rgb s) (audioRunning s) (log s).
Definition set_isEncoderPressed (v : bool) (s : State) : State :=
  mkState (currentMode s) (isColorDetectionEnabled s) (isLooping s) (currentPlayingFile s) (currentVolume s) (isShowingVolume s) (volumeDisplayStartTime s) (lastButtonState s) (buttonPressStartTime s) (isLongPressing s) (sleepPressStartTime s) (isSleepPressing s) v (volumeAdjustedWhilePressed s) (lastRotationTime s) (lastTrackNavigationTime s) (colorCounters s) (painterCollectionStatus s) (lastEncoded s) (lastDir s) (validRotations s) (rgb s) (audioRunning s) (log s).
Definition set_volumeAdjustedWhilePressed (v : bool) (s : State) : State :=
  mkState (currentMode s) (isColorDetectionEnabled s) (isLooping s) (currentPlayingFile s) (currentVolume s) (isShowingVolume s) (volumeDisplayStartTime s) (lastButtonState s) (buttonPressStartTime s) (isLongPressing s) (sleepPressStartTime s) (isSleepPressing s) (isEncoderPressed s) v (lastRotationTime s) (lastTrackNavigationTime s) (colorCounters s) (painterCollectionStatus s) (lastEncoded s) (lastDir s) (validRotations s) (rgb s) (audioRunning s) (log s).
Definition set_lastRotationTime (v : Z) (s : State) : State :=
  mkState (currentMode s) (isColorDetectionEnabled s) (isLooping s) (currentPlayingFile s) (currentVolume s) (isShowingVolume s) (volumeDisplayStartTime s) (lastButtonState s) (buttonPressStartTime s) (isLongPressing s) (sleepPressStartTime s) (isSleepPressing s) (isEncoderPressed s) (volumeAdjustedWhilePressed s) v (lastTrackNavigationTime s) (colorCounters s) (painterCollectionStatus s) (lastEncoded s) (lastDir s) (validRotations s) (rgb s) (audioRunning s) (log s).
Definition set_lastTrackNavigationTime (v : Z) (s : State) : State :=
  mkState (currentMode s) (isColorDetectionEnabled s) (isLooping s) (currentPlayingFile s) (currentVolume s) (isShowingVolume s) (volumeDisplayStartTime s) (lastButtonState s) (buttonPressStartTime s) (isLongPressing s) (sleepPressStartTime s) (isSleepPressing s) (isEncoderPressed s) (volumeAdjustedWhilePressed s) (lastRotationTime s) v (colorCounters s) (painterCollectionStatus s) (lastEncoded s) (lastDir s) (validRotations s) (rgb s) (audioRunning s) (log s).
Definition set_colorCounters (v : list Z) (s : State) : State :=
  mkState (currentMode s) (isColorDetectionEnabled s) (isLooping s) (currentPlayingFile s) (currentVolume s) (isShowingVolume s) (volumeDisplayStartTime s) (lastButtonState s) (buttonPressStartTime s) (isLongPressing s) (sleepPressStartTime s) (isSleepPressing s) (isEncoderPressed s) (volumeAdjustedWhilePressed s) (lastRotationTime s) (lastTrackNavigationTime s) v (painterCollectionStatus s) (lastEncoded s) (lastDir s) (validRotations s) (rgb s) (audioRunning s) (log s).
Definition set_painterCollectionStatus (v : list (list bool)) (s : State) : State :=
  mkState (currentMode s) (isColorDetectionEnabled s) (isLooping s) (currentPlayingFile s) (currentVolume s) (isShowingVolume s) (volumeDisplayStartTime s) (lastButtonState s) (buttonPressStartTime s) (isLongPressing s) (sleepPressStartTime s) (isSleepPressing s) (isEncoderPressed s) (volumeAdjustedWhilePressed s) (lastRotationTime s) (lastTrackNavigationTime s) (colorCounters s) v (lastEncoded s) (lastDir s) (validRotations s) (rgb s) (audioRunning s) (log s).
Definition set_lastEncoded (v : Z) (s : State) : State :=
  mkState (currentMode s) (isColorDetectionEnabled s) (isLooping s) (currentPlayingFile s) (currentVolume s) (isShowingVolume s) (volumeDisplayStartTime s) (lastButtonState s) (buttonPressStartTime s) (isLongPressing s) (sleepPressStartTime s) (isSleepPressing s) (isEncoderPressed s) (volumeAdjustedWhilePressed s) (lastRotationTime s) (lastTrackNavigationTime s) (colorCounters s) (painterCollectionStatus s) v (lastDir s) (validRotations s) (rgb s) (audioRunning s) (log s).
Definition set_lastDir (v : Z) (s : State) : State :=
  mkState (currentMode s) (isColorDetectionEnabled s) (isLooping s) (currentPlayingFile s) (currentVolume s) (isShowingVolume s) (volumeDisplayStartTime s) (lastButtonState s) (buttonPressStartTime s) (isLongPressing s) (sleepPressStartTime s) (isSleepPressing s) (isEncoderPressed s) (volumeAdjustedWhilePressed s) (lastRotationTime s) (lastTrackNavigationTime s) (colorCounters s) (painterCollectionStatus s) (lastEncoded s) v (validRotations s) (rgb s) (audioRunning s) (log s).
Definition set_validRotations (v : Z) (s : State) : State :=
  mkState (currentMode s) (isColorDetectionEnabled s) (isLooping s) (currentPlayingFile s) (currentVolume s) (isShowingVolume s) (volumeDisplayStartTime s) (lastButtonState s) (buttonPressStartTime s) (isLongPressing s) (sleepPressStartTime s) (isSleepPressing s) (isEncoderPressed s) (volumeAdjustedWhilePressed s) (lastRotationTime s) (lastTrackNavigationTime s) (colorCounters s) (painterCollectionStatus s) (lastEncoded s) (lastDir s) v (rgb s) (audioRunning s) (log s).
Definition set_rgb (v : Sample) (s : State) : State :=
  mkState (currentMode s) (isColorDetectionEnabled s) (isLooping s) (currentPlayingFile s) (currentVolume s) (isShowingVolume s) (volumeDisplayStartTime s) (lastButtonState s) (buttonPressStartTime s) (isLongPressing s) (sleepPressStartTime s) (isSleepPressing s) (isEncoderPressed s) (volumeAdjustedWhilePressed s) (lastRotationTime s) (lastTrackNavigationTime s) (colorCounters s) (painterCollectionStatus s) (lastEncoded s) (lastDir s) (validRotations s) v (audioRunning s) (log s).
Definition set_audioRunning (v : bool) (s : State) : State :=
  mkState (currentMode s) (isColorDetectionEnabled s) (isLooping s) (currentPlayingFile s) (currentVolume s) (isShowingVolume s) (volumeDisplayStartTime s) (lastButtonState s) (buttonPressStartTime s) (isLongPressing s) (sleepPressStartTime s) (isSleepPressing s) (isEncoderPressed s) (volumeAdjustedWhilePressed s) (lastRotationTime s) (lastTrackNavigationTime s) (colorCounters s) (painterCollectionStatus s) (lastEncoded s) (lastDir s) (validRotations s) (rgb s) v (log s).
Definition set_log (v : list Event) (s : State) : State :=
  mkState (currentMode s) (isColorDetectionEnabled s) (isLooping s) (currentPlayingFile s) (currentVolume s) (isShowingVolume s) (volumeDisplayStartTime s) (lastButtonState s) (buttonPressStartTime s) (isLongPressing s) (sleepPressStartTime s) (isSleepPressing s) (isEncoderPressed s) (volumeAdjustedWhilePressed s) (lastRotationTime s) (lastTrackNavigationTime s) (colorCounters s) (painterCollectionStatus s) (lastEncoded s) (lastDir s) (validRotations s) (rgb s) (audioRunning s) v.

(** The globals as the sketch initialises them. *)
Definition boot : State :=
  {| currentMode := COLOR_RECOGNITION;
     isColorDetectionEnabled := false;
     isLooping := false;
     currentPlayingFile := "";
     currentVolume := 19;
     isShowingVolume := false;
     volumeDisplayStartTime := 0;
     lastButtonState := HIGH;
     buttonPressStartTime := 0;
     isLongPressing := false;
     sleepPressStartTime := 0;
     isSleepPressing := false;
     isEncoderPressed := false;
     volumeAdjustedWhilePressed := false;
     lastRotationTime := 0;
     lastTrackNavigationTime := 0;
     colorCounters := replicate COLOR_FAMILY_COUNT 0;
     painterCollectionStatus := replicate 6 (replicate 5 false);
     lastEncoded := 0;
     lastDir := 0;
     validRotations := 0;
     rgb := mkSample (Finite 0) (Finite 0) (Finite 0);
     audioRunning := false;
     log := [] |}.

(** Statements are chained in source order: [s |> f |> g] is [g (f s)]. *)
Notation "s |> f" := (f s) (at level 45, left associativity, only parsing).

Definition emit (e : Event) (s : State) : State :=
  set_log (log s ++ [e]) s.

(** [millis() - start] on [unsigned long], 32 bits wide on the ESP32. *)
Definition elapsed (now start : Z) : Z := (now - start) mod 2 ^ 32.

(** The post-increment of a [uint8_t] counter. *)
Definition incr_uint8 (c : Z) : Z := (c + 1) mod 256.

(** [snprintf] and [strncpy] into [currentPlayingFile[32]] keep at most 31
    characters. *)
Definition fit32 (name : string) : string := substring 0 31 name.

(** ** Peripherals *)

Definition audio_stopSong (s : State) : State :=
  s |> set_audioRunning false |> emit EvStopSong.

Definition audio_loop (s : State) : State := emit EvAudioLoop s.

Definition audio_setVolume (v : Z) (s : State) : State := emit (EvSetVolume v) s.

Definition blinkLEDs (count : Z) (s : State) : State := emit (EvBlink count) s.

Definition displayVolumeOnLeds (now : Z) (s : State) : State :=
  (if isShowingVolume s then s else set_isShowingVolume true s)
  |> emit (EvShowVolume (currentVolume s))
  |> set_volumeDisplayStartTime now.

Definition restoreOriginalLeds (s : State) : State :=
  if isShowingVolume s then s |> emit EvRestoreLeds |> set_isShowingVolume false
  else s.

(** ** The collection grid [painterCollectionStatus[6][5]] *)

Definition grid_get (painter color : nat) (grid : list (list bool)) : bool :=
  match grid !! painter with
  | Some row => default false (row !! color)
  | None => false
  end.

(** [painterCollectionStatus[painter][color] = v]. The thirty cells of
    the array lie row after row and the write is not checked: it goes to
    the cell at offset [5 * painter + color] from the first, which is a
    cell of a neighbouring row when [color] is outside 0..4. A write
    outside the thirty cells lands in memory that is not part of the
    grid; the model leaves the grid as it is there. *)
Definition grid_set (painter color : Z) (v : bool) (grid : list (list bool))
  : list (list bool) :=
  let offset := 5 * painter + color in
  if (0 <=? offset) && (offset <? 30)
  then alter (fun row => <[Z.to_nat (offset mod 5) := v]> row)
             (Z.to_nat (offset / 5)) grid
  else grid.

Definition resetAllPainterCollections (s : State) : State :=
  set_painterCollectionStatus (replicate 6 (replicate 5 false)) s.

Definition painterNames : list string :=
  ["P_Dali"; "P_Gogh"; "P_Munch"; "P_Picasso"; "P_Seurat"; "P_Vinci"].

Definition painterIndexOf (id : string) : Z :=
  if String.eqb id "Dali" then 0
  else if String.eqb id "Gogh" then 1
  else if String.eqb id "Munch" then 2
  else if String.eqb id "Picasso" then 3
  else if String.eqb id "Seurat" then 4
  else if String.eqb id "Vinci" then 5
  else -1.

Definition in_range (x : fval) (lo hi : Z) : bool :=
  match x with
  | Finite q => Qle_bool (inject_Z lo) q && Qle_bool q (inject_Z hi)
  | NonFinite => false
  end.

Definition matches (c : Sample) (rMin rMax gMin gMax bMin bMax : Z) : bool :=
  in_range (sample_r c) rMin rMax
  && in_range (sample_g c) gMin gMax
  && in_range (sample_b c) bMin bMax.

(** Quadrature transition table: the 4-bit code is the previous phase pair
    followed by the current one. *)
Definition decode (sum : Z) : Z :=
  if (sum =? 13) || (sum =? 4) || (sum =? 2) || (sum =? 11) then 1
  else if (sum =? 14) || (sum =? 7) || (sum =? 1) || (sum =? 8) then -1
  else 0.

(** What one pass of [loop] reads from the outside: the three input lines,
    the value [millis()] has when [handleButton], [handleEncoder] and the
    body of [loop] read it, the sample the sensor would deliver, and whether
    the decoder ran out of data since the previous pass. *)
Record Input := mkInput {
  in_button : bool;
  in_A : bool;
  in_B : bool;
  in_millis_button : Z;
  in_millis_encoder : Z;
  in_millis_loop : Z;
  in_sample : Sample;
  in_audio_ended : bool
}.

(** A pass either returns to [loop] or ends in deep sleep, from which the
    sketch only leaves through a reset. *)
Inductive Res := Running (s : State) | DeepSleep (s : State).

(** What the sketch takes from outside this file: the SD card and the
    decoder (which files exist, which the decoder opens), and the helpers
    and tables the sketch declares elsewhere. [getBaseColorName] stands for
    the text it leaves in [baseColor[10]]. *)
Class Board := {
  SD_exists : string -> bool;
  connecttoFS : string -> bool;
  getBaseColorName : string -> string;
  getColorFamilyIndex : string -> Z;
  colorThresholds : list ColorThreshold;
  daliColors : list PainterColor;
  goghColors : list PainterColor;
  munchColors : list PainterColor;
  picassoColors : list PainterColor;
  seuratColors : list PainterColor;
  vinciColors : list PainterColor
}.

Section Device.

Context {board : Board}.

Definition audio_connecttoFS (filename : string) (s : State) : bool * State :=
  let ok := connecttoFS filename in
  (ok, s |> set_audioRunning ok |> emit (EvConnect filename ok)).

(** ** Playback *)

Definition playTrack (filename : string) (s : State) : State :=
  let s := emit (EvPlayTrack filename) s in
  if negb (SD_exists filename) then s
  else
    let s := audio_stopSong s in
    let s := set_currentPlayingFile (fit32 filename) s in
    let '(ok, s) := audio_connecttoFS (currentPlayingFile s) s in
    if negb ok then set_isLooping false s
    else
      let s := set_isLooping true s in
      if mode_eqb (currentMode s) PAINTER_COLLECTION
      then resetAllPainterCollections s
      else s.

(** [colorCounters[colorIndex]]; past the end of the array the C++
    behaviour is undefined, the model reads 0 and writes nothing. *)
Definition counter_at (idx : Z) (s : State) : Z :=
  default 0 (colorCounters s !! Z.to_nat idx).

Definition set_counter (idx : Z) (v : Z) (s : State) : State :=
  set_colorCounters (<[Z.to_nat idx := v]> (colorCounters s)) s.

Definition playAudio (colorName : string) (s : State) : State :=
  let baseColor := getBaseColorName colorName in
  let colorIndex := getColorFamilyIndex colorName in
  let s :=
    if mode_eqb (currentMode s) COLOR_RECOGNITION && (0 <=? colorIndex) then
      let s := set_counter colorIndex (incr_uint8 (counter_at colorIndex s)) s in
      if COLOR_COUNT_THRESHOLD <=? counter_at colorIndex s then
        s |> set_counter colorIndex 0
          |> set_currentPlayingFile (fit32 ("/" +:+ baseColor +:+ "X.mp3"))
      else
        s |> set_currentPlayingFile (fit32 ("/" +:+ colorName +:+ ".mp3"))
    else
      s |> set_currentPlayingFile (fit32 ("/" +:+ colorName +:+ ".mp3")) in
  playTrack (currentPlayingFile s) s.

(** ** Classification *)

Fixpoint checkColor (thresholds : list ColorThreshold) (s : State)
  : bool * State :=
  match thresholds with
  | [] => (false, s)
  | t :: rest =>
    if (ct_rMin t =? 0) && (ct_rMax t =? 0) then checkColor rest s
    else if matches (rgb s) (ct_rMin t) (ct_rMax t) (ct_gMin t) (ct_gMax t)
                    (ct_bMin t) (ct_bMax t)
    then (true, playAudio (audioFile t) s)
    else checkColor rest s
  end.

Fixpoint checkPainterColor (thresholds : list PainterColor) (s : State)
  : bool * State :=
  match thresholds with
  | [] => (false, s)
  | t :: rest =>
    if matches (rgb s) (pc_rMin t) (pc_rMax t) (pc_gMin t) (pc_gMax t)
               (pc_bMin t) (pc_bMax t)
    then
      let painterIndex := painterIndexOf (painterId t) in
      if 0 <=? painterIndex then
        (true,
         set_painterCollectionStatus
           (grid_set painterIndex (colorIndex t - 1) true
                     (painterCollectionStatus s)) s)
      else checkPainterColor rest s
    else checkPainterColor rest s
  end.

Definition row_complete (painter : nat) (s : State) : bool :=
  forallb (fun color => grid_get painter color (painterCollectionStatus s))
          (seq 0 5).

Definition reset_row (painter : nat) (s : State) : State :=
  fold_left
    (fun s color =>
       set_painterCollectionStatus
         (grid_set (Z.of_nat painter) (Z.of_nat color) false
                   (painterCollectionStatus s)) s)
    (seq 0 5) s.

(** The body of the [for (painter ...)] loop of [checkPainterCompletion]. *)
Definition completion_step (s : State) (painter : nat) : State :=
  if row_complete painter s then
    s |> blinkLEDs 2
      |> playAudio (nth painter painterNames "")
      |> set_isColorDetectionEnabled false
      |> reset_row painter
  else s.

Definition checkPainterCompletion (s : State) : State :=
  fold_left completion_step (seq 0 6) s.

(** ** Mode management *)

Definition switchMode (s : State) : State :=
  let s := emit EvSwitchMode s in
  let s := audio_stopSong s in
  let s := set_isLooping false s in
  let s := set_currentPlayingFile "" s in
  let s := set_currentMode
             (if mode_eqb (currentMode s) COLOR_RECOGNITION
              then PAINTER_COLLECTION else COLOR_RECOGNITION) s in
  let s := set_colorCounters (replicate COLOR_FAMILY_COUNT 0) s in
  let s := blinkLEDs (if mode_eqb (currentMode s) COLOR_RECOGNITION
                      then 1 else 2) s in
  if mode_eqb (currentMode s) PAINTER_COLLECTION
  then resetAllPainterCollections s
  else s.

(** ** Power management *)

Definition prepareForSleep (s : State) : State :=
  s |> emit EvSleepAnimation |> audio_stopSong |> emit EvSensorDisable.

Definition enterDeepSleep (s : State) : State := emit EvDeepSleep s.

(** ** User interface *)

(** Modelled from the spec: [checkColorAndPlayAudio] is called by
    [handleButton] but its body is not part of the sketch; the spec has
    it perform one final classification pass over the Detection table. *)
Definition checkColorAndPlayAudio (s : State) : State :=
  snd (checkColor colorThresholds s).

(** Modelled from the spec: [playNextTrack] and [playPreviousTrack] are
    called by [handleEncoder] but their bodies are not part of the
    sketch; the spec has them as the track-navigation intents. *)
Definition playNextTrack (s : State) : State := emit EvNextTrack s.
Definition playPreviousTrack (s : State) : State := emit EvPreviousTrack s.

Definition handleButton (currentButtonState : bool) (now : Z) (s : State)
  : Res :=
  (* Button press handling *)
  let s :=
    if negb currentButtonState && lastButtonState s then
      s |> set_buttonPressStartTime now
        |> set_isLongPressing true
        |> set_sleepPressStartTime now
        |> set_isSleepPressing true
        |> set_isEncoderPressed true
        |> set_volumeAdjustedWhilePressed false
    else s in
  (* Check for sleep mode trigger *)
  if isSleepPressing s && negb currentButtonState
     && (SLEEP_PRESS_DURATION <=? elapsed now (sleepPressStartTime s))
  then DeepSleep (s |> prepareForSleep |> enterDeepSleep)
  else
    (* Long press detection for mode switching *)
    let s :=
      if isLongPressing s && negb currentButtonState
         && (MODE_SWITCH_PRESS_DURATION <=? elapsed now (buttonPressStartTime s))
      then
        (if negb (volumeAdjustedWhilePressed s) then switchMode s else s)
        |> set_isLongPressing false
      else s in
    (* Button release handling *)
    let s :=
      if currentButtonState && negb (lastButtonState s) then
        let s := set_isEncoderPressed false s in
        let s :=
          if (elapsed now (buttonPressStartTime s) <? MODE_SWITCH_PRESS_DURATION)
             && negb (volumeAdjustedWhilePressed s)
          then
            let s := set_isColorDetectionEnabled
                       (negb (isColorDetectionEnabled s)) s in
            let s := emit (EvToggleDetection (isColorDetectionEnabled s)) s in
            let s := if mode_eqb (currentMode s) PAINTER_COLLECTION
                     then resetAllPainterCollections s else s in
            if negb (isColorDetectionEnabled s) then
              let s := emit EvShowColor s in
              if mode_eqb (currentMode s) COLOR_RECOGNITION
              then checkColorAndPlayAudio s else s
            else
              s |> set_isLooping false |> audio_stopSong
          else s in
        s |> set_volumeAdjustedWhilePressed false
          |> set_isLongPressing false
          |> set_isSleepPressing false
      else s in
    Running (set_lastButtonState currentButtonState s).

(** The direction the transition table gives for a phase pair read after
    [lastEncoded]. *)
Definition encode (MSB LSB : bool) : Z :=
  Z.lor (Z.shiftl (Z.b2z MSB) 1) (Z.b2z LSB).

Definition direction (lastEncoded : Z) (MSB LSB : bool) : Z :=
  decode (Z.lor (Z.shiftl lastEncoded 2) (encode MSB LSB) mod 256).

Definition adjustVolume (v : Z) (now : Z) (s : State) : State :=
  s |> set_currentVolume v
    |> audio_setVolume v
    |> displayVolumeOnLeds now
    |> set_volumeAdjustedWhilePressed true.

Definition handleEncoder (MSB LSB : bool) (now : Z) (s : State) : State :=
  let encoded := encode MSB LSB in
  let dir := direction (lastEncoded s) MSB LSB in
  let s := set_lastEncoded encoded s in
  if dir =? 0 then s
  else if dir =? lastDir s then
    let s := set_validRotations (validRotations s + 1) s in
    if 1 <=? validRotations s then
      let currentTime := now in
      if isEncoderPressed s then
        (* Volume control when encoder is pressed *)
        if ROTATION_DEBOUNCE <? elapsed currentTime (lastRotationTime s) then
          let s :=
            if 0 <? dir then
              if MIN_VOLUME <? currentVolume s
              then adjustVolume (currentVolume s - VOLUME_STEP) now s
              else s
            else
              if currentVolume s <? MAX_VOLUME
              then adjustVolume (currentVolume s + VOLUME_STEP) now s
              else s in
          s |> set_validRotations 0 |> set_lastRotationTime currentTime
        else s
      else
        (* Track navigation when encoder is not pressed *)
        if (TRACK_NAVIGATION_DEBOUNCE
              <? elapsed currentTime (lastTrackNavigationTime s))
           && negb (isColorDetectionEnabled s)
        then
          (if 0 <? dir then playNextTrack s else playPreviousTrack s)
          |> set_validRotations 0
          |> set_lastTrackNavigationTime currentTime
        else s
    else s
  else
    (* Direction changed, reset counter and record new direction *)
    s |> set_lastDir dir |> set_validRotations 2.

(** ** Main loop *)

Definition readColor (c : Sample) (s : State) : State := set_rgb c s.

(** [calculateLeds], [adjustBrightness] and [FastLED.show] together. *)
Definition showColor (s : State) : State := emit EvShowColor s.

Definition classify (s : State) : State :=
  if mode_eqb (currentMode s) COLOR_RECOGNITION then
    snd (checkColor colorThresholds s)
  else
    let s := snd (checkPainterColor daliColors s) in
    let s := snd (checkPainterColor goghColors s) in
    let s := snd (checkPainterColor munchColors s) in
    let s := snd (checkPainterColor picassoColors s) in
    let s := snd (checkPainterColor seuratColors s) in
    let s := snd (checkPainterColor vinciColors s) in
    checkPainterCompletion s.

(** The [else] branch of [loop]: restart of a looping track that ended. *)
Definition continuePlayback (s : State) : State :=
  if isLooping s then
    if negb (audioRunning s) then
      if negb (String.eqb (currentPlayingFile s) "") then
        let '(ok, s) := audio_connecttoFS (currentPlayingFile s) s in
        if negb ok then set_isLooping false s else s
      else s
    else audio_loop s
  else s.

(** Everything [loop] does after [handleButton] has returned. *)
Definition afterButton (i : Input) (s : State) : State :=
  let s := handleEncoder (in_A i) (in_B i) (in_millis_encoder i) s in
  let s :=
    if isShowingVolume s
       && (VOLUME_DISPLAY_DURATION
             <? elapsed (in_millis_loop i) (volumeDisplayStartTime s))
    then restoreOriginalLeds s else s in
  let s :=
    if isColorDetectionEnabled s
    then s |> readColor (in_sample i) |> showColor |> classify
    else continuePlayback s in
  if audioRunning s then audio_loop s else s.

Definition loop (i : Input) (s : State) : Res :=
  match handleButton (in_button i) (in_millis_button i) s with
  | DeepSleep s => DeepSleep s
  | Running s => Running (afterButton i s)
  end.

(** Between two passes the decoder may reach the end of the file, after
    which [audio.isRunning()] is false. *)
Definition tick (i : Input) (s : State) : Res :=
  loop i (if in_audio_ended i then set_audioRunning false s else s).

Fixpoint run (inputs : list Input) (s : State) : Res :=
  match inputs with
  | [] => Running s
  | i :: rest =>
    match tick i s with
    | DeepSleep s => DeepSleep s
    | Running s => run rest s
    end
  end.

End Device.

(** ** Reading the log *)

Definition count (p : Event -> bool) (l : list Event) : Z :=
  Z.of_nat (length (List.filter p l)).

Definition is_switch (e : Event) : bool :=
  match e with EvSwitchMode => true | _ => false end.
Definition is_toggle (e : Event) : bool :=
  match e with EvToggleDetection _ => true | _ => false end.
Definition is_sleep (e : Event) : bool :=
  match e with EvDeepSleep => true | _ => false end.
Definition is_connect (e : Event) : bool :=
  match e with EvConnect _ _ => true | _ => false end.
Definition is_visual (e : Event) : bool :=
  match e with
  | EvBlink _ | EvShowVolume _ | EvRestoreLeds | EvShowColor
  | EvSleepAnimation => true
  | _ => false
  end.

(** The rotation intents: a volume step, or a track step. *)
Definition is_intent (e : Event) : bool :=
  match e with
  | EvSetVolume _ | EvNextTrack | EvPreviousTrack => true
  | _ => false
  end.

(** What the arbiter and the decoder decide: everything [handleButton] and
    [handleEncoder] can announce and the rest of [loop] cannot. *)
Definition is_input_event (e : Event) : bool :=
  is_switch e || is_toggle e || is_sleep e || is_intent e.

(** The file names [playTrack] was asked for, oldest first. *)
Fixpoint played (l : list Event) : list string :=
  match l with
  | [] => []
  | EvPlayTrack f :: l => f :: played l
  | _ :: l => played l
  end.

(** The asset [checkPainterCompletion] asks for when row [painter] is full. *)
Definition completionAsset (painter : nat) : string :=
  fit32 ("/" +:+ nth painter painterNames "" +:+ ".mp3").

Definition row_clear (painter : nat) (s : State) : Prop :=
  forall color, (color < 5)%nat ->
    grid_get painter color (painterCollectionStatus s) = false.

Definition same_row (painter : nat) (s s' : State) : Prop :=
  forall color,
    grid_get painter color (painterCollectionStatus s')
    = grid_get painter color (painterCollectionStatus s).

(** The state the classifier works on, and the state of the display. *)
Definition classification (s : State) :=
  (currentMode s, isColorDetectionEnabled s, colorCounters s,
   painterCollectionStatus s, rgb s).

Definition visual (s : State) :=
  (isShowingVolume s, volumeDisplayStartTime s, List.filter is_visual (log s)).

(** The grid after the inner [for (color ...)] loop that clears one row. *)
Definition clear_row (painter : nat) (grid : list (list bool))
  : list (list bool) :=
  fold_left (fun g color => grid_set (Z.of_nat painter) (Z.of_nat color) false g)
            (seq 0 5) grid.

Definition empty_grid : list (list bool) := replicate 6 (replicate 5 false).

(** A row is either as it was or cleared. *)
Definition row_kept (painter : nat) (s s' : State) : Prop :=
  same_row painter s s' \/ row_clear painter s'.

Definition no_full_row (s : State) : Prop :=
  forall painter, (painter < 6)%nat -> row_complete painter s = false.

(** Whether the request for the completion asset of [painter] starts
    playback: the file is on the card and the decoder opens it. *)
Definition starts {board : Board} (painter : nat) : bool :=
  SD_exists (completionAsset painter)
  && connecttoFS (fit32 (completionAsset painter)).

(** Of the full rows, in scan order, those whose asset is requested: all
    up to and including the first whose playback starts. *)
Fixpoint announced {board : Board} (full : list nat) : list nat :=
  match full with
  | [] => []
  | p :: rest => if starts p then [p] else p :: announced rest
  end.

Definition full_rows (s : State) (ps : list nat) : list nat :=
  List.filter (fun p => row_complete p s) ps.

(** The state after the six palette probes of a Collection pass. *)
Definition probed {board : Board} (s : State) : State :=
  let s := snd (checkPainterColor daliColors s) in
  let s := snd (checkPainterColor goghColors s) in
  let s := snd (checkPainterColor munchColors s) in
  let s := snd (checkPainterColor picassoColors s) in
  let s := snd (checkPainterColor seuratColors s) in
  snd (checkPainterColor vinciColors s).


(** ** What each part of [loop] leaves alone *)

Definition is_arbiter_event (e : Event) : bool :=
  is_switch e || is_toggle e || is_sleep e.

Definition is_volume (e : Event) : bool :=
  match e with EvSetVolume _ => true | _ => false end.

Definition arbiter_view (s : State) :=
  (lastButtonState s, buttonPressStartTime s, isLongPressing s,
   sleepPressStartTime s, isSleepPressing s, isEncoderPressed s).

Definition decoder_view (s : State) :=
  (lastEncoded s, lastDir s, validRotations s, lastRotationTime s,
   lastTrackNavigationTime s).

Definition volume_view (s : State) :=
  (currentVolume s, volumeAdjustedWhilePressed s).

(** The state of the two input handlers, with what they announced. *)
Definition input_view (s : State) :=
  (arbiter_view s, decoder_view s, volume_view s,
   List.filter is_input_event (log s)).

(** What [handleEncoder] cannot touch. *)
Definition beside_encoder (s : State) :=
  (arbiter_view s, classification s, isLooping s, currentPlayingFile s,
   audioRunning s, List.filter is_arbiter_event (log s), played (log s),
   List.filter is_connect (log s)).

(** What [handleButton] cannot touch. *)
Definition beside_button (s : State) :=
  (decoder_view s, currentVolume s, List.filter is_intent (log s)).

(** A step in which the decoder is asked to open a file only on behalf
    of a request made to [playTrack]: it opens no more files than
    [playTrack] was asked for. *)
Definition opens_on_request (s s' : State) : Prop :=
  exists cs ps,
    List.filter is_connect (log s') = List.filter is_connect (log s) ++ cs
    /\ played (log s') = played (log s) ++ ps
    /\ (length cs <= length ps)%nat.

(** A step that leaves the grid as it is or empties it. *)
Definition grid_kept (s s' : State) : Prop :=
  painterCollectionStatus s' = painterCollectionStatus s
  \/ painterCollectionStatus s' = empty_grid.

Section Parts.

Context {board : Board}.

(** What [loop] does after [handleEncoder]. *)
Definition afterEncoder (i : Input) (s : State) : State :=
  let s :=
    if isShowingVolume s
       && (VOLUME_DISPLAY_DURATION
             <? elapsed (in_millis_loop i) (volumeDisplayStartTime s))
    then restoreOriginalLeds s else s in
  let s :=
    if isColorDetectionEnabled s
    then s |> readColor (in_sample i) |> showColor |> classify
    else continuePlayback s in
  if audioRunning s then audio_loop s else s.

(** The short-press branch of [handleButton]. *)
Definition toggleDetection (s : State) : State :=
  let s := set_isColorDetectionEnabled (negb (isColorDetectionEnabled s)) s in
  let s := emit (EvToggleDetection (isColorDetectionEnabled s)) s in
  let s := if mode_eqb (currentMode s) PAINTER_COLLECTION
           then resetAllPainterCollections s else s in
  if negb (isColorDetectionEnabled s) then
    let s := emit EvShowColor s in
    if mode_eqb (currentMode s) COLOR_RECOGNITION
    then checkColorAndPlayAudio s else s
  else
    s |> set_isLooping false |> audio_stopSong.

(** The end of the release branch of [handleButton]. *)
Definition disarm (s : State) : State :=
  s |> set_volumeAdjustedWhilePressed false
    |> set_isLongPressing false
    |> set_isSleepPressing false.

(** The state [handleButton] returns on the press edge, on a pass with
    the button still down that does not end in sleep, and on the release
    edge. *)
Definition pressEdge (now : Z) (s : State) : State :=
  s |> set_buttonPressStartTime now
    |> set_isLongPressing true
    |> set_sleepPressStartTime now
    |> set_isSleepPressing true
    |> set_isEncoderPressed true
    |> set_volumeAdjustedWhilePressed false
    |> set_lastButtonState LOW.

Definition stillDown (now : Z) (s : State) : State :=
  (if isLongPressing s
      && (MODE_SWITCH_PRESS_DURATION <=? elapsed now (buttonPressStartTime s))
   then (if negb (volumeAdjustedWhilePressed s) then switchMode s else s)
        |> set_isLongPressing false
   else s)
  |> set_lastButtonState LOW.

Definition releaseEdge (now : Z) (s : State) : State :=
  (let s := set_isEncoderPressed false s in
   if (elapsed now (buttonPressStartTime s) <? MODE_SWITCH_PRESS_DURATION)
      && negb (volumeAdjustedWhilePressed s)
   then toggleDetection s else s)
  |> disarm |> set_lastButtonState HIGH.

End Parts.

Section Pass.

Context {board : Board}.

(** The state [loop] starts from when the decoder may have reached the
    end of the file since the previous pass. *)
Definition betweenPasses (i : Input) (s : State) : State :=
  if in_audio_ended i then set_audioRunning false s else s.

End Pass.

(** ** Holds and rotations *)

Definition arbiter_log (s : State) : list Event :=
  List.filter is_arbiter_event (log s).

(** The button is down, and was pressed at [t0]. *)
Definition holding (t0 : Z) (s : State) : Prop :=
  lastButtonState s = LOW
  /\ isSleepPressing s = true
  /\ sleepPressStartTime s = t0
  /\ buttonPressStartTime s = t0
  /\ isEncoderPressed s = true.

Definition button_down (i : Input) : Prop := in_button i = LOW.

(** The time since [t0] that [handleButton] computes on pass [i]. *)
Definition held_for (t0 : Z) (i : Input) : Z :=
  elapsed (in_millis_button i) t0.

(** The directions the transition table gives for a sequence of passes,
    when the phase pair read last was [e]. *)
Fixpoint directions (e : Z) (passes : list Input) : list Z :=
  match passes with
  | [] => []
  | i :: rest =>
    direction e (in_A i) (in_B i) :: directions (encode (in_A i) (in_B i)) rest
  end.

(** The phase pair read last. *)
Definition phase (e : Z) (passes : list Input) : Z :=
  fold_left (fun _ i => encode (in_A i) (in_B i)) passes e.

(** The last direction other than zero, or zero when there was none. *)
Definition reported (r : Z) (ds : list Z) : Z :=
  fold_left (fun acc d => if d =? 0 then acc else d) ds r.

(** A rotation in direction [d] finds the volume [v] at the end of its
    range: clockwise lowers it, counter-clockwise raises it. *)
Definition at_boundary (v d : Z) : Prop :=
  (0 < d -> v = MIN_VOLUME) /\ (d < 0 -> v = MAX_VOLUME).


(** ** A sample board

    One card and one set of tables, for running the sketch on concrete
    inputs: every asset is on the card except ["/B1.mp3"], the decoder
    opens every file except ["/G1.mp3"], and the Dali and Gogh palettes
    use the same five ranges. *)

Definition sampleThreshold (rMin rMax gMin gMax bMin bMax : Z) (id : string)
  : ColorThreshold :=
  mkColorThreshold rMin rMax gMin gMax bMin bMax id id.

Definition samplePalette (painter : string) : list PainterColor :=
  map (fun k => mkPainterColor (40 * k) (40 * k + 20) 100 120 100 120 painter k)
      [1; 2; 3; 4; 5].

Definition sampleFamily (name : string) : Z :=
  if String.prefix "R" name then 0
  else if String.prefix "G" name then 3
  else if String.prefix "B" name then 4
  else -1.

Definition sampleBoard : Board :=
  {| SD_exists := fun f => negb (String.eqb f "/B1.mp3");
     connecttoFS := fun f => negb (String.eqb f "/G1.mp3");
     getBaseColorName := fun name => substring 0 1 name;
     getColorFamilyIndex := sampleFamily;
     colorThresholds :=
       [ sampleThreshold 0 0 0 0 0 0 "unused";
         sampleThreshold 200 255 0 50 0 50 "R1";
         sampleThreshold 0 50 200 255 0 50 "G1";
         sampleThreshold 0 50 0 50 200 255 "B1" ];
     daliColors := samplePalette "Dali";
     goghColors := samplePalette "Gogh";
     munchColors := [];
     picassoColors := [];
     seuratColors := [];
     vinciColors := [] |}.

Definition color (r g b : Z) : Sample :=
  mkSample (Finite (inject_Z r)) (Finite (inject_Z g)) (Finite (inject_Z b)).

Definition red : Sample := color 220 10 10.
Definition green : Sample := color 10 220 10.
Definition blue : Sample := color 10 10 220.
Definition dark : Sample := color 0 0 0.
Definition paint (k : Z) : Sample := color (40 * k + 10) 110 110.

(** One pass at time [t] with the encoder at rest. *)
Definition pass (button : bool) (t : Z) (c : Sample) : Input :=
  mkInput button false false t t t c false.

(** One pass at time [t] with the encoder lines at [A], [B]. *)
Definition turn (button A B : bool) (t : Z) : Input :=
  mkInput button A B t t t dark false.

Definition state_of (r : Res) : State :=
  match r with Running s | DeepSleep s => s end.

(** A long press into Collection mode, then a short press that turns
    sensing on. *)
Definition enterCollection : list Input :=
  [ pass LOW 0 dark; pass LOW 3000 dark; pass HIGH 3500 dark;
    pass LOW 4000 dark; pass HIGH 4100 dark ].

(** Collection mode with sensing on and the first four colours of the
    Dali and Gogh palettes collected. *)
Definition fourCollected : list Input :=
  enterCollection
  ++ [ pass HIGH 4200 (paint 1); pass HIGH 4300 (paint 2);
       pass HIGH 4400 (paint 3); pass HIGH 4500 (paint 4) ].

(** Detection mode with sensing on and a red sample just matched. *)
Definition redPlaying : list Input :=
  [ pass LOW 0 dark; pass HIGH 100 red ].

(** A press, a hold past the mode-switch threshold, then two clockwise
    steps of the encoder with the button still down. *)
Definition switchThenRotate : list Input :=
  [ pass LOW 0 dark; pass LOW 3000 dark;
    turn LOW true false 3100; turn LOW true true 3200 ].


(** * The LED ring

    The core above records the calls of the LED functions as events. This
    part models what the same functions do to the pixel buffer [leds], to
    the saved copy [originalLedColors] and to the brightness of the
    strip, and records every [FastLED.show()] with the buffer and the
    brightness it puts on the ring. Delays are not modelled. The suffix
    [_ring] tells these versions of [displayVolumeOnLeds],
    [restoreOriginalLeds] and [blinkLEDs], and their two flags, from the
    ones of the core. *)

Definition NUM_LEDS : nat := 12.
Definition BRIGHTNESS : Z := 255.

Record CRGB := mkCRGB { crgb_r : Z; crgb_g : Z; crgb_b : Z }.

Definition White : CRGB := mkCRGB 255 255 255.
Definition Black : CRGB := mkCRGB 0 0 0.

(** What the LED functions take from the Arduino core: [map], the
    integer rescaling of a value from one range to another. *)
Class Core := {
  arduino_map : Z -> Z -> Z -> Z -> Z -> Z
}.

Record Ring := mkRing {
  leds : list CRGB;
  originalLedColors : list CRGB;
  ring_isShowingVolume : bool;
  ring_volumeDisplayStartTime : Z;
  brightness : Z;
  shown : list (list CRGB * Z)
}.

Definition set_leds (v : list CRGB) (r : Ring) : Ring :=
  mkRing v (originalLedColors r) (ring_isShowingVolume r)
         (ring_volumeDisplayStartTime r) (brightness r) (shown r).
Definition set_originalLedColors (v : list CRGB) (r : Ring) : Ring :=
  mkRing (leds r) v (ring_isShowingVolume r) (ring_volumeDisplayStartTime r)
         (brightness r) (shown r).
Definition set_ring_isShowingVolume (v : bool) (r : Ring) : Ring :=
  mkRing (leds r) (originalLedColors r) v (ring_volumeDisplayStartTime r)
         (brightness r) (shown r).
Definition set_ring_volumeDisplayStartTime (v : Z) (r : Ring) : Ring :=
  mkRing (leds r) (originalLedColors r) (ring_isShowingVolume r) v
         (brightness r) (shown r).
Definition set_brightness (v : Z) (r : Ring) : Ring :=
  mkRing (leds r) (originalLedColors r) (ring_isShowingVolume r)
         (ring_volumeDisplayStartTime r) v (shown r).
Definition set_shown (v : list (list CRGB * Z)) (r : Ring) : Ring :=
  mkRing (leds r) (originalLedColors r) (ring_isShowingVolume r)
         (ring_volumeDisplayStartTime r) (brightness r) v.

(** [fill_solid(leds, NUM_LEDS, c)]. *)
Definition fill_solid (c : CRGB) (r : Ring) : Ring :=
  set_leds (replicate NUM_LEDS c) r.

(** [FastLED.setBrightness] takes a [uint8_t]. *)
Definition FastLED_setBrightness (scale : Z) (r : Ring) : Ring :=
  set_brightness (scale mod 256) r.

Definition FastLED_show (r : Ring) : Ring :=
  set_shown (shown r ++ [(leds r, brightness r)]) r.

(** The macro [constrain(amt, low, high)]. *)
Definition constrain (amt low high : Z) : Z :=
  if amt <? low then low else if high <? amt then high else amt.

Section Functions.

Context {core : Core}.

(** [lux] is the value [map] receives; the sketch declares the global
    outside this file. The result of [map] is stored in a [uint8_t]
    before it is constrained. *)
Definition adjustBrightness (lux : Z) (r : Ring) : Ring :=
  let brightness := arduino_map lux 0 4000 10 BRIGHTNESS mod 256 in
  let brightness := constrain brightness 10 BRIGHTNESS mod 256 in
  FastLED_setBrightness brightness r.

(** A write past the end of [leds] is undefined in C++; the model leaves
    the buffer as it is there. *)
Definition displayVolumeOnLeds_ring (currentVolume now : Z) (r : Ring)
  : Ring :=
  (* Save original LED colors *)
  let r :=
    if negb (ring_isShowingVolume r)
    then r |> set_originalLedColors (leds r) |> set_ring_isShowingVolume true
    else r in
  (* Calculate number of LEDs to light based on volume *)
  let ledsToLight :=
    arduino_map currentVolume MIN_VOLUME MAX_VOLUME 0 (Z.of_nat NUM_LEDS) in
  (* Clear all LEDs *)
  let r := fill_solid Black r in
  (* Light LEDs for volume indication (white) *)
  let r :=
    fold_left
      (fun r i => r |> set_leds (<[i := White]> (leds r))
                    |> FastLED_setBrightness 100)
      (seq 0 (Z.to_nat ledsToLight)) r in
  (* Update display *)
  let r := FastLED_show r in
  (* Record display start time *)
  set_ring_volumeDisplayStartTime now r.

End Functions.

Definition restoreOriginalLeds_ring (r : Ring) : Ring :=
  if ring_isShowingVolume r then
    r |> set_leds (originalLedColors r) |> FastLED_show
      |> set_ring_isShowingVolume false
  else r.

Definition blinkLEDs_ring (count : Z) (r : Ring) : Ring :=
  (* Save original colors *)
  let originalColors := leds r in
  (* Blink specified number of times *)
  let r :=
    fold_left
      (fun r _ => r |> fill_solid White |> FastLED_show
                    |> fill_solid Black |> FastLED_show)
      (seq 0 (Z.to_nat count)) r in
  (* Restore original colors *)
  r |> set_leds originalColors |> FastLED_show.

(** The usual [map] of the Arduino core, with the division of C. *)
Definition linearMap (x in_min in_max out_min out_max : Z) : Z :=
  Z.quot ((x - in_min) * (out_max - out_min)) (in_max - in_min) + out_min.

Definition linearCore : Core := {| arduino_map := linearMap |}.

(** A ring of one colour, at full brightness, with nothing shown yet. *)
Definition plainRing (c : CRGB) : Ring :=
  mkRing (replicate NUM_LEDS c) (replicate NUM_LEDS Black) false 0
         BRIGHTNESS [].

(** [displayVolumeOnLeds_ring] called for each (volume, time) of a list. *)
Definition displays {core : Core} (calls : list (Z * Z)) (r : Ring)
  : Ring :=
  fold_left (fun r c => displayVolumeOnLeds_ring (fst c) (snd c) r) calls r.

(** The ring with its first [n] pixels white and the rest black. *)
Definition volumeBar (n : nat) : list CRGB :=
  replicate n White ++ replicate (NUM_LEDS - n) Black.

(** The number of pixels [displayVolumeOnLeds_ring] lights for volume [v]. *)
Definition ledsToLight {core : Core} (v : Z) : Z :=
  arduino_map v MIN_VOLUME MAX_VOLUME 0 (Z.of_nat NUM_LEDS).

(** The bar for volume [v] fits the ring. *)
Definition bar_fits {core : Core} (v : Z) : Prop :=
  0 <= ledsToLight v <= Z.of_nat NUM_LEDS.

(** The frames [blinkLEDs_ring] shows in one round: all white, then all
    black, at brightness [b]. *)
Definition blinkRound (b : Z) : list (list CRGB * Z) :=
  [(replicate NUM_LEDS White, b); (replicate NUM_LEDS Black, b)].

(** ** Readings of the state for the further properties *)

(** Entry [t] of the Detection table is defined (its red range is not
    0..0) and the sample lies in its three ranges. *)
Definition hits (c : Sample) (t : ColorThreshold) : bool :=
  negb ((ct_rMin t =? 0) && (ct_rMax t =? 0))
  && matches c (ct_rMin t) (ct_rMax t) (ct_gMin t) (ct_gMax t)
             (ct_bMin t) (ct_bMax t).

(** The sample lies in the ranges of palette entry [t], and [t] names
    one of the six painters. *)
Definition collects (c : Sample) (t : PainterColor) : bool :=
  matches c (pc_rMin t) (pc_rMax t) (pc_gMin t) (pc_gMax t)
          (pc_bMin t) (pc_bMax t)
  && (0 <=? painterIndexOf (painterId t)).

(** The grid with the cell of palette entry [t] set. *)
Definition mark (t : PainterColor) (s : State) : State :=
  set_painterCollectionStatus
    (grid_set (painterIndexOf (painterId t)) (colorIndex t - 1) true
              (painterCollectionStatus s)) s.

(** The grid has its six rows of five cells. *)
Definition grid_shaped (grid : list (list bool)) : Prop :=
  length grid = 6%nat /\ Forall (fun row => length row = 5%nat) grid.

(** A channel of the sample is not a number. *)
Definition non_finite (c : Sample) : Prop :=
  sample_r c = NonFinite \/ sample_g c = NonFinite \/ sample_b c = NonFinite.

Definition otherMode (m : OperationMode) : OperationMode :=
  match m with
  | COLOR_RECOGNITION => PAINTER_COLLECTION
  | PAINTER_COLLECTION => COLOR_RECOGNITION
  end.

(** The mode the sketch is in after a number of mode switches since
    boot. *)
Definition mode_after (switches : Z) : OperationMode :=
  if Z.even switches then COLOR_RECOGNITION else PAINTER_COLLECTION.

(** One counter for each colour family, each below the threshold. *)
Definition counters_ok (counters : list Z) : Prop :=
  length counters = COLOR_FAMILY_COUNT
  /\ Forall (fun c => 0 <= c < COLOR_COUNT_THRESHOLD) counters.

(** The part of the state the invariants below speak about. *)
Definition ledger (s : State) :=
  (currentMode s, colorCounters s, currentPlayingFile s, currentVolume s,
   count is_switch (log s)).

(** What holds of the state after every pass of [loop], once the sketch
    has booted. *)
Definition tidy (s : State) : Prop :=
  counters_ok (colorCounters s)
  /\ (String.length (currentPlayingFile s) <= 31)%nat
  /\ MIN_VOLUME <= currentVolume s <= MAX_VOLUME
  /\ currentMode s = mode_after (count is_switch (log s)).

Definition is_restore (e : Event) : bool :=
  match e with EvRestoreLeds => true | _ => false end.

Definition is_show_color (e : Event) : bool :=
  match e with EvShowColor => true | _ => false end.

(** The book-keeping of the volume bar (whether the sketch takes it to
    be up, since when, and how often it has called
    [restoreOriginalLeds]), with the number of times the sensed colour
    has been painted on the ring. *)
Definition bar (s : State) :=
  (isShowingVolume s, volumeDisplayStartTime s, count is_restore (log s),
   count is_show_color (log s)).

(** ** The claims that the sketch does not meet, as they are worded *)

(** C1 as worded: a hold seen at or past the sleep threshold fires the
    sleep call once and neither the mode switch nor the toggle. *)
Definition sleep_hold_fires_nothing_else : Prop :=
  forall (board : Board) (s : State) (press : Input) (held : list Input),
    lastButtonState s = HIGH ->
    button_down press ->
    Forall button_down held ->
    Exists (fun i => SLEEP_PRESS_DURATION
                     <= held_for (in_millis_button press) i) held ->
    exists x,
      run (press :: held) s = DeepSleep x
      /\ count is_sleep (log x) = count is_sleep (log s) + 1
      /\ count is_switch (log x) = count is_switch (log s)
      /\ count is_toggle (log x) = count is_toggle (log s).

(** C2 as worded: an intent is emitted only when the pass before it and
    the pass itself decoded the same direction, other than zero. *)
Definition intent_after_two_consecutive_passes : Prop :=
  forall (board : Board) (inputs : list Input) (prev i : Input)
         (s s' : State),
    run (inputs ++ [prev]) boot = Running s ->
    tick i s = Running s' ->
    List.filter is_intent (log s') <> List.filter is_intent (log s) ->
    let d := direction (phase 0 (inputs ++ [prev])) (in_A i) (in_B i) in
    d <> 0 /\ direction (phase 0 inputs) (in_A prev) (in_B prev) = d.

(** C3 as worded: whenever the probes of a Collection pass make a row
    full, the pass requests that row's completion asset, turns sensing off
    and clears the row. *)
Definition completion_always_announced : Prop :=
  forall (board : Board) (s : State) (T : nat),
    currentMode s = PAINTER_COLLECTION ->
    (T < 6)%nat ->
    row_complete T (probed s) = true ->
    let s' := classify s in
    (exists before after,
        played (log s') = played (log s) ++ before ++ completionAsset T :: after)
    /\ isColorDetectionEnabled s' = false
    /\ row_clear T s'.

(** C5 as worded: every mode switch issues no playback request, zeroes the
    counters, clears every grid entry and toggles the mode. *)
Definition switch_clears_all : Prop :=
  forall (board : Board) (s : State),
    let s' := switchMode s in
    played (log s') = played (log s)
    /\ colorCounters s' = replicate COLOR_FAMILY_COUNT 0
    /\ (forall painter color,
          grid_get painter color (painterCollectionStatus s') = false)
    /\ currentMode s' <> currentMode s.

(** C6 as worded: a hold in which the volume was adjusted fires neither
    the mode switch nor the toggle. *)
Definition rotation_excludes_switch : Prop :=
  forall (board : Board) (s : State) (press : Input) (held : list Input)
         (release : Input) (x : State),
    lastButtonState s = HIGH ->
    button_down press ->
    Forall button_down held ->
    in_button release = HIGH ->
    run (press :: held ++ [release]) s = Running x ->
    count is_volume (log x) <> count is_volume (log s) ->
    count is_switch (log x) = count is_switch (log s)
    /\ count is_toggle (log x) = count is_toggle (log s).

(** C7 as worded: a request that fails, at the existence check or at the
    play call, leaves the looping flag cleared and the classification and
    visual state as they were. *)
Definition failed_request_clears_looping : Prop :=
  forall (board : Board) (filename : string) (s : State),
    SD_exists filename = false \/ connecttoFS (fit32 filename) = false ->
    let s' := playTrack filename s in
    isLooping s' = false
    /\ classification s' = classification s
    /\ visual s' = visual s.

(** C8 as worded: on every pass, sensing or not, a looping asset that has
    ended is restarted in that pass. The button is taken to be at rest, so
    that nothing else changes the playback. *)
Definition continuation_on_every_pass : Prop :=
  forall (board : Board) (i : Input) (s x : State),
    lastButtonState s = HIGH ->
    in_button i = HIGH ->
    isLooping s = true ->
    currentPlayingFile s <> "" ->
    in_audio_ended i = true ->
    tick i s = Running x ->
    exists ok,
      List.filter is_connect (log x)
      = List.filter is_connect (log s) ++ [EvConnect (currentPlayingFile s) ok].

(** C9 as worded: every row that is full when the scan runs has its asset
    requested, in table order, and its own row, and only that row,
    cleared. *)
Definition completions_independent : Prop :=
  forall (board : Board) (s : State),
    currentMode s = PAINTER_COLLECTION ->
    let s' := checkPainterCompletion s in
    played (log s')
    = played (log s) ++ map completionAsset (full_rows s (seq 0 6))
    /\ forall q, (q < 6)%nat ->
                 (row_complete q s = true -> row_clear q s')
                 /\ (row_complete q s = false -> same_row q s s').


(** * Properties *)

Lemma count_app p l1 l2 : count p (l1 ++ l2) = count p l1 + count p l2.
Proof.
  unfold count. rewrite List.filter_app, length_app. lia.
Qed.

Lemma count_nil p : count p [] = 0.
Proof. reflexivity. Qed.

Lemma count_cons p e l :
  count p (e :: l) = (if p e then 1 else 0) + count p l.
Proof. unfold count. cbn [List.filter]. destruct (p e); cbn [length]; lia. Qed.


Lemma played_app l1 l2 : played (l1 ++ l2) = played l1 ++ played l2.
Proof.
  induction l1 as [|e l1 IH]; [reflexivity|].
  destruct e; simpl; rewrite ?IH; reflexivity.
Qed.

Lemma snoc_app {A} (l : list A) (a : A) (m : list A) :
  (l ++ [a]) ++ m = l ++ a :: m.
Proof. rewrite <- app_assoc. reflexivity. Qed.


Section Playback.

Context {board : Board}.

(** *** [switchMode] *)

(** The two ways through [switchMode]. *)
Lemma switchMode_cases s :
  (currentMode s = COLOR_RECOGNITION
   /\ switchMode s
      = s |> emit EvSwitchMode |> audio_stopSong |> set_isLooping false
          |> set_currentPlayingFile ""
          |> set_currentMode PAINTER_COLLECTION
          |> set_colorCounters (replicate COLOR_FAMILY_COUNT 0)
          |> blinkLEDs 2
          |> resetAllPainterCollections)
  \/ (currentMode s = PAINTER_COLLECTION
      /\ switchMode s
         = s |> emit EvSwitchMode |> audio_stopSong |> set_isLooping false
             |> set_currentPlayingFile ""
             |> set_currentMode COLOR_RECOGNITION
             |> set_colorCounters (replicate COLOR_FAMILY_COUNT 0)
             |> blinkLEDs 1).
Proof.
  unfold switchMode. cbv zeta.
  destruct (currentMode s) eqn:Hm; [left|right]; (split; [reflexivity|]);
    cbn; rewrite Hm; reflexivity.
Qed.

(** C5 (as amended). A mode switch logs the stop of the decoder and a
    blink and no playback request, leaves the decoder stopped and the
    looping flag and the saved name cleared, zeroes every repeat counter
    and toggles the mode; the grid is cleared when the switch enters
    Collection mode and left as it is when it enters Detection mode. *)
Theorem switchMode_effect (s : State) :
  let s' := switchMode s in
  log s' = log s ++ [EvSwitchMode; EvStopSong;
                     EvBlink (if mode_eqb (currentMode s) COLOR_RECOGNITION
                              then 2 else 1)]
  /\ audioRunning s' = false
  /\ isLooping s' = false
  /\ currentPlayingFile s' = ""
  /\ currentMode s' = (if mode_eqb (currentMode s) COLOR_RECOGNITION
                       then PAINTER_COLLECTION else COLOR_RECOGNITION)
  /\ colorCounters s' = replicate COLOR_FAMILY_COUNT 0
  /\ painterCollectionStatus s'
     = (if mode_eqb (currentMode s) COLOR_RECOGNITION
        then replicate 6 (replicate 5 false)
        else painterCollectionStatus s).
Proof.
  cbv zeta.
  destruct (switchMode_cases s) as [(Hm & ->)|(Hm & ->)]; rewrite Hm;
    cbn; rewrite !snoc_app; repeat split.
Qed.

End Playback.

Section Playback2.

Context {board : Board}.

(** *** [playTrack] *)

(** The four ways through [playTrack]. *)
Lemma playTrack_cases f s :
  (SD_exists f = false /\ playTrack f s = emit (EvPlayTrack f) s)
  \/ (SD_exists f = true /\ connecttoFS (fit32 f) = false
      /\ playTrack f s
         = s |> emit (EvPlayTrack f) |> audio_stopSong
             |> set_currentPlayingFile (fit32 f)
             |> set_audioRunning false
             |> emit (EvConnect (fit32 f) false)
             |> set_isLooping false)
  \/ (SD_exists f = true /\ connecttoFS (fit32 f) = true
      /\ currentMode s = COLOR_RECOGNITION
      /\ playTrack f s
         = s |> emit (EvPlayTrack f) |> audio_stopSong
             |> set_currentPlayingFile (fit32 f)
             |> set_audioRunning true
             |> emit (EvConnect (fit32 f) true)
             |> set_isLooping true)
  \/ (SD_exists f = true /\ connecttoFS (fit32 f) = true
      /\ currentMode s = PAINTER_COLLECTION
      /\ playTrack f s
         = s |> emit (EvPlayTrack f) |> audio_stopSong
             |> set_currentPlayingFile (fit32 f)
             |> set_audioRunning true
             |> emit (EvConnect (fit32 f) true)
             |> set_isLooping true
             |> resetAllPainterCollections).
Proof.
  unfold playTrack, audio_connecttoFS. cbv zeta.
  destruct (SD_exists f); [|left; split; reflexivity].
  right. change (currentPlayingFile
                   (set_currentPlayingFile (fit32 f)
                      (audio_stopSong (emit (EvPlayTrack f) s))))
    with (fit32 f).
  destruct (connecttoFS (fit32 f)) eqn:Hc.
  - right. destruct (currentMode s) eqn:Hm.
    + left. repeat split. cbn. rewrite Hm. reflexivity.
    + right. repeat split. cbn. rewrite Hm. reflexivity.
  - left. repeat split.
Qed.

Lemma playTrack_counters f s :
  colorCounters (playTrack f s) = colorCounters s
  /\ currentMode (playTrack f s) = currentMode s
  /\ played (log (playTrack f s)) = played (log s) ++ [f].
Proof.
  destruct (playTrack_cases f s)
    as [(_ & ->)|[(_ & _ & ->)|[(_ & _ & _ & ->)|(_ & _ & _ & ->)]]];
    cbn; rewrite ?snoc_app, played_app; repeat split.
Qed.

(** The two ways a request fails. *)
Lemma playTrack_failure_paths (filename : string) (s : State) :
  let s' := playTrack filename s in
  (SD_exists filename = false ->
     log s' = log s ++ [EvPlayTrack filename]
     /\ isLooping s' = isLooping s
     /\ audioRunning s' = audioRunning s
     /\ classification s' = classification s
     /\ visual s' = visual s)
  /\ (SD_exists filename = true ->
      connecttoFS (fit32 filename) = false ->
        log s' = log s ++ [EvPlayTrack filename; EvStopSong;
                           EvConnect (fit32 filename) false]
        /\ isLooping s' = false
        /\ audioRunning s' = false
        /\ classification s' = classification s
        /\ visual s' = visual s).
Proof.
  cbv zeta. split.
  - intros He.
    destruct (playTrack_cases filename s)
      as [(_ & ->)|[(? & _)|[(? & _)|(? & _)]]]; try congruence.
    unfold visual, classification. cbn.
    rewrite List.filter_app. cbn. rewrite app_nil_r. repeat split.
  - intros He Hc.
    destruct (playTrack_cases filename s)
      as [(? & _)|[(_ & _ & ->)|[(_ & ? & _)|(_ & ? & _)]]]; try congruence.
    unfold visual, classification. cbn.
    rewrite !snoc_app, List.filter_app. cbn. rewrite app_nil_r.
    repeat split.
Qed.

(** [playAudio] makes its request after it has counted the match and
    written the name it asks for. *)
Lemma playAudio_request name s :
  exists f t,
    playAudio name s = playTrack f t
    /\ log t = log s
    /\ isLooping t = isLooping s
    /\ audioRunning t = audioRunning s
    /\ (currentMode t, isColorDetectionEnabled t,
        painterCollectionStatus t, rgb t)
       = (currentMode s, isColorDetectionEnabled s,
          painterCollectionStatus s, rgb s)
    /\ visual t = visual s.
Proof.
  unfold playAudio. cbv zeta.
  destruct (mode_eqb (currentMode s) COLOR_RECOGNITION
            && (0 <=? getColorFamilyIndex name));
    [destruct (COLOR_COUNT_THRESHOLD <=? _)|];
    eexists _, _; (split; [reflexivity|]); repeat split.
Qed.

(** C7 (as amended). A request for a file that is not on the card is
    suppressed: the decoder is not called and the looping flag is left
    as it was, not cleared. A request the decoder fails to open is
    suppressed too: the previous playback has been stopped, nothing
    plays, and the looping flag is cleared. In both cases the
    classification state and the display are unchanged. A request made
    through [playAudio], which has counted the match before it asks for
    the file, fails in the same two ways: beside the repeat counters
    the classification state is unchanged there too. *)
Theorem playTrack_failure (filename : string) (s : State) :
  let s' := playTrack filename s in
  (SD_exists filename = false ->
     log s' = log s ++ [EvPlayTrack filename]
     /\ isLooping s' = isLooping s
     /\ audioRunning s' = audioRunning s
     /\ classification s' = classification s
     /\ visual s' = visual s)
  /\ (SD_exists filename = true ->
      connecttoFS (substring 0 31 filename) = false ->
        log s' = log s ++ [EvPlayTrack filename; EvStopSong;
                           EvConnect (substring 0 31 filename) false]
        /\ isLooping s' = false
        /\ audioRunning s' = false
        /\ classification s' = classification s
        /\ visual s' = visual s)
  /\ (forall colorName,
        let a := playAudio colorName s in
        exists f,
          played (log a) = played (log s) ++ [f]
          /\ (SD_exists f = false ->
                log a = log s ++ [EvPlayTrack f]
                /\ isLooping a = isLooping s
                /\ audioRunning a = audioRunning s
                /\ (currentMode a, isColorDetectionEnabled a,
                    painterCollectionStatus a, rgb a)
                   = (currentMode s, isColorDetectionEnabled s,
                      painterCollectionStatus s, rgb s)
                /\ visual a = visual s)
          /\ (SD_exists f = true ->
              connecttoFS (substring 0 31 f) = false ->
                log a = log s ++ [EvPlayTrack f; EvStopSong;
                                  EvConnect (substring 0 31 f) false]
                /\ isLooping a = false
                /\ audioRunning a = false
                /\ (currentMode a, isColorDetectionEnabled a,
                    painterCollectionStatus a, rgb a)
                   = (currentMode s, isColorDetectionEnabled s,
                      painterCollectionStatus s, rgb s)
                /\ visual a = visual s)).
Proof.
  cbv zeta. split; [|split].
  - exact (proj1 (playTrack_failure_paths filename s)).
  - exact (proj2 (playTrack_failure_paths filename s)).
  - intros colorName.
    destruct (playAudio_request colorName s)
      as (f & t & -> & Hl & Hloop & Hrun & Hcls & Hvis).
    exists f. split.
    { destruct (playTrack_counters f t) as (_ & _ & ->).
      rewrite Hl. reflexivity. }
    destruct (playTrack_failure_paths f t) as (Hmiss & Hfail).
    cbv zeta in Hmiss, Hfail. revert Hmiss Hfail.
    generalize (playTrack f t). intros a Hmiss Hfail.
    unfold classification, fit32 in Hmiss, Hfail.
    split.
    + intros He. destruct (Hmiss He) as (H1 & H2 & H3 & H4 & H5).
      injection H4 as Hm Hf _ Hg Hr. injection Hcls as Hm' Hf' Hg' Hr'.
      repeat split; congruence.
    + intros He Hc. destruct (Hfail He Hc) as (H1 & H2 & H3 & H4 & H5).
      injection H4 as Hm Hf _ Hg Hr. injection Hcls as Hm' Hf' Hg' Hr'.
      repeat split; congruence.
Qed.

(** *** [playAudio] *)

Lemma counter_at_set idx v s :
  (Z.to_nat idx < length (colorCounters s))%nat ->
  counter_at idx (set_counter idx v s) = v.
Proof.
  intros Hlen. unfold counter_at, set_counter. cbn.
  rewrite list_lookup_insert_eq by exact Hlen. reflexivity.
Qed.

Lemma counter_at_playTrack idx f s :
  counter_at idx (playTrack f s) = counter_at idx s.
Proof.
  unfold counter_at. destruct (playTrack_counters f s) as (-> & _).
  reflexivity.
Qed.

(** [playAudio] in Detection mode, for a colour whose family has a
    counter. *)
Lemma playAudio_detection colorName s :
  currentMode s = COLOR_RECOGNITION ->
  0 <= getColorFamilyIndex colorName ->
  let idx := getColorFamilyIndex colorName in
  let c := incr_uint8 (counter_at idx s) in
  let s1 := set_counter idx c s in
  playAudio colorName s
  = if COLOR_COUNT_THRESHOLD <=? counter_at idx s1 then
      let name := fit32 ("/" +:+ getBaseColorName colorName +:+ "X.mp3") in
      s1 |> set_counter idx 0 |> set_currentPlayingFile name |> playTrack name
    else
      let name := fit32 ("/" +:+ colorName +:+ ".mp3") in
      s1 |> set_currentPlayingFile name |> playTrack name.
Proof.
  intros Hmode Hidx. cbv zeta. unfold playAudio. rewrite Hmode.
  destruct (Z.leb_spec 0 (getColorFamilyIndex colorName)) as [_|]; [|lia].
  cbv zeta. cbn [mode_eqb andb].
  destruct (COLOR_COUNT_THRESHOLD <=? _); reflexivity.
Qed.

(** C4. In Detection mode a match of a colour whose family has a counter
    adds one to that counter and to no other. While the counter so
    raised is below 5 it stays raised and the asset of the matched
    colour itself is requested; when it reaches 5 the counter goes back
    to 0 and the family's special asset, the base name followed by X, is
    requested. The requested name is cut to the 31 characters the name
    buffer holds. The counter is a byte: below 255 adding one does not
    wrap. The mode and the number of counters stay as they were, so the
    next match is counted in the same way. *)
Theorem playAudio_repeat_counter (colorName : string) (s : State) :
  currentMode s = COLOR_RECOGNITION ->
  length (colorCounters s) = 16%nat ->
  0 <= getColorFamilyIndex colorName < 16 ->
  let idx := getColorFamilyIndex colorName in
  0 <= counter_at idx s < 255 ->
  let s' := playAudio colorName s in
  (counter_at idx s + 1 < 5 ->
     counter_at idx s' = counter_at idx s + 1
     /\ played (log s')
        = played (log s)
          ++ [substring 0 31 ("/" +:+ colorName +:+ ".mp3")])
  /\ (5 <= counter_at idx s + 1 ->
     counter_at idx s' = 0
     /\ played (log s')
        = played (log s)
          ++ [substring 0 31
                        ("/" +:+ getBaseColorName colorName +:+ "X.mp3")])
  /\ (forall other, 0 <= other -> other <> idx ->
        counter_at other s' = counter_at other s)
  /\ currentMode s' = COLOR_RECOGNITION
  /\ length (colorCounters s') = 16%nat.
Proof.
  intros Hmode Hsize [Hidx Hmax] idx Hc s'. subst s'.
  assert (Hlen : (Z.to_nat (getColorFamilyIndex colorName)
                  < length (colorCounters s))%nat) by (rewrite Hsize; lia).
  assert (Hinc : incr_uint8 (counter_at idx s) = counter_at idx s + 1)
    by (unfold incr_uint8; apply Z.mod_small; lia).
  rewrite (playAudio_detection colorName s Hmode Hidx). cbv zeta.
  fold idx. rewrite Hinc.
  rewrite (counter_at_set idx (counter_at idx s + 1) s Hlen).
  unfold COLOR_COUNT_THRESHOLD.
  set (c0 := counter_at idx s) in *.
  destruct (Z.leb_spec 5 (c0 + 1)) as [Hfive|Hbelow].
  - match goal with
    | |- context [playTrack ?f ?t] =>
      destruct (playTrack_counters f t) as (Hcs & Hm & Hp);
      generalize dependent (playTrack f t)
    end.
    intros y Hcs Hm Hp. unfold counter_at. rewrite Hcs, Hm, Hp.
    cbn [colorCounters set_currentPlayingFile set_counter set_colorCounters
         currentMode log].
    rewrite list_insert_insert_eq.
    split; [intros; lia|]. split.
    + intros _. rewrite list_lookup_insert_eq by exact Hlen.
      split; reflexivity.
    + split; [|split; [exact Hmode|rewrite length_insert; exact Hsize]].
      intros other Ho Hne. fold idx.
      rewrite list_lookup_insert_ne by lia. reflexivity.
  - match goal with
    | |- context [playTrack ?f ?t] =>
      destruct (playTrack_counters f t) as (Hcs & Hm & Hp);
      generalize dependent (playTrack f t)
    end.
    intros y Hcs Hm Hp. unfold counter_at. rewrite Hcs, Hm, Hp.
    cbn [colorCounters set_currentPlayingFile set_counter set_colorCounters
         currentMode log].
    split.
    + intros _. rewrite list_lookup_insert_eq by exact Hlen.
      split; reflexivity.
    + split; [intros; lia|].
      split; [|split; [exact Hmode|rewrite length_insert; exact Hsize]].
      intros other Ho Hne. fold idx.
      rewrite list_lookup_insert_ne by lia. reflexivity.
Qed.

End Playback2.

(** ** The collection grid *)

(** A write at row [r], column [k] of the list of rows. *)
Lemma poke_false r k p c (g : list (list bool)) :
  grid_get p c (alter (fun row => <[k := false]> row) r g) = true ->
  grid_get p c g = true.
Proof.
  unfold grid_get.
  destruct (decide (r = p)) as [->|Hne].
  - rewrite list_lookup_alter_eq.
    destruct (g !! p) as [row|]; cbn [fmap option_fmap option_map]; [|auto].
    destruct (decide (k = c)) as [->|Hc].
    + destruct (decide (c < length row)%nat).
      * rewrite list_lookup_insert_eq by assumption. discriminate.
      * rewrite list_insert_ge by lia. auto.
    + rewrite list_lookup_insert_ne by assumption. auto.
  - rewrite list_lookup_alter_ne by assumption. auto.
Qed.

(** Inside the array the write goes to the cell it names. *)
Lemma grid_set_inside p c v g :
  (p < 6)%nat -> (c < 5)%nat ->
  grid_set (Z.of_nat p) (Z.of_nat c) v g
  = alter (fun row => <[c := v]> row) p g.
Proof.
  intros Hp Hc. unfold grid_set. cbv zeta.
  destruct (Z.leb_spec 0 (5 * Z.of_nat p + Z.of_nat c)); [|lia].
  destruct (Z.ltb_spec (5 * Z.of_nat p + Z.of_nat c) 30); [|lia].
  cbn [andb].
  assert (Hd : (5 * Z.of_nat p + Z.of_nat c) / 5 = Z.of_nat p).
  { rewrite Z.add_comm, Z.mul_comm, Z_div_plus_full by lia.
    rewrite Z.div_small by lia. reflexivity. }
  assert (Hm : (5 * Z.of_nat p + Z.of_nat c) mod 5 = Z.of_nat c).
  { rewrite Z.add_comm, Z.mul_comm, Z_mod_plus_full.
    apply Z.mod_small. lia. }
  rewrite Hd, Hm, !Nat2Z.id. reflexivity.
Qed.

Lemma grid_get_set_false p c p' c' g :
  grid_get p c (grid_set p' c' false g) = true -> grid_get p c g = true.
Proof.
  unfold grid_set. cbv zeta.
  destruct ((0 <=? 5 * p' + c') && (5 * p' + c' <? 30)); [|auto].
  apply poke_false.
Qed.

Lemma grid_get_set_same p c g :
  (p < 6)%nat -> (c < 5)%nat ->
  grid_get p c (grid_set (Z.of_nat p) (Z.of_nat c) false g) = false.
Proof.
  intros Hp Hc. rewrite (grid_set_inside p c false g Hp Hc).
  unfold grid_get. rewrite list_lookup_alter_eq.
  destruct (g !! p) as [row|]; cbn [fmap option_fmap option_map]; [|reflexivity].
  destruct (decide (c < length row)%nat).
  - rewrite list_lookup_insert_eq by assumption. reflexivity.
  - rewrite list_insert_ge by lia.
    rewrite (lookup_ge_None_2 row c) by lia. reflexivity.
Qed.

Lemma grid_get_set_other p c p' c' v g :
  p <> p' -> (c' < 5)%nat ->
  grid_get p c (grid_set (Z.of_nat p') (Z.of_nat c') v g) = grid_get p c g.
Proof.
  intros Hne Hc. destruct (decide (p' < 6)%nat) as [Hp|Hp].
  - rewrite (grid_set_inside p' c' v g Hp Hc). unfold grid_get.
    rewrite list_lookup_alter_ne by auto. reflexivity.
  - unfold grid_set. cbv zeta.
    destruct (Z.ltb_spec (5 * Z.of_nat p' + Z.of_nat c') 30); [lia|].
    rewrite andb_false_r. reflexivity.
Qed.

Lemma grid_get_empty p c : grid_get p c empty_grid = false.
Proof.
  unfold grid_get, empty_grid.
  destruct (replicate 6 (replicate 5 false) !! p) as [row|] eqn:Hrow;
    [|reflexivity].
  apply lookup_replicate in Hrow as [-> _].
  destruct (replicate 5 false !! c) as [b|] eqn:Hb; [|reflexivity].
  apply lookup_replicate in Hb as [-> _]. reflexivity.
Qed.

Lemma clear_row_same p c g :
  (p < 6)%nat -> (c < 5)%nat -> grid_get p c (clear_row p g) = false.
Proof.
  intros Hp Hc. unfold clear_row. cbn [seq fold_left].
  do 5 (destruct c as [|c];
        [ repeat first [ apply grid_get_set_same; lia
                       | match goal with
                         | |- grid_get _ _ (grid_set _ _ false _) = false =>
                           apply not_true_is_false; intros Hg;
                           apply grid_get_set_false in Hg;
                           revert Hg; apply not_true_iff_false
                         end ]
        | ]).
  lia.
Qed.

Lemma clear_row_le p q c g :
  grid_get q c (clear_row p g) = true -> grid_get q c g = true.
Proof.
  unfold clear_row. cbn [seq fold_left]. intros H.
  do 5 apply grid_get_set_false in H. exact H.
Qed.

Lemma clear_row_other p q c g :
  q <> p -> grid_get q c (clear_row p g) = grid_get q c g.
Proof.
  intros Hne. unfold clear_row. cbn [seq fold_left].
  rewrite !grid_get_set_other by first [assumption | lia]. reflexivity.
Qed.

Lemma row_complete_spec p s :
  row_complete p s = true
  <-> forall c, (c < 5)%nat -> grid_get p c (painterCollectionStatus s) = true.
Proof.
  unfold row_complete. rewrite forallb_forall. split.
  - intros H c Hc. apply H, in_seq. lia.
  - intros H c Hc. apply H. apply in_seq in Hc. lia.
Qed.

Lemma row_clear_not_complete p s : row_clear p s -> row_complete p s = false.
Proof.
  intros Hclear. apply not_true_is_false. intros Hc.
  rewrite row_complete_spec in Hc. specialize (Hc 0%nat ltac:(lia)).
  rewrite Hclear in Hc by lia. discriminate.
Qed.

Lemma same_row_complete p s s' :
  same_row p s s' -> row_complete p s' = row_complete p s.
Proof.
  intros Hsame. unfold row_complete. cbn [seq forallb].
  rewrite !Hsame. reflexivity.
Qed.

Lemma row_kept_refl p s : row_kept p s s.
Proof. left. intros c. reflexivity. Qed.

Lemma row_kept_trans p s1 s2 s3 :
  row_kept p s1 s2 -> row_kept p s2 s3 -> row_kept p s1 s3.
Proof.
  intros [H12|H12] [H23|H23]; try (right; assumption).
  - left. intros c. rewrite H23. apply H12.
  - right. intros c Hc. rewrite H23. apply H12, Hc.
Qed.

Lemma row_kept_not_complete p s s' :
  row_kept p s s' -> row_complete p s = false -> row_complete p s' = false.
Proof.
  intros [Hsame|Hclear] Hc.
  - rewrite (same_row_complete _ _ _ Hsame). exact Hc.
  - apply row_clear_not_complete, Hclear.
Qed.

(** A function that leaves the grid alone or empties it keeps every row. *)
Lemma grid_kept_rows s s' :
  painterCollectionStatus s' = painterCollectionStatus s
  \/ painterCollectionStatus s' = empty_grid ->
  forall p, row_kept p s s'.
Proof.
  intros [H|H] p; [left; intros c|right; intros c _]; rewrite H;
    [reflexivity|apply grid_get_empty].
Qed.

Section Collection.

Context {board : Board}.

Lemma reset_row_eq p s :
  reset_row p s
  = set_painterCollectionStatus (clear_row p (painterCollectionStatus s)) s.
Proof. destruct s. reflexivity. Qed.

Lemma playAudio_collection name s :
  currentMode s = PAINTER_COLLECTION ->
  let f := fit32 ("/" +:+ name +:+ ".mp3") in
  playAudio name s = playTrack f (set_currentPlayingFile f s).
Proof. intros Hm. unfold playAudio. rewrite Hm. reflexivity. Qed.

Lemma playTrack_grid f s :
  painterCollectionStatus (playTrack f s) = painterCollectionStatus s
  \/ painterCollectionStatus (playTrack f s) = empty_grid.
Proof.
  destruct (playTrack_cases f s)
    as [(_ & ->)|[(_ & _ & ->)|[(_ & _ & _ & ->)|(_ & _ & _ & ->)]]];
    [left|left|left|right]; reflexivity.
Qed.


(** [playAudio] is [playTrack] after an update of the counters and of the
    saved name. *)
Lemma playAudio_playTrack name s :
  exists f t,
    playAudio name s = playTrack f t
    /\ painterCollectionStatus t = painterCollectionStatus s
    /\ isColorDetectionEnabled t = isColorDetectionEnabled s
    /\ currentMode t = currentMode s
    /\ log t = log s.
Proof.
  unfold playAudio. cbv zeta.
  destruct (mode_eqb (currentMode s) COLOR_RECOGNITION
            && (0 <=? getColorFamilyIndex name));
    [destruct (COLOR_COUNT_THRESHOLD <=? _)|];
    eexists _, _; (split; [reflexivity|]); repeat split.
Qed.

Lemma playAudio_grid name s :
  painterCollectionStatus (playAudio name s) = painterCollectionStatus s
  \/ painterCollectionStatus (playAudio name s) = empty_grid.
Proof.
  destruct (playAudio_playTrack name s) as (f & t & -> & Hg & _).
  rewrite <- Hg. apply playTrack_grid.
Qed.

Lemma completion_step_skip p s :
  row_complete p s = false -> completion_step s p = s.
Proof. intros H. unfold completion_step. rewrite H. reflexivity. Qed.

Lemma completion_step_full p s :
  row_complete p s = true ->
  completion_step s p
  = s |> blinkLEDs 2
      |> playAudio (nth p painterNames "")
      |> set_isColorDetectionEnabled false
      |> reset_row p.
Proof. intros H. unfold completion_step. rewrite H. reflexivity. Qed.

(** One step of the scan keeps every row or clears it, clears its own row
    when it was full, and can only turn sensing off. *)
Lemma completion_step_rows p s :
  (p < 6)%nat ->
  (forall q, row_kept q s (completion_step s p))
  /\ row_complete p (completion_step s p) = false
  /\ (isColorDetectionEnabled s = false \/ row_complete p s = true ->
      isColorDetectionEnabled (completion_step s p) = false)
  /\ currentMode (completion_step s p) = currentMode s.
Proof.
  intros Hp6. destruct (row_complete p s) eqn:Hfull.
  - rewrite (completion_step_full p s Hfull), reset_row_eq.
    set (s1 := blinkLEDs 2 s).
    assert (Hg := playAudio_grid (nth p painterNames "") s1).
    destruct (playAudio_playTrack (nth p painterNames "") s1)
      as (f & t & Heq & _ & _ & Hm & _).
    assert (Hmode : currentMode (playAudio (nth p painterNames "") s1)
                    = currentMode s).
    { rewrite Heq. destruct (playTrack_counters f t) as (_ & -> & _).
      exact Hm. }
    set (s2 := playAudio (nth p painterNames "") s1) in *.
    repeat split.
    + intros q. destruct (decide (q = p)) as [->|Hne].
      * right. intros c Hc. cbn. apply clear_row_same; assumption.
      * apply (row_kept_trans q s s2).
        { apply grid_kept_rows. exact Hg. }
        left. intros c. cbn. apply clear_row_other, Hne.
    + apply row_clear_not_complete. intros c Hc. cbn.
      apply clear_row_same; assumption.
    + exact Hmode.
  - rewrite (completion_step_skip p s Hfull). repeat split.
    + intros q. apply row_kept_refl.
    + exact Hfull.
    + intros [H|H]; [exact H|discriminate].
Qed.

(** The scan over any list of rows of the grid. *)
Lemma scan_rows ps s :
  (forall p, In p ps -> (p < 6)%nat) ->
  let s' := fold_left completion_step ps s in
  (forall q, row_kept q s s')
  /\ (forall p, In p ps -> row_complete p s' = false)
  /\ (isColorDetectionEnabled s = false
      \/ (exists p, In p ps /\ row_complete p s = true) ->
      isColorDetectionEnabled s' = false)
  /\ currentMode s' = currentMode s.
Proof.
  revert s. induction ps as [|p ps IH]; intros s Hin; cbn [fold_left].
  - repeat split.
    + intros q. apply row_kept_refl.
    + intros p [].
    + intros [H|(p & [] & _)]. exact H.
  - destruct (completion_step_rows p s) as (Hk & Hp & He & Hm);
      [apply Hin; left; reflexivity|].
    destruct (IH (completion_step s p)) as (Hk' & Hp' & He' & Hm');
      [intros q Hq; apply Hin; right; exact Hq|].
    repeat split.
    + intros q. eapply row_kept_trans; [apply Hk|apply Hk'].
    + intros q [<-|Hq]; [|apply Hp', Hq].
      eapply row_kept_not_complete; [apply Hk'|exact Hp].
    + intros H. apply He'.
      destruct H as [H|(q & [<-|Hq] & Hfull)].
      * left. apply He. left. exact H.
      * left. apply He. right. exact Hfull.
      * destruct (row_complete q (completion_step s p)) eqn:Hq'.
        { right. exists q. split; assumption. }
        destruct (row_complete p s) eqn:Hps.
        { left. apply He. right. reflexivity. }
        rewrite (completion_step_skip p s Hps) in Hq'. congruence.
    + rewrite Hm'. exact Hm.
Qed.

Lemma checkPainterCompletion_rows s :
  let s' := checkPainterCompletion s in
  (forall q, row_kept q s s')
  /\ (forall p, In p (seq 0 6) -> row_complete p s' = false)
  /\ (isColorDetectionEnabled s = false
      \/ (exists p, In p (seq 0 6) /\ row_complete p s = true) ->
      isColorDetectionEnabled s' = false)
  /\ currentMode s' = currentMode s.
Proof.
  apply (scan_rows (seq 0 6) s). intros p Hp. apply in_seq in Hp. lia.
Qed.

(** After the scan no row is full, whatever the grid was before. *)
Lemma checkPainterCompletion_no_full_row s :
  forall p, (p < 6)%nat -> row_complete p (checkPainterCompletion s) = false.
Proof.
  intros p Hp. destruct (checkPainterCompletion_rows s) as (_ & H & _).
  apply H, in_seq. lia.
Qed.

End Collection.

Section Scan.

Context {board : Board}.

(** A step of the scan on a full row, in Collection mode. *)
Lemma completion_step_announce p s :
  (p < 6)%nat ->
  currentMode s = PAINTER_COLLECTION ->
  row_complete p s = true ->
  let s1 := completion_step s p in
  played (log s1) = played (log s) ++ [completionAsset p]
  /\ currentMode s1 = PAINTER_COLLECTION
  /\ (starts p = true ->
      forall q c, grid_get q c (painterCollectionStatus s1) = false)
  /\ (starts p = false ->
      row_clear p s1 /\ forall q, q <> p -> same_row q s s1).
Proof.
  intros Hp6 Hm Hfull. cbv zeta.
  rewrite (completion_step_full p s Hfull), reset_row_eq.
  rewrite (playAudio_collection (nth p painterNames "") (blinkLEDs 2 s) Hm).
  cbv zeta. fold (completionAsset p).
  set (t := set_currentPlayingFile (completionAsset p) (blinkLEDs 2 s)).
  unfold starts.
  destruct (playTrack_cases (completionAsset p) t)
    as [(He & ->)|[(He & Hc & ->)|[(_ & _ & Hmt & _)|(He & Hc & _ & ->)]]];
    [| | cbn in Hmt; congruence |]; rewrite He; try rewrite Hc;
    cbn; rewrite ?snoc_app, played_app; cbn; rewrite ?app_nil_r;
    (split; [reflexivity|split; [exact Hm|split]]);
    try discriminate.
  - intros _. split.
    + intros c Hc. apply clear_row_same; assumption.
    + intros q Hq c. apply clear_row_other, Hq.
  - intros _. split.
    + intros c Hc'. apply clear_row_same; assumption.
    + intros q Hq c. apply clear_row_other, Hq.
  - intros _ q c. apply not_true_is_false. intros Hg.
    apply clear_row_le in Hg.
    change (grid_get q c empty_grid = true) in Hg.
    rewrite grid_get_empty in Hg. discriminate.
Qed.

Lemma scan_skip ps s :
  (forall p, In p ps -> row_complete p s = false) ->
  fold_left completion_step ps s = s.
Proof.
  induction ps as [|p ps IH]; intros H; cbn [fold_left]; [reflexivity|].
  rewrite (completion_step_skip p s) by (apply H; left; reflexivity).
  apply IH. intros q Hq. apply H. right. exact Hq.
Qed.

Lemma full_rows_same ps s s' :
  (forall q, In q ps -> same_row q s s') -> full_rows s' ps = full_rows s ps.
Proof.
  intros H. unfold full_rows. apply List.filter_ext_in. intros q Hq.
  apply same_row_complete, H, Hq.
Qed.

Lemma In_full_rows p s ps :
  In p (full_rows s ps) <-> In p ps /\ row_complete p s = true.
Proof. unfold full_rows. apply List.filter_In. Qed.

(** The scan over a list of distinct rows of the grid. *)
Lemma scan_announced ps s :
  currentMode s = PAINTER_COLLECTION ->
  List.NoDup ps ->
  (forall p, In p ps -> (p < 6)%nat) ->
  let full := full_rows s ps in
  let s' := fold_left completion_step ps s in
  played (log s') = played (log s) ++ map completionAsset (announced full)
  /\ (existsb starts full = true ->
      forall q c, grid_get q c (painterCollectionStatus s') = false)
  /\ (existsb starts full = false ->
      forall q, (In q full -> row_clear q s')
                /\ (~ In q full -> same_row q s s')).
Proof.
  revert s. induction ps as [|p ps IH]; intros s Hm Hnd Hin6; cbv zeta.
  - cbn. rewrite app_nil_r. repeat split; try discriminate.
    intros [].
  - apply List.NoDup_cons_iff in Hnd as [Hp Hnd].
    cbn [fold_left]. unfold full_rows. cbn [List.filter].
    fold (full_rows s ps).
    destruct (row_complete p s) eqn:Hfull.
    + assert (Hin6' : forall q, In q ps -> (q < 6)%nat)
        by (intros q Hq; apply Hin6; right; exact Hq).
      destruct (completion_step_announce p s
                  (Hin6 p (or_introl eq_refl)) Hm Hfull)
        as (Hpl & Hm1 & Hstart & Hfail).
      cbn [announced existsb]. destruct (starts p) eqn:Hs.
      * (* playback starts: every row is cleared, the rest is skipped *)
        specialize (Hstart eq_refl).
        rewrite scan_skip.
        { cbn [orb map]. split; [exact Hpl|]. split; [auto|discriminate]. }
        intros q _. apply not_true_is_false. intros Hq.
        rewrite row_complete_spec in Hq.
        specialize (Hq 0%nat ltac:(lia)). rewrite Hstart in Hq.
        discriminate.
      * destruct (Hfail eq_refl) as [Hclear Hsame].
        assert (Hrows : full_rows (completion_step s p) ps = full_rows s ps).
        { apply full_rows_same. intros q Hq. apply Hsame.
          intros ->. contradiction. }
        destruct (IH (completion_step s p) Hm1 Hnd Hin6')
          as (Hpl' & Hs' & Hf').
        rewrite Hrows in Hpl', Hs', Hf'. cbn [orb map].
        split; [|split].
        -- rewrite Hpl', Hpl, <- app_assoc. reflexivity.
        -- exact Hs'.
        -- intros He q. destruct (Hf' He q) as [Hin Hout]. split.
           ++ intros [<-|Hq]; [|apply Hin, Hq].
              assert (Hnp : ~ In p (full_rows s ps)).
              { rewrite In_full_rows. tauto. }
              intros c Hc. rewrite (Hout Hnp c). apply Hclear, Hc.
           ++ intros Hq. intros c.
              rewrite (proj2 (Hf' He q))
                by (intros Hin'; apply Hq; right; exact Hin').
              apply Hsame. intros ->. apply Hq. left. reflexivity.
    + rewrite (completion_step_skip p s Hfull).
      apply IH; try assumption.
      intros q Hq. apply Hin6. right. exact Hq.
Qed.

Lemma announced_first a n (f : nat -> bool) T :
  In T (List.filter f (seq a n)) ->
  (forall q, (q < T)%nat -> f q = true -> starts q = false) ->
  In T (announced (List.filter f (seq a n))).
Proof.
  revert a. induction n as [|n IH]; intros a Hin Hfirst; [destruct Hin|].
  cbn [seq List.filter] in *.
  destruct (f a) eqn:Hfa; [|apply IH; assumption].
  cbn [announced]. destruct Hin as [<-|Hin].
  - destruct (starts a); left; reflexivity.
  - assert (a < T)%nat.
    { apply List.filter_In in Hin as [Hin _]. apply in_seq in Hin. lia. }
    rewrite (Hfirst a) by assumption. right. apply IH; assumption.
Qed.

End Scan.

(** ** Frames *)


Lemma filter_filter (p q : Event -> bool) l :
  (forall e, p e = true -> q e = true) ->
  List.filter p (List.filter q l) = List.filter p l.
Proof.
  intros Hpq. induction l as [|e l IH]; [reflexivity|].
  cbn. destruct (q e) eqn:Hq; cbn.
  - rewrite IH. reflexivity.
  - destruct (p e) eqn:Hp; [|exact IH].
    rewrite (Hpq e Hp) in Hq. discriminate.
Qed.


Lemma grid_kept_refl s : grid_kept s s.
Proof. left. reflexivity. Qed.

Lemma grid_kept_trans s1 s2 s3 :
  grid_kept s1 s2 -> grid_kept s2 s3 -> grid_kept s1 s3.
Proof.
  unfold grid_kept. intros [H12|H12] [H23|H23]; rewrite H23; auto.
Qed.

Lemma grid_kept_no_full_row s s' :
  grid_kept s s' -> no_full_row s -> no_full_row s'.
Proof.
  intros Hk Hs p Hp.
  eapply row_kept_not_complete; [apply grid_kept_rows, Hk|apply Hs, Hp].
Qed.

(** Closes a goal [view (f s) = view s] once [f s] is a chain of setters and
    [emit]s. *)
Ltac frame :=
  unfold input_view, beside_encoder, beside_button, arbiter_view,
    decoder_view, volume_view, classification;
  cbn; rewrite ?snoc_app, ?List.filter_app, ?played_app; cbn;
  rewrite ?app_nil_r; reflexivity.

Section SensingFrames.

Context {board : Board}.

Lemma playTrack_input f s : input_view (playTrack f s) = input_view s.
Proof.
  destruct (playTrack_cases f s)
    as [(_ & ->)|[(_ & _ & ->)|[(_ & _ & _ & ->)|(_ & _ & _ & ->)]]];
    frame.
Qed.

Lemma playAudio_input name s : input_view (playAudio name s) = input_view s.
Proof.
  unfold playAudio. cbv zeta.
  destruct (mode_eqb (currentMode s) COLOR_RECOGNITION
            && (0 <=? getColorFamilyIndex name));
    [destruct (COLOR_COUNT_THRESHOLD <=? _)|];
    rewrite playTrack_input; frame.
Qed.

Lemma checkColor_input t s :
  input_view (snd (checkColor t s)) = input_view s.
Proof.
  induction t as [|x t IH]; cbn [checkColor]; [reflexivity|].
  destruct ((ct_rMin x =? 0) && (ct_rMax x =? 0)); [exact IH|].
  destruct (matches _ _ _ _ _ _ _); [|exact IH].
  cbn [snd]. apply playAudio_input.
Qed.

Lemma checkColor_grid t s : grid_kept s (snd (checkColor t s)).
Proof.
  induction t as [|x t IH]; cbn [checkColor]; [apply grid_kept_refl|].
  destruct ((ct_rMin x =? 0) && (ct_rMax x =? 0)); [exact IH|].
  destruct (matches _ _ _ _ _ _ _); [|exact IH].
  cbn [snd]. apply playAudio_grid.
Qed.

Lemma checkPainterColor_input t s :
  input_view (snd (checkPainterColor t s)) = input_view s.
Proof.
  induction t as [|x t IH]; cbn [checkPainterColor]; [reflexivity|].
  destruct (matches _ _ _ _ _ _ _); [|exact IH].
  cbv zeta. destruct (0 <=? painterIndexOf (painterId x)); [|exact IH].
  reflexivity.
Qed.

Lemma completion_step_input s p :
  input_view (completion_step s p) = input_view s.
Proof.
  unfold completion_step. destruct (row_complete p s); [|reflexivity].
  rewrite reset_row_eq.
  transitivity (input_view (playAudio (nth p painterNames "") (blinkLEDs 2 s)));
    [reflexivity|].
  rewrite playAudio_input. frame.
Qed.

Lemma checkPainterCompletion_input s :
  input_view (checkPainterCompletion s) = input_view s.
Proof.
  unfold checkPainterCompletion. generalize (seq 0 6). intros ps.
  revert s. induction ps as [|p ps IH]; intros s; cbn [fold_left];
    [reflexivity|].
  rewrite IH. apply completion_step_input.
Qed.

Lemma classify_collection s :
  currentMode s = PAINTER_COLLECTION ->
  classify s = checkPainterCompletion (probed s).
Proof. intros Hm. unfold classify. rewrite Hm. reflexivity. Qed.

Lemma probed_input s : input_view (probed s) = input_view s.
Proof. unfold probed. rewrite !checkPainterColor_input. reflexivity. Qed.

Lemma classify_input s : input_view (classify s) = input_view s.
Proof.
  destruct (currentMode s) eqn:Hm.
  - unfold classify. rewrite Hm. apply checkColor_input.
  - rewrite (classify_collection s Hm), checkPainterCompletion_input.
    apply probed_input.
Qed.

Lemma continuePlayback_input s :
  input_view (continuePlayback s) = input_view s.
Proof.
  unfold continuePlayback, audio_connecttoFS.
  destruct (isLooping s); [|reflexivity].
  destruct (negb (audioRunning s)); [|frame].
  destruct (negb (String.eqb (currentPlayingFile s) "")); [|reflexivity].
  destruct (connecttoFS (currentPlayingFile s)); frame.
Qed.

Lemma continuePlayback_grid s :
  painterCollectionStatus (continuePlayback s) = painterCollectionStatus s.
Proof.
  unfold continuePlayback, audio_connecttoFS.
  destruct (isLooping s); [|reflexivity].
  destruct (negb (audioRunning s)); [|reflexivity].
  destruct (negb (String.eqb (currentPlayingFile s) "")); [|reflexivity].
  destruct (connecttoFS (currentPlayingFile s)); reflexivity.
Qed.

Lemma restoreOriginalLeds_input s :
  input_view (restoreOriginalLeds s) = input_view s.
Proof. unfold restoreOriginalLeds. destruct (isShowingVolume s); frame. Qed.

Lemma afterEncoder_input i s : input_view (afterEncoder i s) = input_view s.
Proof.
  unfold afterEncoder. cbv zeta.
  set (s1 := if isShowingVolume s && _ then restoreOriginalLeds s else s).
  assert (H1 : input_view s1 = input_view s).
  { subst s1. destruct (isShowingVolume s && _);
      [apply restoreOriginalLeds_input|reflexivity]. }
  set (s2 := if isColorDetectionEnabled s1 then _ else _).
  assert (H2 : input_view s2 = input_view s1).
  { subst s2. destruct (isColorDetectionEnabled s1).
    - rewrite classify_input. frame.
    - apply continuePlayback_input. }
  destruct (audioRunning s2); [|congruence].
  rewrite <- H1, <- H2. frame.
Qed.

(** After the rest of the pass no row is full, if none was before. *)
Lemma afterEncoder_no_full_row i s :
  no_full_row s -> no_full_row (afterEncoder i s).
Proof.
  intros Hs. unfold afterEncoder. cbv zeta.
  set (s1 := if isShowingVolume s && _ then restoreOriginalLeds s else s).
  assert (H1 : no_full_row s1).
  { apply (grid_kept_no_full_row s); [|exact Hs]. subst s1. left.
    unfold restoreOriginalLeds.
    destruct (isShowingVolume s && _); [|reflexivity].
    destruct (isShowingVolume s); reflexivity. }
  set (s2 := if isColorDetectionEnabled s1 then _ else _).
  assert (H2 : no_full_row s2).
  { subst s2. destruct (isColorDetectionEnabled s1).
    - set (s0 := showColor (readColor (in_sample i) s1)).
      destruct (currentMode s0) eqn:Hm.
      + unfold classify. rewrite Hm.
        apply (grid_kept_no_full_row s0); [apply checkColor_grid|].
        exact H1.
      + rewrite (classify_collection s0 Hm). intros p Hp.
        apply checkPainterCompletion_no_full_row, Hp.
    - apply (grid_kept_no_full_row s1); [|exact H1]. left.
      apply continuePlayback_grid. }
  destruct (audioRunning s2); [|exact H2].
  exact H2.
Qed.

End SensingFrames.

(** ** The button arbiter, case by case *)

Arguments elapsed : simpl never.

Lemma elapsed_same t : elapsed t t = 0.
Proof. unfold elapsed. rewrite Z.sub_diag. reflexivity. Qed.


Section Arbiter.

Context {board : Board}.

(** Released and still released. *)
Lemma handleButton_idle now s :
  lastButtonState s = HIGH ->
  handleButton HIGH now s = Running (set_lastButtonState HIGH s).
Proof.
  intros H. destruct s. cbn in H. subst.
  destruct isSleepPressing0, isLongPressing0; reflexivity.
Qed.

(** The press edge. *)
Lemma handleButton_press now s :
  lastButtonState s = HIGH ->
  handleButton LOW now s = Running (pressEdge now s).
Proof.
  intros H. destruct s. cbn in H. subst.
  unfold handleButton, pressEdge. cbn. rewrite elapsed_same. reflexivity.
Qed.

(** A pass with the button still down. *)
Lemma handleButton_held now s :
  lastButtonState s = LOW ->
  handleButton LOW now s
  = if isSleepPressing s
       && (SLEEP_PRESS_DURATION <=? elapsed now (sleepPressStartTime s))
    then DeepSleep (s |> prepareForSleep |> enterDeepSleep)
    else Running (stillDown now s).
Proof.
  intros H. destruct s. cbn in H. subst.
  unfold handleButton, stillDown. cbn -[switchMode].
  destruct isSleepPressing0; cbn -[switchMode];
    [destruct (SLEEP_PRESS_DURATION <=? _); [reflexivity|]|];
    (destruct isLongPressing0; cbn -[switchMode];
     [destruct (MODE_SWITCH_PRESS_DURATION <=? _)|]; reflexivity).
Qed.

(** The release edge. *)
Lemma handleButton_release now s :
  lastButtonState s = LOW ->
  handleButton HIGH now s = Running (releaseEdge now s).
Proof.
  intros H. unfold handleButton, releaseEdge, toggleDetection, disarm.
  cbv zeta.
  rewrite H. cbn [HIGH LOW negb andb]. rewrite !andb_false_r.
  cbn [andb]. rewrite H. cbn [LOW negb]. reflexivity.
Qed.

End Arbiter.

(** ** The quadrature decoder *)

Lemma decode_range sum : decode sum = 1 \/ decode sum = 0 \/ decode sum = -1.
Proof.
  unfold decode.
  destruct ((sum =? 13) || (sum =? 4) || (sum =? 2) || (sum =? 11)); [auto|].
  destruct ((sum =? 14) || (sum =? 7) || (sum =? 1) || (sum =? 8)); auto.
Qed.

Lemma direction_range e A B :
  direction e A B = 1 \/ direction e A B = 0 \/ direction e A B = -1.
Proof. apply decode_range. Qed.

Section Decoder.

Context {board : Board}.

(** [handleEncoder] with every test read in the state it starts from. *)
Lemma handleEncoder_unfold A B now s :
  let d := direction (lastEncoded s) A B in
  let s0 := set_lastEncoded (encode A B) s in
  let s1 := set_validRotations (validRotations s + 1) s0 in
  handleEncoder A B now s
  = if d =? 0 then s0
    else if d =? lastDir s then
      if 1 <=? validRotations s + 1 then
        if isEncoderPressed s then
          if ROTATION_DEBOUNCE <? elapsed now (lastRotationTime s) then
            (if 0 <? d then
               if MIN_VOLUME <? currentVolume s
               then adjustVolume (currentVolume s - VOLUME_STEP) now s1
               else s1
             else
               if currentVolume s <? MAX_VOLUME
               then adjustVolume (currentVolume s + VOLUME_STEP) now s1
               else s1)
            |> set_validRotations 0 |> set_lastRotationTime now
          else s1
        else
          if (TRACK_NAVIGATION_DEBOUNCE
                <? elapsed now (lastTrackNavigationTime s))
             && negb (isColorDetectionEnabled s)
          then
            (if 0 <? d then playNextTrack s1 else playPreviousTrack s1)
            |> set_validRotations 0 |> set_lastTrackNavigationTime now
          else s1
      else s1
    else s0 |> set_lastDir d |> set_validRotations 2.
Proof. reflexivity. Qed.

Ltac encoder_cases A B now s :=
  rewrite (handleEncoder_unfold A B now s); cbv zeta;
  unfold adjustVolume, displayVolumeOnLeds, audio_setVolume,
    playNextTrack, playPreviousTrack;
  repeat match goal with
         | |- context [if ?c then _ else _] => destruct c eqn:?
         end.

Lemma handleEncoder_beside A B now s :
  beside_encoder (handleEncoder A B now s) = beside_encoder s.
Proof. encoder_cases A B now s; frame. Qed.

Lemma handleEncoder_decoder A B now s :
  let d := direction (lastEncoded s) A B in
  lastEncoded (handleEncoder A B now s) = encode A B
  /\ lastDir (handleEncoder A B now s) = (if d =? 0 then lastDir s else d).
Proof.
  cbv zeta. rewrite (handleEncoder_unfold A B now s). cbv zeta.
  unfold adjustVolume, displayVolumeOnLeds, audio_setVolume,
    playNextTrack, playPreviousTrack.
  destruct (direction (lastEncoded s) A B =? 0) eqn:Hd; [split; reflexivity|].
  destruct (direction (lastEncoded s) A B =? lastDir s) eqn:Hl;
    [|split; reflexivity].
  apply Z.eqb_eq in Hl.
  repeat match goal with
         | |- context [if ?c then _ else _] => destruct c eqn:?
         end; split; first [reflexivity | symmetry; exact Hl].
Qed.

(** An intent is only emitted on a reading whose direction is not zero
    and equals the direction recorded last. *)
Lemma handleEncoder_intent A B now s :
  let d := direction (lastEncoded s) A B in
  List.filter is_intent (log (handleEncoder A B now s))
  = List.filter is_intent (log s)
  \/ (d <> 0 /\ d = lastDir s).
Proof.
  cbv zeta.
  destruct (direction (lastEncoded s) A B =? 0) eqn:Hd.
  - left. rewrite (handleEncoder_unfold A B now s). cbv zeta. rewrite Hd.
    reflexivity.
  - destruct (direction (lastEncoded s) A B =? lastDir s) eqn:Hl.
    + right. split; [apply Z.eqb_neq, Hd|apply Z.eqb_eq, Hl].
    + left. rewrite (handleEncoder_unfold A B now s). cbv zeta.
      rewrite Hd, Hl. reflexivity.
Qed.

(** Either the volume and the flag are as they were and no volume call
    was made, or the encoder was pressed, the volume moved one step
    inside its range, and the flag is set. *)
Lemma handleEncoder_volume A B now s :
  let d := direction (lastEncoded s) A B in
  let s' := handleEncoder A B now s in
  (volume_view s' = volume_view s
   /\ List.filter is_volume (log s') = List.filter is_volume (log s))
  \/ (isEncoderPressed s = true
      /\ volumeAdjustedWhilePressed s' = true
      /\ List.filter is_volume (log s')
         = List.filter is_volume (log s) ++ [EvSetVolume (currentVolume s')]
      /\ ((0 < d /\ MIN_VOLUME < currentVolume s
           /\ currentVolume s' = currentVolume s - VOLUME_STEP)
          \/ (d < 0 /\ currentVolume s < MAX_VOLUME
              /\ currentVolume s' = currentVolume s + VOLUME_STEP))).
Proof.
  cbv zeta.
  destruct (direction_range (lastEncoded s) A B) as [Hd|[Hd|Hd]];
    encoder_cases A B now s;
    try (left; split; frame);
    right; (split; [reflexivity|split; [reflexivity|split; [frame|]]]);
    repeat match goal with
           | H : (_ <? _) = true |- _ => apply Z.ltb_lt in H
           | H : (_ <? _) = false |- _ => apply Z.ltb_ge in H
           end;
    cbn; unfold MIN_VOLUME, MAX_VOLUME, VOLUME_STEP in *; lia.
Qed.

End Decoder.

(** ** One pass of [loop] *)

Lemma input_view_parts s s' :
  input_view s' = input_view s ->
  arbiter_view s' = arbiter_view s
  /\ decoder_view s' = decoder_view s
  /\ volume_view s' = volume_view s
  /\ List.filter is_arbiter_event (log s') = List.filter is_arbiter_event (log s)
  /\ List.filter is_intent (log s') = List.filter is_intent (log s)
  /\ List.filter is_volume (log s') = List.filter is_volume (log s).
Proof.
  unfold input_view, arbiter_view, decoder_view, volume_view. intros H.
  assert (Hl : List.filter is_input_event (log s')
               = List.filter is_input_event (log s)) by congruence.
  split; [congruence|]. split; [congruence|]. split; [congruence|].
  repeat split.
  - rewrite <- (filter_filter is_arbiter_event is_input_event (log s')),
      <- (filter_filter is_arbiter_event is_input_event (log s)), Hl;
      [reflexivity| |]; intros e; unfold is_arbiter_event, is_input_event;
      intros ->; reflexivity.
  - rewrite <- (filter_filter is_intent is_input_event (log s')),
      <- (filter_filter is_intent is_input_event (log s)), Hl;
      [reflexivity| |]; intros e; unfold is_input_event;
      intros ->; apply orb_true_r.
  - rewrite <- (filter_filter is_volume is_input_event (log s')),
      <- (filter_filter is_volume is_input_event (log s)), Hl;
      [reflexivity| |]; intros []; cbn; congruence.
Qed.

Lemma input_view_beside_button s s' :
  input_view s' = input_view s -> beside_button s' = beside_button s.
Proof.
  intros H. destruct (input_view_parts s s' H) as (_ & Hd & Hv & _ & Hi & _).
  unfold beside_button. rewrite Hd, Hi. unfold volume_view in Hv.
  injection Hv as -> _. reflexivity.
Qed.

Section OnePass.

Context {board : Board}.

Lemma tick_unfold i s :
  tick i s
  = match handleButton (in_button i) (in_millis_button i) (betweenPasses i s) with
    | DeepSleep x => DeepSleep x
    | Running x =>
      Running (afterEncoder i (handleEncoder (in_A i) (in_B i)
                                             (in_millis_encoder i) x))
    end.
Proof. reflexivity. Qed.

(** *** [switchMode] and the short press *)

Lemma switchMode_beside_button s :
  beside_button (switchMode s) = beside_button s.
Proof.
  destruct (switchMode_cases s) as [(_ & ->)|(_ & ->)]; frame.
Qed.

Lemma switchMode_grid s : grid_kept s (switchMode s).
Proof.
  destruct (switchMode_cases s) as [(_ & ->)|(_ & ->)];
    [right|left]; reflexivity.
Qed.

Lemma switchMode_arbiter s :
  arbiter_view (switchMode s) = arbiter_view s
  /\ volumeAdjustedWhilePressed (switchMode s) = volumeAdjustedWhilePressed s
  /\ List.filter is_arbiter_event (log (switchMode s))
     = List.filter is_arbiter_event (log s) ++ [EvSwitchMode].
Proof.
  destruct (switchMode_cases s) as [(_ & ->)|(_ & ->)];
    (split; [reflexivity|split; [reflexivity|frame]]).
Qed.

(** The short press flips sensing and announces nothing else. *)
Lemma toggleDetection_effect s :
  let s' := toggleDetection s in
  arbiter_view s' = arbiter_view s
  /\ beside_button s' = beside_button s
  /\ grid_kept s s'
  /\ List.filter is_arbiter_event (log s')
     = List.filter is_arbiter_event (log s)
       ++ [EvToggleDetection (negb (isColorDetectionEnabled s))].
Proof.
  cbv zeta. unfold toggleDetection. cbv zeta.
  change (isColorDetectionEnabled
            (set_isColorDetectionEnabled (negb (isColorDetectionEnabled s)) s))
    with (negb (isColorDetectionEnabled s)).
  set (s2 := emit _ (set_isColorDetectionEnabled _ s)).
  set (s3 := if mode_eqb (currentMode s2) PAINTER_COLLECTION
             then resetAllPainterCollections s2 else s2).
  assert (H3 : arbiter_view s3 = arbiter_view s
               /\ beside_button s3 = beside_button s
               /\ grid_kept s s3
               /\ List.filter is_arbiter_event (log s3)
                  = List.filter is_arbiter_event (log s)
                    ++ [EvToggleDetection (negb (isColorDetectionEnabled s))]).
  { subst s3 s2. destruct (mode_eqb _ PAINTER_COLLECTION);
      (split; [reflexivity|split; [frame|split; [|frame]]]);
      [right|left]; reflexivity. }
  destruct H3 as (Ha & Hb & Hg & Hl).
  destruct (negb (isColorDetectionEnabled s3)).
  - destruct (mode_eqb (currentMode (emit EvShowColor s3)) COLOR_RECOGNITION).
    + unfold checkColorAndPlayAudio.
      assert (Hi := checkColor_input colorThresholds (emit EvShowColor s3)).
      destruct (input_view_parts _ _ Hi) as (Ha' & _ & _ & Hl' & _).
      rewrite Ha', Hl', (input_view_beside_button _ _ Hi).
      split; [exact Ha|]. split; [rewrite <- Hb; frame|].
      split; [|rewrite <- Hl; frame].
      eapply grid_kept_trans; [exact Hg|].
      eapply grid_kept_trans; [|apply checkColor_grid].
      left. reflexivity.
    + split; [exact Ha|]. split; [rewrite <- Hb; frame|].
      split; [|rewrite <- Hl; frame].
      eapply grid_kept_trans; [exact Hg|]. left. reflexivity.
  - split; [exact Ha|]. split; [rewrite <- Hb; frame|].
    split; [|rewrite <- Hl; frame].
    eapply grid_kept_trans; [exact Hg|]. left. reflexivity.
Qed.

End OnePass.

Arguments switchMode : simpl never.
Arguments toggleDetection : simpl never.
Arguments playTrack : simpl never.
Arguments playAudio : simpl never.
Arguments checkColor : simpl never.
Arguments checkPainterCompletion : simpl never.
Arguments classify : simpl never.
Arguments handleEncoder : simpl never.
Arguments handleButton : simpl never.
Arguments afterEncoder : simpl never.
Arguments afterButton : simpl never.

Section OnePass2.

Context {board : Board}.

(** *** What [handleButton] leaves alone *)

Lemma frame_sleep s :
  beside_button (enterDeepSleep (prepareForSleep s)) = beside_button s
  /\ grid_kept s (enterDeepSleep (prepareForSleep s)).
Proof. split; [frame|left; reflexivity]. Qed.

Lemma frame_level b s :
  beside_button (set_lastButtonState b s) = beside_button s
  /\ grid_kept s (set_lastButtonState b s).
Proof. split; [frame|left; reflexivity]. Qed.

Lemma frame_disarm b s :
  beside_button (set_lastButtonState b (set_isLongPressing false s))
  = beside_button s
  /\ grid_kept s (set_lastButtonState b (set_isLongPressing false s)).
Proof. split; [frame|left; reflexivity]. Qed.

Lemma frame_release s :
  beside_button (set_lastButtonState HIGH (disarm s)) = beside_button s
  /\ grid_kept s (set_lastButtonState HIGH (disarm s)).
Proof. split; [frame|left; reflexivity]. Qed.

Lemma frame_trans s x y :
  beside_button x = beside_button s /\ grid_kept s x ->
  beside_button y = beside_button x /\ grid_kept x y ->
  beside_button y = beside_button s /\ grid_kept s y.
Proof.
  intros [Hb Hg] [Hb' Hg']. split; [congruence|].
  eapply grid_kept_trans; eassumption.
Qed.

Lemma handleButton_frame b now s :
  let x := state_of (handleButton b now s) in
  beside_button x = beside_button s /\ grid_kept s x.
Proof.
  cbv zeta. destruct b, (lastButtonState s) eqn:Hl.
  - rewrite (handleButton_idle now s Hl). apply frame_level.
  - rewrite (handleButton_release now s Hl). unfold releaseEdge.
    cbv zeta. cbn [state_of].
    destruct ((elapsed now _ <? MODE_SWITCH_PRESS_DURATION) && _).
    + destruct (toggleDetection_effect (set_isEncoderPressed false s))
        as (_ & Hb & Hg & _).
      apply (frame_trans s (toggleDetection (set_isEncoderPressed false s)));
        [|apply frame_release].
      apply (frame_trans s (set_isEncoderPressed false s));
        [split; [frame|left; reflexivity]|].
      split; assumption.
    + apply (frame_trans s (set_isEncoderPressed false s));
        [split; [frame|left; reflexivity]|apply frame_release].
  - rewrite (handleButton_press now s Hl). split; [frame|left; reflexivity].
  - rewrite (handleButton_held now s Hl).
    destruct (isSleepPressing s && _); [apply frame_sleep|].
    unfold stillDown. cbn [state_of].
    destruct (isLongPressing s && _); [|apply frame_level].
    destruct (negb (volumeAdjustedWhilePressed s)); [|apply frame_disarm].
    apply (frame_trans s (switchMode s)); [|apply frame_disarm].
    split; [apply switchMode_beside_button|apply switchMode_grid].
Qed.

(** *** What the rest of the pass leaves alone *)

Lemma afterButton_arbiter i x :
  arbiter_view (afterButton i x) = arbiter_view x
  /\ List.filter is_arbiter_event (log (afterButton i x))
     = List.filter is_arbiter_event (log x).
Proof.
  change (afterButton i x)
    with (afterEncoder i (handleEncoder (in_A i) (in_B i)
                                        (in_millis_encoder i) x)).
  destruct (input_view_parts _ _ (afterEncoder_input i
            (handleEncoder (in_A i) (in_B i) (in_millis_encoder i) x)))
    as (-> & _ & _ & -> & _).
  assert (H := handleEncoder_beside (in_A i) (in_B i) (in_millis_encoder i) x).
  unfold beside_encoder in H. split; congruence.
Qed.

Lemma afterButton_no_full_row i x :
  no_full_row x -> no_full_row (afterButton i x).
Proof.
  intros Hx.
  change (afterButton i x)
    with (afterEncoder i (handleEncoder (in_A i) (in_B i)
                                        (in_millis_encoder i) x)).
  apply afterEncoder_no_full_row.
  apply (grid_kept_no_full_row x); [|exact Hx]. left.
  assert (H := handleEncoder_beside (in_A i) (in_B i) (in_millis_encoder i) x).
  unfold beside_encoder, classification in H. congruence.
Qed.

(** The decoder state after the pass, and when an intent was emitted. *)
Lemma afterButton_decoder i x :
  let d := direction (lastEncoded x) (in_A i) (in_B i) in
  lastEncoded (afterButton i x) = encode (in_A i) (in_B i)
  /\ lastDir (afterButton i x) = (if d =? 0 then lastDir x else d)
  /\ (List.filter is_intent (log (afterButton i x))
      = List.filter is_intent (log x)
      \/ (d <> 0 /\ d = lastDir x)).
Proof.
  cbv zeta.
  change (afterButton i x)
    with (afterEncoder i (handleEncoder (in_A i) (in_B i)
                                        (in_millis_encoder i) x)).
  destruct (input_view_parts _ _ (afterEncoder_input i
            (handleEncoder (in_A i) (in_B i) (in_millis_encoder i) x)))
    as (_ & Hd & _ & _ & -> & _).
  unfold decoder_view in Hd.
  destruct (handleEncoder_decoder (in_A i) (in_B i) (in_millis_encoder i) x)
    as (He & Hl).
  split; [congruence|]. split; [congruence|].
  apply handleEncoder_intent.
Qed.

(** The volume and the flag after the pass. *)
Lemma afterButton_volume i x :
  let d := direction (lastEncoded x) (in_A i) (in_B i) in
  let x' := afterButton i x in
  (volume_view x' = volume_view x
   /\ List.filter is_volume (log x') = List.filter is_volume (log x))
  \/ (isEncoderPressed x = true
      /\ volumeAdjustedWhilePressed x' = true
      /\ List.filter is_volume (log x')
         = List.filter is_volume (log x) ++ [EvSetVolume (currentVolume x')]
      /\ ((0 < d /\ MIN_VOLUME < currentVolume x
           /\ currentVolume x' = currentVolume x - VOLUME_STEP)
          \/ (d < 0 /\ currentVolume x < MAX_VOLUME
              /\ currentVolume x' = currentVolume x + VOLUME_STEP))).
Proof.
  cbv zeta.
  change (afterButton i x)
    with (afterEncoder i (handleEncoder (in_A i) (in_B i)
                                        (in_millis_encoder i) x)).
  destruct (input_view_parts _ _ (afterEncoder_input i
            (handleEncoder (in_A i) (in_B i) (in_millis_encoder i) x)))
    as (_ & _ & Hv & _ & _ & ->).
  rewrite Hv.
  assert (Hc : currentVolume (afterEncoder i (handleEncoder (in_A i) (in_B i)
                                (in_millis_encoder i) x))
               = currentVolume (handleEncoder (in_A i) (in_B i)
                                (in_millis_encoder i) x)
               /\ volumeAdjustedWhilePressed
                    (afterEncoder i (handleEncoder (in_A i) (in_B i)
                                (in_millis_encoder i) x))
                  = volumeAdjustedWhilePressed
                      (handleEncoder (in_A i) (in_B i)
                                (in_millis_encoder i) x)).
  { unfold volume_view in Hv. split; congruence. }
  destruct Hc as [-> ->].
  apply handleEncoder_volume.
Qed.

Lemma betweenPasses_same i s :
  arbiter_view (betweenPasses i s) = arbiter_view s
  /\ decoder_view (betweenPasses i s) = decoder_view s
  /\ volume_view (betweenPasses i s) = volume_view s
  /\ log (betweenPasses i s) = log s
  /\ painterCollectionStatus (betweenPasses i s) = painterCollectionStatus s.
Proof.
  unfold betweenPasses. destruct (in_audio_ended i); repeat split.
Qed.

(** No pass ends with a full row, if none began with one. *)
Lemma tick_no_full_row i s :
  no_full_row s -> no_full_row (state_of (tick i s)).
Proof.
  intros Hs. rewrite tick_unfold.
  assert (H0 : no_full_row (betweenPasses i s)).
  { apply (grid_kept_no_full_row s); [|exact Hs]. left.
    apply betweenPasses_same. }
  destruct (handleButton_frame (in_button i) (in_millis_button i)
                               (betweenPasses i s)) as (_ & Hg).
  apply (grid_kept_no_full_row _ _ Hg) in H0.
  destruct (handleButton _ _ _) as [x|x]; cbn [state_of] in *.
  - apply (afterButton_no_full_row i x H0).
  - exact H0.
Qed.

Lemma run_no_full_row inputs s :
  no_full_row s -> no_full_row (state_of (run inputs s)).
Proof.
  revert s. induction inputs as [|i inputs IH]; intros s Hs; [exact Hs|].
  cbn [run]. assert (H := tick_no_full_row i s Hs).
  destruct (tick i s) as [x|x]; cbn [state_of] in *; [apply IH|]; exact H.
Qed.

End OnePass2.

(** ** Passes with the button down *)

Lemma count_arbiter p s :
  (forall e, p e = true -> is_arbiter_event e = true) ->
  count p (log s) = count p (arbiter_log s).
Proof.
  intros Hp. unfold count, arbiter_log.
  rewrite (filter_filter p is_arbiter_event (log s) Hp). reflexivity.
Qed.

Lemma count_switch s : count is_switch (log s) = count is_switch (arbiter_log s).
Proof.
  apply count_arbiter. intros e He. unfold is_arbiter_event. rewrite He.
  reflexivity.
Qed.

Lemma count_toggle s : count is_toggle (log s) = count is_toggle (arbiter_log s).
Proof.
  apply count_arbiter. intros e He. unfold is_arbiter_event. rewrite He.
  apply orb_true_iff. left. apply orb_true_r.
Qed.

Lemma count_sleep s : count is_sleep (log s) = count is_sleep (arbiter_log s).
Proof.
  apply count_arbiter. intros e He. unfold is_arbiter_event. rewrite He.
  apply orb_true_r.
Qed.

Section Holds.

Context {board : Board}.

Lemma betweenPasses_fields i s :
  lastButtonState (betweenPasses i s) = lastButtonState s
  /\ isSleepPressing (betweenPasses i s) = isSleepPressing s
  /\ sleepPressStartTime (betweenPasses i s) = sleepPressStartTime s
  /\ buttonPressStartTime (betweenPasses i s) = buttonPressStartTime s
  /\ isLongPressing (betweenPasses i s) = isLongPressing s
  /\ isEncoderPressed (betweenPasses i s) = isEncoderPressed s
  /\ volumeAdjustedWhilePressed (betweenPasses i s)
     = volumeAdjustedWhilePressed s
  /\ beside_button (betweenPasses i s) = beside_button s
  /\ arbiter_log (betweenPasses i s) = arbiter_log s
  /\ log (betweenPasses i s) = log s.
Proof.
  unfold betweenPasses. destruct (in_audio_ended i); repeat split.
Qed.

(** *** The three states [handleButton] returns *)

Lemma level_view b y :
  arbiter_view (set_lastButtonState b (set_isLongPressing false y))
  = (b, buttonPressStartTime y, false, sleepPressStartTime y,
     isSleepPressing y, isEncoderPressed y)
  /\ volumeAdjustedWhilePressed
       (set_lastButtonState b (set_isLongPressing false y))
     = volumeAdjustedWhilePressed y
  /\ arbiter_log (set_lastButtonState b (set_isLongPressing false y))
     = arbiter_log y.
Proof. repeat split. Qed.

Lemma pressEdge_view now s :
  arbiter_view (pressEdge now s) = (LOW, now, true, now, true, true)
  /\ volumeAdjustedWhilePressed (pressEdge now s) = false
  /\ arbiter_log (pressEdge now s) = arbiter_log s
  /\ beside_button (pressEdge now s) = beside_button s.
Proof. repeat split. Qed.

Lemma stillDown_view now s :
  let late := MODE_SWITCH_PRESS_DURATION
                <=? elapsed now (buttonPressStartTime s) in
  arbiter_view (stillDown now s)
  = (LOW, buttonPressStartTime s, isLongPressing s && negb late,
     sleepPressStartTime s, isSleepPressing s, isEncoderPressed s)
  /\ volumeAdjustedWhilePressed (stillDown now s)
     = volumeAdjustedWhilePressed s
  /\ arbiter_log (stillDown now s)
     = arbiter_log s
       ++ (if isLongPressing s && late && negb (volumeAdjustedWhilePressed s)
           then [EvSwitchMode] else [])
  /\ beside_button (stillDown now s) = beside_button s.
Proof.
  cbv zeta. unfold stillDown.
  destruct (isLongPressing s) eqn:Hlp; cbn [andb negb];
    [destruct (MODE_SWITCH_PRESS_DURATION <=? _); cbn [andb negb]|].
  - destruct (volumeAdjustedWhilePressed s) eqn:Hv; cbn [negb].
    + unfold arbiter_view, arbiter_log. rewrite ?app_nil_r.
      repeat split. exact Hv.
    + destruct (switchMode_arbiter s) as (Ha & Hv' & Hl).
      assert (Hb := switchMode_beside_button s).
      unfold arbiter_view in Ha.
      destruct (level_view LOW (switchMode s)) as (-> & -> & ->).
      unfold arbiter_log. rewrite Hl, Hv', Hv.
      split; [congruence|]. split; [reflexivity|]. split; [reflexivity|].
      rewrite <- Hb. generalize (switchMode s). intros y. frame.
  - unfold arbiter_view, arbiter_log. rewrite ?app_nil_r.
    split; [cbn; rewrite Hlp; reflexivity|repeat split].
  - unfold arbiter_view, arbiter_log. rewrite ?app_nil_r.
    split; [cbn; rewrite Hlp; reflexivity|repeat split].
Qed.

Lemma releaseEdge_view now s :
  let short := (elapsed now (buttonPressStartTime s)
                  <? MODE_SWITCH_PRESS_DURATION)
               && negb (volumeAdjustedWhilePressed s) in
  lastButtonState (releaseEdge now s) = HIGH
  /\ isEncoderPressed (releaseEdge now s) = false
  /\ volumeAdjustedWhilePressed (releaseEdge now s) = false
  /\ arbiter_log (releaseEdge now s)
     = arbiter_log s
       ++ (if short then [EvToggleDetection (negb (isColorDetectionEnabled s))]
           else [])
  /\ beside_button (releaseEdge now s) = beside_button s.
Proof.
  cbv zeta. unfold releaseEdge. cbv zeta.
  change (buttonPressStartTime (set_isEncoderPressed false s))
    with (buttonPressStartTime s).
  change (volumeAdjustedWhilePressed (set_isEncoderPressed false s))
    with (volumeAdjustedWhilePressed s).
  destruct ((elapsed now _ <? MODE_SWITCH_PRESS_DURATION) && _).
  - destruct (toggleDetection_effect (set_isEncoderPressed false s))
      as (Ha & Hb & _ & Hl).
    cbv zeta in Ha, Hb, Hl. unfold arbiter_view in Ha.
    change (isColorDetectionEnabled (set_isEncoderPressed false s))
      with (isColorDetectionEnabled s) in Hl.
    change (List.filter is_arbiter_event (log (set_isEncoderPressed false s)))
      with (arbiter_log s) in Hl.
    change (beside_button (set_isEncoderPressed false s))
      with (beside_button s) in Hb.
    fold (arbiter_log (toggleDetection (set_isEncoderPressed false s))) in Hl.
    rewrite <- Hl, <- Hb.
    generalize (toggleDetection (set_isEncoderPressed false s)) Ha.
    intros y Hy. injection Hy as _ _ _ _ _ He.
    unfold arbiter_log, disarm.
    split; [reflexivity|]. split; [exact He|]. split; [reflexivity|].
    split; [reflexivity|frame].
  - unfold arbiter_log, disarm. rewrite app_nil_r. repeat split.
Qed.

End Holds.

Section HoldRuns.

Context {board : Board}.

Lemma tick_loop i s :
  tick i s
  = match handleButton (in_button i) (in_millis_button i) (betweenPasses i s) with
    | DeepSleep x => DeepSleep x
    | Running x => Running (afterButton i x)
    end.
Proof. reflexivity. Qed.

Lemma tick_press i s :
  lastButtonState s = HIGH -> button_down i ->
  tick i s
  = Running (afterButton i (pressEdge (in_millis_button i) (betweenPasses i s))).
Proof.
  unfold button_down. intros Hl Hd. rewrite tick_loop, Hd.
  rewrite handleButton_press; [reflexivity|].
  rewrite (proj1 (betweenPasses_fields i s)). exact Hl.
Qed.

Lemma tick_held i s :
  lastButtonState s = LOW -> button_down i ->
  tick i s
  = if isSleepPressing s
       && (SLEEP_PRESS_DURATION
             <=? elapsed (in_millis_button i) (sleepPressStartTime s))
    then DeepSleep (betweenPasses i s |> prepareForSleep |> enterDeepSleep)
    else Running (afterButton i (stillDown (in_millis_button i)
                                           (betweenPasses i s))).
Proof.
  unfold button_down. intros Hl Hd. rewrite tick_loop, Hd.
  destruct (betweenPasses_fields i s) as (Hb & Hs & Ht & _).
  rewrite handleButton_held by (rewrite Hb; exact Hl).
  rewrite Hs, Ht. destruct (isSleepPressing s && _); reflexivity.
Qed.

Lemma tick_release i s :
  lastButtonState s = LOW -> in_button i = HIGH ->
  tick i s
  = Running (afterButton i (releaseEdge (in_millis_button i)
                                        (betweenPasses i s))).
Proof.
  intros Hl Hd. rewrite tick_loop, Hd.
  rewrite handleButton_release; [reflexivity|].
  rewrite (proj1 (betweenPasses_fields i s)). exact Hl.
Qed.

Lemma holding_view t0 s lp :
  arbiter_view s = (LOW, t0, lp, t0, true, true) -> holding t0 s.
Proof.
  unfold arbiter_view, holding. intros H. injection H as -> -> _ -> -> ->.
  repeat split.
Qed.

(** The press edge starts a hold. *)
Lemma press_pass i s :
  lastButtonState s = HIGH -> button_down i ->
  exists x0 x,
    tick i s = Running x /\ x = afterButton i x0
    /\ holding (in_millis_button i) x
    /\ isLongPressing x = true
    /\ arbiter_log x = arbiter_log s
    /\ volumeAdjustedWhilePressed x0 = false
    /\ isEncoderPressed x0 = true
    /\ beside_button x0 = beside_button s
    /\ List.filter is_volume (log x0) = List.filter is_volume (log s).
Proof.
  intros Hl Hd. rewrite (tick_press i s Hl Hd).
  set (b0 := betweenPasses i s).
  destruct (betweenPasses_fields i s)
    as (_ & _ & _ & _ & _ & _ & _ & Hbb & Hal & Hlog).
  fold b0 in Hbb, Hal, Hlog.
  destruct (pressEdge_view (in_millis_button i) b0) as (Ha & Hv & Hl' & Hb).
  destruct (afterButton_arbiter i (pressEdge (in_millis_button i) b0))
    as (Ha' & Hl'').
  eexists _, _. split; [reflexivity|]. split; [reflexivity|].
  split; [eapply holding_view; rewrite Ha'; exact Ha|].
  split.
  { unfold arbiter_view in Ha', Ha. congruence. }
  split; [unfold arbiter_log in *; congruence|].
  split; [exact Hv|]. split; [reflexivity|].
  split; [congruence|].
  rewrite <- Hlog. reflexivity.
Qed.

(** A pass with the button down, once the sleep threshold is reached. *)
Lemma held_pass_sleep t0 i s :
  holding t0 s -> button_down i ->
  SLEEP_PRESS_DURATION <= held_for t0 i ->
  exists x, tick i s = DeepSleep x
            /\ arbiter_log x = arbiter_log s ++ [EvDeepSleep].
Proof.
  intros (Hl & Hs & Ht & _) Hd Hlate. unfold held_for in Hlate.
  rewrite (tick_held i s Hl Hd), Hs, Ht.
  destruct (Z.leb_spec SLEEP_PRESS_DURATION
                       (elapsed (in_millis_button i) t0)); [|lia].
  cbn [andb]. eexists. split; [reflexivity|].
  destruct (betweenPasses_fields i s)
    as (_ & _ & _ & _ & _ & _ & _ & _ & Hal & _).
  rewrite <- Hal. generalize (betweenPasses i s). intros y.
  unfold arbiter_log. cbn. rewrite !snoc_app, List.filter_app.
  reflexivity.
Qed.

(** A pass with the button down, before the sleep threshold. *)
Lemma held_pass_awake t0 i s :
  holding t0 s -> button_down i ->
  held_for t0 i < SLEEP_PRESS_DURATION ->
  let late := MODE_SWITCH_PRESS_DURATION <=? held_for t0 i in
  exists x0 x,
    tick i s = Running x /\ x = afterButton i x0
    /\ holding t0 x
    /\ isLongPressing x = isLongPressing s && negb late
    /\ arbiter_log x
       = arbiter_log s
         ++ (if isLongPressing s && late
                && negb (volumeAdjustedWhilePressed s)
             then [EvSwitchMode] else [])
    /\ volumeAdjustedWhilePressed x0 = volumeAdjustedWhilePressed s
    /\ isEncoderPressed x0 = true
    /\ beside_button x0 = beside_button s
    /\ List.filter is_volume (log x0) = List.filter is_volume (log s).
Proof.
  intros (Hl & Hs & Ht & Hp & He) Hd Hearly. unfold held_for in *.
  cbv zeta.
  rewrite (tick_held i s Hl Hd), Hs, Ht.
  destruct (Z.leb_spec SLEEP_PRESS_DURATION
                       (elapsed (in_millis_button i) t0)); [lia|].
  cbn [andb].
  set (b0 := betweenPasses i s).
  destruct (betweenPasses_fields i s)
    as (Hb1 & Hb2 & Hb3 & Hb4 & Hb5 & Hb6 & Hb7 & Hbb & Hal & Hlog).
  fold b0 in Hb1, Hb2, Hb3, Hb4, Hb5, Hb6, Hb7, Hbb, Hal, Hlog.
  destruct (stillDown_view (in_millis_button i) b0) as (Ha & Hv & Hl' & Hb).
  cbv zeta in Ha, Hl'.
  rewrite Hb2, Hb3, Hb4, Hb5, Hb6, Hs, Ht, Hp, He in Ha.
  rewrite Hb4, Hb5, Hb7, Hal, Hp in Hl'. rewrite Hb7 in Hv.
  destruct (afterButton_arbiter i (stillDown (in_millis_button i) b0))
    as (Ha' & Hl'').
  assert (Hvol : List.filter is_volume (log (stillDown (in_millis_button i) b0))
                 = List.filter is_volume (log s)).
  { rewrite <- Hlog. unfold beside_button in Hb.
    assert (Hi : List.filter is_intent (log (stillDown (in_millis_button i) b0))
                 = List.filter is_intent (log b0)) by congruence.
    rewrite <- (filter_filter is_volume is_intent (log b0)),
      <- Hi, filter_filter; [reflexivity| |]; intros []; cbn; congruence. }
  eexists _, _. split; [reflexivity|]. split; [reflexivity|].
  split; [eapply holding_view; rewrite Ha'; exact Ha|].
  split.
  { unfold arbiter_view in Ha', Ha. congruence. }
  split; [unfold arbiter_log in *; congruence|].
  split; [exact Hv|]. split.
  { unfold arbiter_view in Ha. congruence. }
  split; [congruence|exact Hvol].
Qed.

(** From any point of a hold on: if the button stays down until a pass
    sees the sleep threshold, the run ends there in deep sleep, having
    fired at most one mode switch (and only if one was still armed). *)
Lemma hold_sleeps t0 held :
  forall s,
    holding t0 s ->
    Forall button_down held ->
    Exists (fun i => SLEEP_PRESS_DURATION <= held_for t0 i) held ->
    exists x sw,
      (forall rest, run (held ++ rest) s = DeepSleep x)
      /\ arbiter_log x = arbiter_log s ++ sw ++ [EvDeepSleep]
      /\ (sw = [] \/ (sw = [EvSwitchMode] /\ isLongPressing s = true)).
Proof.
  induction held as [|i held IH]; intros s Hh Hdown Hex.
  - inversion Hex.
  - apply Forall_cons in Hdown as [Hd Hdown].
    destruct (Z.le_gt_cases SLEEP_PRESS_DURATION (held_for t0 i)) as [Hs|Hs].
    + destruct (held_pass_sleep t0 i s Hh Hd Hs) as (x & Ht & Hl).
      exists x, []. split; [|split; [exact Hl|left; reflexivity]].
      intros rest. cbn [app run]. rewrite Ht. reflexivity.
    + destruct (held_pass_awake t0 i s Hh Hd Hs)
        as (x0 & x1 & Ht & _ & Hh1 & Hlp & Hl & _).
      cbv zeta in Hlp, Hl.
      assert (Hex' : Exists (fun i => SLEEP_PRESS_DURATION <= held_for t0 i)
                            held).
      { apply Exists_cons in Hex as [Hex|Hex]; [lia|exact Hex]. }
      destruct (IH x1 Hh1 Hdown Hex') as (x & sw & Hrun & Hlx & Hsw).
      destruct (isLongPressing s) eqn:Hlps; cbn [andb] in Hlp, Hl.
      * destruct (MODE_SWITCH_PRESS_DURATION <=? held_for t0 i);
          cbn [andb negb] in Hlp, Hl.
        -- destruct Hsw as [->|[_ Hc]]; [|congruence].
           exists x.
           exists (if negb (volumeAdjustedWhilePressed s)
                   then [EvSwitchMode] else []).
           split; [intros rest; cbn [app run]; rewrite Ht; apply Hrun|].
           split; [rewrite Hlx, Hl, <- app_assoc; reflexivity|].
           destruct (negb (volumeAdjustedWhilePressed s)); auto.
        -- exists x, sw.
           split; [intros rest; cbn [app run]; rewrite Ht; apply Hrun|].
           split; [rewrite Hlx, Hl, app_nil_r; reflexivity|].
           destruct Hsw as [->|[-> _]]; auto.
      * exists x, sw.
        split; [intros rest; cbn [app run]; rewrite Ht; apply Hrun|].
        split; [rewrite Hlx, Hl, app_nil_r; reflexivity|].
        destruct Hsw as [->|[_ Hc]]; [auto|congruence].
Qed.

(** C1 (as amended). A hold that is seen at or past the sleep threshold
    (5000 ms) ends the run in deep sleep at the first pass that sees it:
    the sleep call is made exactly once, nothing after it is processed,
    and the detection toggle never fires for that hold. The mode switch
    is not excluded: it fires at most once during the hold. *)
Theorem sleep_hold (s : State) (press : Input) (held : list Input) :
  lastButtonState s = HIGH ->
  button_down press ->
  Forall button_down held ->
  Exists (fun i => SLEEP_PRESS_DURATION
                   <= held_for (in_millis_button press) i) held ->
  exists x,
    (forall rest, run (press :: held ++ rest) s = DeepSleep x)
    /\ count is_sleep (log x) = count is_sleep (log s) + 1
    /\ count is_toggle (log x) = count is_toggle (log s)
    /\ count is_switch (log s) <= count is_switch (log x)
       <= count is_switch (log s) + 1.
Proof.
  intros Hl Hd Hdown Hex.
  destruct (press_pass press s Hl Hd) as (x0 & x1 & Ht & _ & Hh & _ & Hal & _).
  destruct (hold_sleeps _ held x1 Hh Hdown Hex) as (x & sw & Hrun & Hlx & Hsw).
  exists x. split.
  { intros rest. cbn [run]. rewrite Ht. apply Hrun. }
  rewrite !count_sleep, !count_toggle, !count_switch, Hlx, Hal.
  rewrite !count_app.
  destruct Hsw as [->|[-> _]]; rewrite ?count_cons, ?count_nil;
    cbn [is_sleep is_toggle is_switch]; lia.
Qed.

End HoldRuns.

Section Rotation.

Context {board : Board}.

Lemma run_app l1 l2 s :
  run (l1 ++ l2) s
  = match run l1 s with
    | DeepSleep y => DeepSleep y
    | Running y => run l2 y
    end.
Proof.
  revert s. induction l1 as [|i l1 IH]; intros s; [reflexivity|].
  cbn [app run]. destruct (tick i s); [apply IH|reflexivity].
Qed.

(** What one pass does to the decoder. *)
Lemma tick_decoder i s x :
  tick i s = Running x ->
  let d := direction (lastEncoded s) (in_A i) (in_B i) in
  lastEncoded x = encode (in_A i) (in_B i)
  /\ lastDir x = (if d =? 0 then lastDir s else d)
  /\ (List.filter is_intent (log x) = List.filter is_intent (log s)
      \/ (d <> 0 /\ d = lastDir s)).
Proof.
  rewrite tick_loop. intros Ht. cbv zeta.
  destruct (handleButton_frame (in_button i) (in_millis_button i)
                               (betweenPasses i s)) as (Hb & _).
  destruct (betweenPasses_fields i s)
    as (_ & _ & _ & _ & _ & _ & _ & Hbb & _).
  rewrite Hbb in Hb.
  destruct (handleButton _ _ _) as [x0|x0]; [|discriminate].
  injection Ht as <-. cbn [state_of] in Hb.
  unfold beside_button, decoder_view in Hb.
  injection Hb as He Hd _ _ _ _ Hi.
  destruct (afterButton_decoder i x0) as (H1 & H2 & H3).
  cbv zeta in H2, H3. rewrite He, Hd, Hi in *. auto.
Qed.

Lemma run_decoder inputs :
  forall s x,
    run inputs s = Running x ->
    lastEncoded x = phase (lastEncoded s) inputs
    /\ lastDir x = reported (lastDir s) (directions (lastEncoded s) inputs).
Proof.
  induction inputs as [|i inputs IH]; intros s x Hr.
  - injection Hr as <-. split; reflexivity.
  - cbn [run] in Hr. destruct (tick i s) as [y|y] eqn:Ht; [|discriminate].
    destruct (tick_decoder i s y Ht) as (He & Hd & _).
    destruct (IH y x Hr) as (He' & Hd').
    cbn [phase directions reported fold_left].
    fold (phase (encode (in_A i) (in_B i)) inputs).
    fold (reported (if direction (lastEncoded s) (in_A i) (in_B i) =? 0
                    then lastDir s
                    else direction (lastEncoded s) (in_A i) (in_B i))
                   (directions (encode (in_A i) (in_B i)) inputs)).
    rewrite <- He, <- Hd. split; assumption.
Qed.

(** [handleEncoder] on a reading whose direction differs from the one
    recorded: the new direction is recorded, the counter restarts at 2,
    nothing is announced. *)
Lemma handleEncoder_change A B now s :
  let d := direction (lastEncoded s) A B in
  d <> 0 -> d <> lastDir s ->
  handleEncoder A B now s
  = s |> set_lastEncoded (encode A B) |> set_lastDir d |> set_validRotations 2.
Proof.
  cbv zeta. intros H0 Hl. rewrite (handleEncoder_unfold A B now s). cbv zeta.
  apply Z.eqb_neq in H0, Hl. rewrite H0, Hl. reflexivity.
Qed.

(** [handleEncoder] on a reading in the recorded direction, with the
    button up and sensing off, once the navigation debounce has passed:
    a track step is announced. *)
Lemma handleEncoder_confirm A B now s :
  let d := direction (lastEncoded s) A B in
  d <> 0 -> d = lastDir s -> 0 <= validRotations s ->
  isEncoderPressed s = false ->
  isColorDetectionEnabled s = false ->
  TRACK_NAVIGATION_DEBOUNCE < elapsed now (lastTrackNavigationTime s) ->
  List.filter is_intent (log (handleEncoder A B now s))
  = List.filter is_intent (log s)
    ++ [if 0 <? d then EvNextTrack else EvPreviousTrack].
Proof.
  cbv zeta. intros H0 Hl Hv Hp He Ht.
  rewrite (handleEncoder_unfold A B now s). cbv zeta.
  apply Z.eqb_neq in H0. apply Z.eqb_eq in Hl. apply Z.ltb_lt in Ht.
  rewrite H0, Hl, Hp, He, Ht.
  destruct (Z.leb_spec 1 (validRotations s + 1)); [|lia].
  cbn [andb negb]. unfold playNextTrack, playPreviousTrack.
  destruct (0 <? _); frame.
Qed.

(** C2 (as amended). An intent (a volume step or a track step) is
    emitted only on a pass whose decoded direction is not zero and equals
    the last direction decoded before it, passes that decode no direction
    being skipped; so the first transition after boot, and any transition
    against the recorded direction, emits nothing. A transition against
    the recorded direction records the new one and sets the counter to 2,
    after which one more transition in the new direction is enough. *)
Theorem intent_needs_repeat :
  (forall (inputs : list Input) (i : Input) (s s' : State),
     run inputs boot = Running s ->
     tick i s = Running s' ->
     List.filter is_intent (log s') <> List.filter is_intent (log s) ->
     let d := direction (phase 0 inputs) (in_A i) (in_B i) in
     d <> 0 /\ reported 0 (directions 0 inputs) = d)
  /\ (forall (s : State) (A B : bool) (now : Z),
        let d := direction (lastEncoded s) A B in
        let s1 := handleEncoder A B now s in
        d <> 0 -> d <> lastDir s ->
        lastDir s1 = d /\ validRotations s1 = 2 /\ log s1 = log s
        /\ forall (A' B' : bool) (now' : Z),
             direction (lastEncoded s1) A' B' = d ->
             isEncoderPressed s = false ->
             isColorDetectionEnabled s = false ->
             TRACK_NAVIGATION_DEBOUNCE
               < elapsed now' (lastTrackNavigationTime s) ->
             List.filter is_intent (log (handleEncoder A' B' now' s1))
             = List.filter is_intent (log s)
               ++ [if 0 <? d then EvNextTrack else EvPreviousTrack]).
Proof.
  split.
  - intros inputs i s s' Hr Ht Hne. cbv zeta.
    destruct (run_decoder inputs boot s Hr) as (He & Hd).
    change (lastEncoded boot) with 0 in He, Hd.
    change (lastDir boot) with 0 in Hd.
    destruct (tick_decoder i s s' Ht) as (_ & _ & [Hsame|[H0 Hl]]);
      [contradiction|].
    rewrite <- He, <- Hd. split; [exact H0|symmetry; exact Hl].
  - intros s A B now d s1 H0 Hl. subst s1.
    rewrite (handleEncoder_change A B now s H0 Hl). fold d.
    split; [reflexivity|]. split; [reflexivity|]. split; [reflexivity|].
    intros A' B' now' Hd' Hp He Ht.
    rewrite handleEncoder_confirm.
    + rewrite Hd'. reflexivity.
    + rewrite Hd'. exact H0.
    + rewrite Hd'. reflexivity.
    + cbn. lia.
    + exact Hp.
    + exact He.
    + exact Ht.
Qed.

End Rotation.

Section PressAndRotate.

Context {board : Board}.

Lemma volume_of_intent s s' :
  List.filter is_intent (log s') = List.filter is_intent (log s) ->
  List.filter is_volume (log s') = List.filter is_volume (log s).
Proof.
  intros H.
  rewrite <- (filter_filter is_volume is_intent (log s)),
    <- (filter_filter is_volume is_intent (log s')), H;
    [reflexivity| |]; intros []; cbn; congruence.
Qed.

Lemma volume_of_beside_button s s' :
  beside_button s' = beside_button s ->
  List.filter is_volume (log s') = List.filter is_volume (log s).
Proof.
  unfold beside_button. intros H. apply volume_of_intent. congruence.
Qed.

(** A pass that reads the button down and returns: what [handleButton]
    hands to the rest of the pass. *)
Lemma down_pass i s x :
  button_down i -> tick i s = Running x ->
  exists x0,
    x = afterButton i x0
    /\ lastButtonState x0 = LOW
    /\ List.filter is_volume (log x0) = List.filter is_volume (log s).
Proof.
  intros Hd Ht.
  destruct (betweenPasses_fields i s)
    as (_ & _ & _ & _ & _ & _ & _ & Hbb & _).
  destruct (lastButtonState s) eqn:Hl.
  - rewrite (tick_press i s Hl Hd) in Ht. injection Ht as <-.
    eexists. split; [reflexivity|]. split; [reflexivity|].
    apply volume_of_beside_button. rewrite <- Hbb.
    apply pressEdge_view.
  - rewrite (tick_held i s Hl Hd) in Ht.
    destruct (isSleepPressing s && _); [discriminate|].
    injection Ht as <-.
    destruct (stillDown_view (in_millis_button i) (betweenPasses i s))
      as (Ha & _ & _ & Hb).
    eexists. split; [reflexivity|]. split.
    + unfold arbiter_view in Ha. congruence.
    + apply volume_of_beside_button. congruence.
Qed.

(** A pass with the button down, after the volume was adjusted in this
    hold: nothing but the sleep call can be announced. *)
Lemma flagged_pass i y :
  lastButtonState y = LOW ->
  volumeAdjustedWhilePressed y = true ->
  button_down i ->
  (exists z, tick i y = DeepSleep z
             /\ arbiter_log z = arbiter_log y ++ [EvDeepSleep])
  \/ (exists z, tick i y = Running z
                /\ lastButtonState z = LOW
                /\ volumeAdjustedWhilePressed z = true
                /\ arbiter_log z = arbiter_log y).
Proof.
  intros Hl Hv Hd. rewrite (tick_held i y Hl Hd).
  destruct (betweenPasses_fields i y)
    as (_ & _ & _ & _ & _ & _ & Hb7 & _ & Hal & _).
  destruct (isSleepPressing y && _).
  - left. eexists. split; [reflexivity|].
    rewrite <- Hal. generalize (betweenPasses i y). intros b0.
    unfold arbiter_log. cbn. rewrite !snoc_app, List.filter_app.
    reflexivity.
  - right.
    destruct (stillDown_view (in_millis_button i) (betweenPasses i y))
      as (Ha & Hv' & Hl' & _).
    cbv zeta in Ha, Hl'. rewrite Hb7, Hv in Hv', Hl'.
    rewrite !andb_false_r, app_nil_r, Hal in Hl'.
    set (x0 := stillDown (in_millis_button i) (betweenPasses i y)) in *.
    destruct (afterButton_arbiter i x0) as (Ha' & Hl'').
    eexists. split; [reflexivity|]. split.
    { unfold arbiter_view in Ha, Ha'. congruence. }
    split.
    + destruct (afterButton_volume i x0) as [(Hvv & _)|(_ & H & _)];
        [|exact H].
      unfold volume_view in Hvv. congruence.
    + unfold arbiter_log in *. congruence.
Qed.

Lemma flagged_release i y :
  lastButtonState y = LOW ->
  volumeAdjustedWhilePressed y = true ->
  in_button i = HIGH ->
  exists z, tick i y = Running z /\ arbiter_log z = arbiter_log y.
Proof.
  intros Hl Hv Hd. rewrite (tick_release i y Hl Hd).
  destruct (betweenPasses_fields i y)
    as (_ & _ & _ & _ & _ & _ & Hb7 & _ & Hal & _).
  destruct (releaseEdge_view (in_millis_button i) (betweenPasses i y))
    as (_ & _ & _ & Hl' & _).
  cbv zeta in Hl'. rewrite Hb7, Hv, andb_false_r, app_nil_r, Hal in Hl'.
  destruct (afterButton_arbiter i (releaseEdge (in_millis_button i)
                                               (betweenPasses i y)))
    as (_ & Hl'').
  eexists. split; [reflexivity|]. unfold arbiter_log in *. congruence.
Qed.

Lemma flagged_hold held :
  forall y,
    lastButtonState y = LOW ->
    volumeAdjustedWhilePressed y = true ->
    Forall button_down held ->
    (exists z, run held y = DeepSleep z
               /\ arbiter_log z = arbiter_log y ++ [EvDeepSleep])
    \/ (exists z, run held y = Running z
                  /\ lastButtonState z = LOW
                  /\ volumeAdjustedWhilePressed z = true
                  /\ arbiter_log z = arbiter_log y).
Proof.
  induction held as [|i held IH]; intros y Hl Hv Hdown.
  - right. exists y. repeat split; assumption.
  - apply Forall_cons in Hdown as [Hd Hdown]. cbn [run].
    destruct (flagged_pass i y Hl Hv Hd)
      as [(z & -> & Hz)|(z & -> & Hl' & Hv' & Hz)].
    + left. exists z. split; [reflexivity|exact Hz].
    + rewrite <- Hz. apply IH; assumption.
Qed.

(** C6 (as amended). Once a pass with the button down has adjusted the
    volume, neither the mode switch nor the detection toggle fires in
    the rest of that hold, whatever its length: not on the later passes
    with the button down, and not on the release. *)
Theorem rotation_silences_hold
    (s : State) (i : Input) (x : State) (held : list Input)
    (release : Input) :
  button_down i ->
  tick i s = Running x ->
  List.filter is_volume (log x) <> List.filter is_volume (log s) ->
  Forall button_down held ->
  in_button release = HIGH ->
  let r := run (held ++ [release]) x in
  count is_switch (log (state_of r)) = count is_switch (log x)
  /\ count is_toggle (log (state_of r)) = count is_toggle (log x).
Proof.
  intros Hd Ht Hvol Hdown Hrel. cbv zeta.
  destruct (down_pass i s x Hd Ht) as (x0 & -> & Hl0 & Hv0).
  assert (Hl : lastButtonState (afterButton i x0) = LOW).
  { destruct (afterButton_arbiter i x0) as (Ha & _).
    unfold arbiter_view in Ha. congruence. }
  assert (Hv : volumeAdjustedWhilePressed (afterButton i x0) = true).
  { destruct (afterButton_volume i x0) as [(_ & Hsame)|(_ & H & _)];
      [|exact H].
    exfalso. apply Hvol. congruence. }
  rewrite run_app, !count_switch, !count_toggle.
  destruct (flagged_hold held (afterButton i x0) Hl Hv Hdown)
    as [(z & -> & Hz)|(z & -> & Hl' & Hv' & Hz)].
  - cbn [state_of]. rewrite Hz, !count_app. rewrite ?count_cons, ?count_nil.
  cbn [is_sleep is_toggle is_switch]. lia.
  - cbn [run].
    destruct (flagged_release release z Hl' Hv' Hrel) as (z' & -> & Hz').
    cbn [state_of]. rewrite Hz', Hz. split; reflexivity.
Qed.

End PressAndRotate.

Section BoundaryRotation.

Context {board : Board}.

(** A rotation that finds the volume at the end of its range changes
    neither the volume nor the flag. *)
Lemma boundary_after i x0 :
  at_boundary (currentVolume x0)
              (direction (lastEncoded x0) (in_A i) (in_B i)) ->
  volume_view (afterButton i x0) = volume_view x0
  /\ List.filter is_volume (log (afterButton i x0))
     = List.filter is_volume (log x0).
Proof.
  intros [Hmin Hmax].
  destruct (afterButton_volume i x0)
    as [H|(_ & _ & _ & [(Hd & Hv & _)|(Hd & Hv & _)])]; [exact H| |].
  - specialize (Hmin Hd). lia.
  - specialize (Hmax Hd). lia.
Qed.


End BoundaryRotation.

Section Probes.

Context {board : Board}.

Lemma checkPainterColor_log t s :
  log (snd (checkPainterColor t s)) = log s
  /\ currentMode (snd (checkPainterColor t s)) = currentMode s.
Proof.
  induction t as [|x t IH]; cbn [checkPainterColor]; [auto|].
  destruct (matches _ _ _ _ _ _ _); [|exact IH].
  cbv zeta. destruct (0 <=? painterIndexOf (painterId x)); [|exact IH].
  split; reflexivity.
Qed.

Lemma probed_log s :
  log (probed s) = log s /\ currentMode (probed s) = currentMode s.
Proof.
  unfold probed. cbv zeta.
  repeat match goal with
         | |- context [snd (checkPainterColor ?t ?z)] =>
           let H1 := fresh in let H2 := fresh in
           destruct (checkPainterColor_log t z) as (H1 & H2);
           rewrite H1, H2; clear H1 H2
         end.
  split; reflexivity.
Qed.

End Probes.

Section Continuation.

Context {board : Board}.

(** The restart branch of [loop], from the state [handleEncoder] leaves. *)
Lemma afterEncoder_restart i x :
  isColorDetectionEnabled x = false ->
  isLooping x = true ->
  audioRunning x = false ->
  currentPlayingFile x <> "" ->
  let ok := connecttoFS (currentPlayingFile x) in
  let y := afterEncoder i x in
  List.filter is_connect (log y)
  = List.filter is_connect (log x) ++ [EvConnect (currentPlayingFile x) ok]
  /\ isLooping y = ok
  /\ audioRunning y = ok.
Proof.
  intros He Hl Hr Hf. cbv zeta. unfold afterEncoder. cbv zeta.
  set (x1 := if isShowingVolume x && _ then restoreOriginalLeds x else x).
  assert (H1 : isColorDetectionEnabled x1 = false /\ isLooping x1 = true
               /\ audioRunning x1 = false
               /\ currentPlayingFile x1 = currentPlayingFile x
               /\ List.filter is_connect (log x1)
                  = List.filter is_connect (log x)).
  { subst x1. unfold restoreOriginalLeds.
    destruct (isShowingVolume x && _); [|auto].
    destruct (isShowingVolume x); [|auto].
    repeat split; try assumption. cbn. rewrite List.filter_app.
    apply app_nil_r. }
  clearbody x1. destruct H1 as (He1 & Hl1 & Hr1 & Hf1 & Hc1).
  rewrite He1. unfold continuePlayback, audio_connecttoFS.
  rewrite Hl1, Hr1, Hf1. cbn [negb].
  destruct (String.eqb_spec (currentPlayingFile x) ""); [contradiction|].
  cbn [negb]. rewrite <- Hc1.
  destruct (connecttoFS (currentPlayingFile x)); cbn;
    rewrite ?snoc_app, List.filter_app; repeat split; exact Hl1.
Qed.

Lemma afterEncoder_serviced i x :
  audioRunning (afterEncoder i x) = true ->
  last (log (afterEncoder i x)) = Some EvAudioLoop.
Proof.
  unfold afterEncoder. cbv zeta.
  match goal with
  | |- audioRunning (if audioRunning ?z then _ else _) = _ -> _ =>
    generalize z
  end.
  intros z. destruct (audioRunning z) eqn:Hz.
  - intros _. cbn. apply last_snoc.
  - rewrite Hz. discriminate.
Qed.

(** *** Who asks the decoder to open a file *)

Lemma opens_log s s' : log s' = log s -> opens_on_request s s'.
Proof.
  intros H. exists [], []. rewrite H, !app_nil_r. repeat split; cbn; lia.
Qed.

Lemma opens_emit e s :
  is_connect e = false -> opens_on_request s (emit e s).
Proof.
  intros He. exists [], (played [e]). cbn [emit log set_log].
  rewrite List.filter_app, played_app. cbn [List.filter]. rewrite He.
  repeat split. cbn. lia.
Qed.

Lemma opens_trans s1 s2 s3 :
  opens_on_request s1 s2 -> opens_on_request s2 s3 ->
  opens_on_request s1 s3.
Proof.
  intros (c1 & p1 & Hc1 & Hp1 & H1) (c2 & p2 & Hc2 & Hp2 & H2).
  exists (c1 ++ c2), (p1 ++ p2).
  rewrite Hc2, Hc1, Hp2, Hp1, !length_app.
  rewrite <- (app_assoc _ c1 c2), <- (app_assoc _ p1 p2).
  repeat split. lia.
Qed.

Lemma playTrack_opens f s : opens_on_request s (playTrack f s).
Proof.
  destruct (playTrack_cases f s)
    as [(_ & ->)|[(_ & _ & ->)|[(_ & _ & _ & ->)|(_ & _ & _ & ->)]]].
  - exists [], [f]. cbn. rewrite List.filter_app, played_app. repeat split; cbn; lia.
  - exists [EvConnect (fit32 f) false], [f]. cbn.
    rewrite !snoc_app, List.filter_app, played_app. auto.
  - exists [EvConnect (fit32 f) true], [f]. cbn.
    rewrite !snoc_app, List.filter_app, played_app. auto.
  - exists [EvConnect (fit32 f) true], [f]. cbn.
    rewrite !snoc_app, List.filter_app, played_app. auto.
Qed.

Lemma playAudio_opens name s : opens_on_request s (playAudio name s).
Proof.
  destruct (playAudio_playTrack name s) as (f & t & -> & _ & _ & _ & Hl).
  apply (opens_trans s t); [apply opens_log, Hl|apply playTrack_opens].
Qed.

Lemma checkColor_opens t s : opens_on_request s (snd (checkColor t s)).
Proof.
  induction t as [|x t IH]; [apply opens_log; reflexivity|].
  change (checkColor (x :: t) s)
    with (if (ct_rMin x =? 0) && (ct_rMax x =? 0) then checkColor t s
          else if matches (rgb s) (ct_rMin x) (ct_rMax x) (ct_gMin x)
                          (ct_gMax x) (ct_bMin x) (ct_bMax x)
               then (true, playAudio (audioFile x) s)
               else checkColor t s).
  destruct ((ct_rMin x =? 0) && (ct_rMax x =? 0)); [exact IH|].
  destruct (matches _ _ _ _ _ _ _); [|exact IH].
  cbn [snd]. apply playAudio_opens.
Qed.

Lemma completion_step_opens s p : opens_on_request s (completion_step s p).
Proof.
  unfold completion_step.
  destruct (row_complete p s); [|apply opens_log; reflexivity].
  rewrite reset_row_eq.
  apply (opens_trans s (blinkLEDs 2 s)); [apply opens_emit; reflexivity|].
  apply (opens_trans _ (playAudio (nth p painterNames "") (blinkLEDs 2 s)));
    [apply playAudio_opens|].
  generalize (playAudio (nth p painterNames "") (blinkLEDs 2 s)).
  intros y. apply opens_log. reflexivity.
Qed.

Lemma checkPainterCompletion_opens s :
  opens_on_request s (checkPainterCompletion s).
Proof.
  unfold checkPainterCompletion. generalize (seq 0 6). intros ps.
  revert s. induction ps as [|p ps IH]; intros s; cbn [fold_left];
    [apply opens_log; reflexivity|].
  apply (opens_trans s (completion_step s p));
    [apply completion_step_opens|apply IH].
Qed.

Lemma classify_opens s : opens_on_request s (classify s).
Proof.
  destruct (currentMode s) eqn:Hm.
  - unfold classify. rewrite Hm. apply checkColor_opens.
  - rewrite (classify_collection s Hm).
    apply (opens_trans s (probed s));
      [apply opens_log, probed_log|apply checkPainterCompletion_opens].
Qed.

(** A pass that senses opens a file only for the classifier. *)
Lemma afterEncoder_opens i x :
  isColorDetectionEnabled x = true -> opens_on_request x (afterEncoder i x).
Proof.
  intros He. unfold afterEncoder. cbv zeta.
  set (x1 := if isShowingVolume x && _ then restoreOriginalLeds x else x).
  assert (H1 : isColorDetectionEnabled x1 = true /\ opens_on_request x x1).
  { subst x1. unfold restoreOriginalLeds.
    destruct (isShowingVolume x && _);
      [|split; [exact He|apply opens_log; reflexivity]].
    destruct (isShowingVolume x);
      [|split; [exact He|apply opens_log; reflexivity]].
    split; [exact He|].
    apply (opens_trans x (emit EvRestoreLeds x));
      [apply opens_emit; reflexivity|apply opens_log; reflexivity]. }
  clearbody x1. destruct H1 as (He1 & H1). rewrite He1.
  set (x2 := classify (showColor (readColor (in_sample i) x1))).
  assert (H2 : opens_on_request x x2).
  { apply (opens_trans x x1); [exact H1|].
    apply (opens_trans x1 (showColor (readColor (in_sample i) x1)));
      [|apply classify_opens].
    apply (opens_trans x1 (readColor (in_sample i) x1));
      [apply opens_log; reflexivity|apply opens_emit; reflexivity]. }
  clearbody x2. destruct (audioRunning x2); [|exact H2].
  apply (opens_trans x x2); [exact H2|apply opens_emit; reflexivity].
Qed.

(** C8 (as amended). The restart of a looping asset that has ended is
    issued in the branch of [loop] that runs only while sensing is off:
    on such a pass, if the looping flag is set, the decoder is not
    running and a name is saved, the decoder is asked to open that name
    in the same pass. On a pass with sensing on the loop issues no
    restart: the decoder is asked to open a file only when the
    classifier requests a track in that pass. What is unconditional is
    the servicing call at the end of the pass: whenever playback is
    running at the end of a pass, the last call of the pass is
    [audio.loop]. *)
Theorem continuation_while_idle :
  (forall (i : Input) (x : State),
     isColorDetectionEnabled x = false ->
     isLooping x = true ->
     audioRunning x = false ->
     currentPlayingFile x <> "" ->
     let ok := connecttoFS (currentPlayingFile x) in
     let y := afterButton i x in
     List.filter is_connect (log y)
     = List.filter is_connect (log x) ++ [EvConnect (currentPlayingFile x) ok]
     /\ isLooping y = ok
     /\ audioRunning y = ok)
  /\ (forall (i : Input) (x : State),
        isColorDetectionEnabled x = true ->
        let y := afterButton i x in
        played (log y) = played (log x) ->
        List.filter is_connect (log y) = List.filter is_connect (log x))
  /\ (forall (i : Input) (x : State),
        audioRunning (afterButton i x) = true ->
        last (log (afterButton i x)) = Some EvAudioLoop).
Proof.
  split; [|split].
  - intros i x He Hl Hr Hf. cbv zeta.
    change (afterButton i x)
      with (afterEncoder i (handleEncoder (in_A i) (in_B i)
                                          (in_millis_encoder i) x)).
    assert (Hb := handleEncoder_beside (in_A i) (in_B i)
                                       (in_millis_encoder i) x).
    set (x1 := handleEncoder (in_A i) (in_B i) (in_millis_encoder i) x) in *.
    clearbody x1. unfold beside_encoder, classification in Hb.
    injection Hb as _ _ _ _ _ _ _ He1 _ _ _ Hl1 Hf1 Hr1 _ _ Hc1.
    rewrite <- Hf1, <- Hc1.
    apply afterEncoder_restart; congruence.
  - intros i x He. cbv zeta.
    change (afterButton i x)
      with (afterEncoder i (handleEncoder (in_A i) (in_B i)
                                          (in_millis_encoder i) x)).
    assert (Hb := handleEncoder_beside (in_A i) (in_B i)
                                       (in_millis_encoder i) x).
    set (x1 := handleEncoder (in_A i) (in_B i) (in_millis_encoder i) x) in *.
    clearbody x1. unfold beside_encoder, classification in Hb.
    injection Hb as _ _ _ _ _ _ _ He1 _ _ _ _ _ _ _ Hp1 Hc1.
    rewrite <- Hp1, <- Hc1. intros Hp.
    destruct (afterEncoder_opens i x1) as (cs & ps & Hc & Hps & Hlen);
      [congruence|].
    rewrite Hp in Hps. rewrite Hc.
    assert (ps = []) as ->.
    { apply (app_inv_head (played (log x1))). rewrite app_nil_r.
      symmetry. exact Hps. }
    destruct cs; [apply app_nil_r|cbn in Hlen; lia].
  - intros i x.
    change (afterButton i x)
      with (afterEncoder i (handleEncoder (in_A i) (in_B i)
                                          (in_millis_encoder i) x)).
    apply afterEncoder_serviced.
Qed.

End Continuation.

Section Completion.

Context {board : Board}.

(** C9 (as amended). The scan handles the full rows in table order, but
    only up to the first one whose playback starts: that request makes
    [playTrack] clear the whole grid, so the themes after it are neither
    requested nor cleared on their own. When no playback starts (the
    assets are missing or fail to open), every full row is requested in
    order and only the full rows are cleared. *)
Theorem completion_scan_order (s : State) :
  currentMode s = PAINTER_COLLECTION ->
  let full := full_rows s (seq 0 6) in
  let s' := checkPainterCompletion s in
  played (log s') = played (log s) ++ map completionAsset (announced full)
  /\ (existsb starts full = true ->
      forall q c, grid_get q c (painterCollectionStatus s') = false)
  /\ (existsb starts full = false ->
      forall q, (In q full -> row_clear q s')
                /\ (~ In q full -> same_row q s s')).
Proof.
  intros Hm. apply (scan_announced (seq 0 6) s Hm).
  - apply List.seq_NoDup.
  - intros p Hp. apply in_seq in Hp. lia.
Qed.

Lemma boot_no_full_row : no_full_row boot.
Proof.
  intros p _. apply row_clear_not_complete. intros c _.
  apply grid_get_empty.
Qed.

(** C3 (as amended). In Collection mode, when the probes of a pass make
    a row full, the same pass turns sensing off and leaves that row all
    false, and it requests the row's completion asset unless an earlier
    row was full in the same pass and its playback started. No pass ends
    with a full row. *)
Theorem completion_same_pass :
  (forall (s : State) (T : nat),
     currentMode s = PAINTER_COLLECTION ->
     (T < 6)%nat ->
     row_complete T (probed s) = true ->
     let s' := classify s in
     isColorDetectionEnabled s' = false
     /\ row_clear T s'
     /\ ((forall q, (q < T)%nat -> row_complete q (probed s) = true ->
                    starts q = false) ->
         exists before after,
           played (log s')
           = played (log s) ++ before ++ completionAsset T :: after))
  /\ (forall inputs : list Input, no_full_row (state_of (run inputs boot))).
Proof.
  split.
  - intros s T Hm HT Hfull. cbv zeta.
    rewrite (classify_collection s Hm).
    destruct (probed_log s) as (Hlog & Hmode).
    assert (HTin : In T (seq 0 6)) by (apply in_seq; lia).
    destruct (checkPainterCompletion_rows (probed s)) as (Hk & Hp & He & _).
    split; [apply He; right; exists T; split; assumption|].
    split.
    + destruct (Hk T) as [Hsame|Hclear]; [|exact Hclear].
      rewrite <- (same_row_complete _ _ _ Hsame), (Hp T HTin) in Hfull.
      discriminate.
    + intros Hfirst.
      assert (Hm' : currentMode (probed s) = PAINTER_COLLECTION)
        by (rewrite Hmode; exact Hm).
      assert (Hin6 : forall p, In p (seq 0 6) -> (p < 6)%nat)
        by (intros q Hq; apply in_seq in Hq; lia).
      destruct (scan_announced (seq 0 6) (probed s) Hm' (List.seq_NoDup 6 0)
                  Hin6)
        as (Hpl & _).
      cbv zeta in Hpl. rewrite Hlog in Hpl.
      assert (Hin : In (completionAsset T)
                       (map completionAsset
                            (announced (full_rows (probed s) (seq 0 6))))).
      { apply in_map. unfold full_rows. apply announced_first.
        - apply List.filter_In. split; assumption.
        - exact Hfirst. }
      apply in_split in Hin as (before & after & Hin).
      exists before, after. unfold checkPainterCompletion.
      rewrite Hpl, Hin. reflexivity.
  - intros inputs. apply run_no_full_row, boot_no_full_row.
Qed.

End Completion.

(** ** The LED ring *)

Section RingProofs.

Context {core : Core}.

(** The loop that lights the first pixels, from a dark ring. *)
Lemma light_loop (n : nat) (r : Ring) :
  (n <= NUM_LEDS)%nat ->
  leds r = replicate NUM_LEDS Black ->
  let r' := fold_left
              (fun r i => r |> set_leds (<[i := White]> (leds r))
                            |> FastLED_setBrightness 100)
              (seq 0 n) r in
  leds r' = volumeBar n
  /\ brightness r' = (if (n =? 0)%nat then brightness r else 100)
  /\ originalLedColors r' = originalLedColors r
  /\ ring_isShowingVolume r' = ring_isShowingVolume r
  /\ ring_volumeDisplayStartTime r' = ring_volumeDisplayStartTime r
  /\ shown r' = shown r.
Proof.
  intros Hn Hl. cbv zeta. induction n as [|n IH].
  - cbn. unfold volumeBar. cbn. repeat split. exact Hl.
  - rewrite seq_S, fold_left_app. cbn [fold_left Nat.add].
    destruct IH as (H1 & H2 & H3 & H4 & H5 & H6); [lia|].
    set (r1 := fold_left _ (seq 0 n) r) in *. clearbody r1.
    split; [|cbn; repeat split; assumption].
    change (leds (FastLED_setBrightness 100
                    (set_leds (<[n := White]> (leds r1)) r1)))
      with (<[n := White]> (leds r1)).
    rewrite H1. unfold volumeBar.
    rewrite insert_app_r_alt by (rewrite length_replicate; lia).
    rewrite length_replicate, Nat.sub_diag.
    destruct (NUM_LEDS - n)%nat as [|k] eqn:Hk; [lia|].
    replace (NUM_LEDS - S n)%nat with k by lia.
    rewrite (replicate_S_end n White), <- app_assoc. reflexivity.
Qed.

Lemma displayVolumeOnLeds_effect v now r :
  bar_fits v ->
  let r' := displayVolumeOnLeds_ring v now r in
  leds r' = volumeBar (Z.to_nat (ledsToLight v))
  /\ brightness r' = (if ledsToLight v =? 0 then brightness r else 100)
  /\ originalLedColors r'
     = (if ring_isShowingVolume r then originalLedColors r else leds r)
  /\ ring_isShowingVolume r' = true
  /\ ring_volumeDisplayStartTime r' = now
  /\ shown r' = shown r ++ [(leds r', brightness r')].
Proof.
  intros [H0 H12]. cbv zeta. unfold displayVolumeOnLeds_ring. cbv zeta.
  fold (ledsToLight v).
  set (r0 := if negb (ring_isShowingVolume r) then _ else r).
  assert (Hr0 : originalLedColors r0
                = (if ring_isShowingVolume r then originalLedColors r
                   else leds r)
                /\ ring_isShowingVolume r0 = true
                /\ brightness r0 = brightness r /\ shown r0 = shown r).
  { subst r0. destruct (ring_isShowingVolume r) eqn:Hs; cbn; auto. }
  clearbody r0. destruct Hr0 as (Ho & Hs & Hb & Hsh).
  destruct (light_loop (Z.to_nat (ledsToLight v)) (fill_solid Black r0))
    as (H1 & H2 & H3 & H4 & H5 & H6); [lia|reflexivity|].
  set (r1 := fold_left _ _ (fill_solid Black r0)) in *. clearbody r1.
  cbn. rewrite H1, H2, H3, H4, H6. cbn. rewrite Ho, Hs, Hb, Hsh.
  replace (Z.to_nat (ledsToLight v) =? 0)%nat with (ledsToLight v =? 0).
  - repeat split.
  - destruct (Z.eqb_spec (ledsToLight v) 0) as [->|Hn]; [reflexivity|].
    symmetry. apply Nat.eqb_neq. lia.
Qed.

(** Further calls while the bar is showing keep the saved copy. *)
Lemma displays_effect calls :
  forall r,
    ring_isShowingVolume r = true ->
    Forall (fun c => bar_fits (fst c)) calls ->
    let r' := displays calls r in
    originalLedColors r' = originalLedColors r
    /\ ring_isShowingVolume r' = true
    /\ brightness r'
       = (if forallb (fun c => ledsToLight (fst c) =? 0) calls
          then brightness r else 100)
    /\ exists frames, shown r' = shown r ++ frames.
Proof.
  induction calls as [|c calls IH]; intros r Hs Hfit; cbv zeta.
  - cbn. repeat split; try assumption. exists []. symmetry. apply app_nil_r.
  - apply Forall_cons in Hfit as [Hc Hfit].
    destruct (displayVolumeOnLeds_effect (fst c) (snd c) r Hc)
      as (_ & H2 & H3 & H4 & _ & H6).
    rewrite Hs in H3.
    unfold displays. cbn [fold_left].
    set (r1 := displayVolumeOnLeds_ring (fst c) (snd c) r) in *. clearbody r1.
    destruct (IH r1 H4 Hfit) as (I1 & I2 & I3 & frames & I4).
    unfold displays in I1, I2, I3, I4.
    rewrite I1, I2, I3, I4, H2, H3, H6. cbn [forallb].
    repeat split.
    + destruct (ledsToLight (fst c) =? 0); cbn [andb]; [reflexivity|].
      destruct (forallb _ calls); reflexivity.
    + eexists. rewrite <- app_assoc. reflexivity.
Qed.

Lemma blink_loop (rounds : list nat) :
  forall r,
    let r' := fold_left
                (fun r _ => r |> fill_solid White |> FastLED_show
                              |> fill_solid Black |> FastLED_show)
                rounds r in
    brightness r' = brightness r
    /\ originalLedColors r' = originalLedColors r
    /\ ring_isShowingVolume r' = ring_isShowingVolume r
    /\ ring_volumeDisplayStartTime r' = ring_volumeDisplayStartTime r
    /\ shown r'
       = shown r
         ++ concat (replicate (length rounds) (blinkRound (brightness r))).
Proof.
  induction rounds as [|j rounds IH]; intros r; cbv zeta.
  - cbn. repeat split. symmetry. apply app_nil_r.
  - cbn [fold_left length replicate concat].
    set (r1 := FastLED_show (fill_solid Black
                 (FastLED_show (fill_solid White r)))).
    destruct (IH r1) as (H1 & H2 & H3 & H4 & H5).
    rewrite H1, H2, H3, H4, H5. subst r1. cbn.
    repeat split. rewrite <- !app_assoc. reflexivity.
Qed.

(** X20. When the volume bar is put on a ring that was not showing it,
    any number of further volume displays followed by
    [restoreOriginalLeds_ring] puts back the pixels the ring had before the
    first display: the copy is saved on the first display only. The
    brightness is not put back: it stays at 100 once a display has lit a
    pixel. A second [restoreOriginalLeds_ring] does nothing. *)
Theorem volume_display_round_trip
    (r : Ring) (first : Z * Z) (more : list (Z * Z)) :
  ring_isShowingVolume r = false ->
  Forall (fun c => bar_fits (fst c)) (first :: more) ->
  let r1 := displays (first :: more) r in
  let r2 := restoreOriginalLeds_ring r1 in
  ring_isShowingVolume r1 = true
  /\ leds r2 = leds r
  /\ ring_isShowingVolume r2 = false
  /\ shown r2 = shown r1 ++ [(leds r, brightness r1)]
  /\ brightness r2
     = (if forallb (fun c => ledsToLight (fst c) =? 0) (first :: more)
        then brightness r else 100)
  /\ restoreOriginalLeds_ring r2 = r2.
Proof.
  intros Hs Hfit. cbv zeta.
  apply Forall_cons in Hfit as [Hc Hfit].
  destruct (displayVolumeOnLeds_effect (fst first) (snd first) r Hc)
    as (_ & H2 & H3 & H4 & _ & _).
  rewrite Hs in H3.
  unfold displays. cbn [fold_left].
  set (r0 := displayVolumeOnLeds_ring (fst first) (snd first) r) in *.
  clearbody r0.
  destruct (displays_effect more r0 H4 Hfit) as (I1 & I2 & I3 & _).
  unfold displays in I1, I2, I3.
  set (r1 := fold_left _ more r0) in *. clearbody r1.
  unfold restoreOriginalLeds_ring. rewrite I2. cbn. rewrite I1, H3, I3, H2.
  repeat split.
  destruct (ledsToLight (fst first) =? 0); cbn [andb]; [reflexivity|].
  destruct (forallb _ more); reflexivity.
Qed.

(** X21. For a volume whose bar fits the ring, [displayVolumeOnLeds_ring]
    leaves the first [ledsToLight] pixels white and the others black,
    shows that ring once, and sets the brightness to 100 unless no pixel
    is lit, in which case the brightness is left as it was. *)
Theorem volume_bar_shape (v now : Z) (r : Ring) :
  bar_fits v ->
  let r' := displayVolumeOnLeds_ring v now r in
  leds r' = volumeBar (Z.to_nat (ledsToLight v))
  /\ length (leds r') = NUM_LEDS
  /\ brightness r' = (if ledsToLight v =? 0 then brightness r else 100)
  /\ shown r' = shown r ++ [(leds r', brightness r')]
  /\ ring_volumeDisplayStartTime r' = now.
Proof.
  intros Hfit. cbv zeta.
  destruct (displayVolumeOnLeds_effect v now r Hfit)
    as (H1 & H2 & _ & _ & H5 & H6).
  repeat split; try assumption.
  rewrite H1. unfold volumeBar.
  rewrite length_app, !length_replicate.
  destruct Hfit as [H0 H12]. lia.
Qed.

(** X22. [blinkLEDs_ring] leaves the pixels, the brightness and the saved
    copy as they were: it shows [count] rounds of an all-white and an
    all-black ring and then the ring it started from. A [count] of zero
    or less shows the ring once and nothing else. *)
Theorem blink_restores_ring (count : Z) (r : Ring) :
  let r' := blinkLEDs_ring count r in
  leds r' = leds r
  /\ brightness r' = brightness r
  /\ originalLedColors r' = originalLedColors r
  /\ ring_isShowingVolume r' = ring_isShowingVolume r
  /\ shown r'
     = shown r
       ++ concat (replicate (Z.to_nat count) (blinkRound (brightness r)))
       ++ [(leds r, brightness r)].
Proof.
  cbv zeta. unfold blinkLEDs_ring. cbv zeta.
  destruct (blink_loop (seq 0 (Z.to_nat count)) r)
    as (H1 & H2 & H3 & H4 & H5).
  rewrite length_seq in H5.
  set (r1 := fold_left _ _ r) in *. clearbody r1.
  cbn. rewrite H1, H2, H3, H5, <- app_assoc. repeat split.
Qed.

(** X23. [adjustBrightness] always sets a brightness between 10 and
    255, but it does not saturate: the value of [map] is cut to eight
    bits before it is constrained, so a mapped value from 256 to 265
    gives the lowest brightness, 10. Inside the range the mapped value
    is used as it is. *)
Theorem adjustBrightness_wraps (lux : Z) (r : Ring) :
  let m := arduino_map lux 0 4000 10 BRIGHTNESS in
  let r' := adjustBrightness lux r in
  10 <= brightness r' <= BRIGHTNESS
  /\ brightness r' = Z.max 10 (m mod 256)
  /\ (10 <= m <= BRIGHTNESS -> brightness r' = m)
  /\ (256 <= m < 266 -> brightness r' = 10)
  /\ leds r' = leds r
  /\ shown r' = shown r.
Proof.
  cbv zeta. unfold adjustBrightness, FastLED_setBrightness, constrain.
  cbv zeta. cbn [brightness set_brightness leds shown].
  generalize (arduino_map lux 0 4000 10 BRIGHTNESS). intros m.
  unfold BRIGHTNESS.
  assert (Hm := Z.mod_pos_bound m 256 eq_refl).
  assert (Hsmall : 10 <= m <= 255 -> m mod 256 = m)
    by (intros; apply Z.mod_small; lia).
  assert (Hwrap : 256 <= m < 266 -> m mod 256 = m - 256).
  { intros. replace m with ((m - 256) + 1 * 256) at 1 by lia.
    rewrite Z_mod_plus_full. apply Z.mod_small. lia. }
  destruct (Z.ltb_spec (m mod 256) 10) as [Hlt|Hge].
  - change (10 mod 256) with 10. change (10 mod 256) with 10.
    repeat split; try reflexivity; lia.
  - destruct (Z.ltb_spec 255 (m mod 256)); [lia|].
    rewrite !Zmod_mod.
    repeat split; try reflexivity; lia.
Qed.

End RingProofs.

(** * Further properties of the sketch *)

(** ** The quadrature table *)

(** X1. The transition table of [handleEncoder] reads a direction
    exactly when one of the two encoder lines changed, and reads the
    opposite direction when the same transition is taken backwards. A
    reading that repeats the previous phase pair, or changes both lines
    at once, gives no direction. *)
Theorem decoder_table_antisymmetric (a b a' b' : bool) :
  direction (encode a' b') a b = - direction (encode a b) a' b'
  /\ (direction (encode a b) a' b' =? 0)
     = negb (xorb (xorb a a') (xorb b b')).
Proof. destruct a, b, a', b'; split; reflexivity. Qed.

Section Further.

Context {board : Board}.

(** ** One reading of the encoder *)

Ltac encoder_paths A B now s :=
  rewrite (handleEncoder_unfold A B now s); cbv zeta;
  unfold adjustVolume, displayVolumeOnLeds, audio_setVolume,
    playNextTrack, playPreviousTrack;
  repeat match goal with
         | |- context [if ?c then _ else _] => destruct c eqn:?
         end.

(** X2. One call of [handleEncoder] does at most one thing. Either it
    logs nothing and leaves the volume alone; or the button is down, the
    rotation debounce has passed, and the volume moves one step (down
    for a clockwise reading, up for a counter-clockwise one) with the
    new volume, which does not leave the range on the side it moves to,
    sent to the decoder and to the ring; or the button is up,
    sensing is off, the navigation debounce has passed, and one track
    step is requested with the volume left alone. In the last two cases
    the reading repeats the direction recorded last. *)
Theorem rotation_does_one_thing (A B : bool) (now : Z) (s : State) :
  let d := direction (lastEncoded s) A B in
  let s' := handleEncoder A B now s in
  (log s' = log s /\ currentVolume s' = currentVolume s)
  \/ (isEncoderPressed s = true
      /\ d = lastDir s
      /\ ROTATION_DEBOUNCE < elapsed now (lastRotationTime s)
      /\ currentVolume s' = (if 0 <? d then currentVolume s - VOLUME_STEP
                             else currentVolume s + VOLUME_STEP)
      /\ (if 0 <? d then MIN_VOLUME <= currentVolume s'
          else currentVolume s' <= MAX_VOLUME)
      /\ log s' = log s ++ [EvSetVolume (currentVolume s');
                            EvShowVolume (currentVolume s')])
  \/ (isEncoderPressed s = false
      /\ isColorDetectionEnabled s = false
      /\ d = lastDir s
      /\ TRACK_NAVIGATION_DEBOUNCE
           < elapsed now (lastTrackNavigationTime s)
      /\ currentVolume s' = currentVolume s
      /\ log s' = log s ++ [if 0 <? d then EvNextTrack
                            else EvPreviousTrack]).
Proof.
  cbv zeta.
  destruct (direction_range (lastEncoded s) A B) as [Hd|[Hd|Hd]];
    encoder_paths A B now s;
    try (left; split; reflexivity);
    repeat match goal with
           | H : (_ <? _) = true |- _ => apply Z.ltb_lt in H
           | H : (_ <? _) = false |- _ => apply Z.ltb_ge in H
           | H : (_ =? _) = true |- _ => apply Z.eqb_eq in H
           | H : (_ && _) = true |- _ => apply andb_prop in H as [? ?]
           | H : negb _ = true |- _ => apply negb_true_iff in H
           end;
    try (right; left; cbn; rewrite ?snoc_app;
         unfold MIN_VOLUME, MAX_VOLUME, VOLUME_STEP in *;
         repeat split; solve [assumption | lia | reflexivity]);
    right; right; cbn; repeat split; solve [assumption | lia | reflexivity].
Qed.

(** ** The classifier *)

Lemma checkColor_cons x t s :
  checkColor (x :: t) s
  = if hits (rgb s) x then (true, playAudio (audioFile x) s)
    else checkColor t s.
Proof.
  unfold hits.
  change (checkColor (x :: t) s)
    with (if (ct_rMin x =? 0) && (ct_rMax x =? 0) then checkColor t s
          else if matches (rgb s) (ct_rMin x) (ct_rMax x) (ct_gMin x)
                          (ct_gMax x) (ct_bMin x) (ct_bMax x)
               then (true, playAudio (audioFile x) s)
               else checkColor t s).
  destruct ((ct_rMin x =? 0) && (ct_rMax x =? 0)); [reflexivity|].
  destruct (matches _ _ _ _ _ _ _); reflexivity.
Qed.

Lemma checkPainterColor_cons x t s :
  checkPainterColor (x :: t) s
  = if collects (rgb s) x then (true, mark x s)
    else checkPainterColor t s.
Proof.
  unfold collects, mark. cbn [checkPainterColor]. cbv zeta.
  destruct (matches _ _ _ _ _ _ _); [|reflexivity].
  destruct (0 <=? painterIndexOf (painterId x)); reflexivity.
Qed.

Lemma matches_non_finite c rMin rMax gMin gMax bMin bMax :
  non_finite c -> matches c rMin rMax gMin gMax bMin bMax = false.
Proof.
  unfold matches. intros [H|[H|H]]; rewrite H; cbn [in_range].
  - reflexivity.
  - apply andb_false_iff. left. apply andb_false_r.
  - apply andb_false_r.
Qed.

(** X3. [checkColor] plays the first entry of the table, in table
    order, that is defined and whose ranges contain the sample, and
    nothing else: entries after it are not looked at, and an entry whose
    red range is 0..0 is passed over even when the sample lies in its
    ranges. When no entry qualifies it returns false and changes
    nothing. *)
Theorem checkColor_first_match (s : State) :
  (forall before t after,
     Forall (fun u => hits (rgb s) u = false) before ->
     hits (rgb s) t = true ->
     checkColor (before ++ t :: after) s
     = (true, playAudio (audioFile t) s))
  /\ (forall table,
        Forall (fun u => hits (rgb s) u = false) table ->
        checkColor table s = (false, s)).
Proof.
  split.
  - intros before t after Hb Ht.
    induction Hb as [|u before Hu _ IH]; cbn [app];
      rewrite checkColor_cons.
    + rewrite Ht. reflexivity.
    + rewrite Hu. exact IH.
  - intros table Hb.
    induction Hb as [|u table Hu _ IH]; [reflexivity|].
    rewrite checkColor_cons, Hu. exact IH.
Qed.

(** A write at an offset of the array, read as a row and a column. *)
Lemma grid_set_offset p c P C v g :
  5 * p + c = 5 * Z.of_nat P + Z.of_nat C -> (P < 6)%nat -> (C < 5)%nat ->
  grid_set p c v g = alter (fun row => <[C := v]> row) P g.
Proof.
  intros H HP HC. rewrite <- (grid_set_inside P C v g HP HC).
  unfold grid_set. cbv zeta. rewrite H. reflexivity.
Qed.

Lemma poke_other P C v p c (g : list (list bool)) :
  p <> P \/ c <> C ->
  grid_get p c (alter (fun row => <[C := v]> row) P g) = grid_get p c g.
Proof.
  intros Hne. unfold grid_get.
  destruct (decide (P = p)) as [Hp|Hp].
  - rewrite Hp, list_lookup_alter_eq.
    destruct (g !! p) as [row|]; cbn [fmap option_fmap option_map];
      [|reflexivity].
    rewrite list_lookup_insert_ne by (destruct Hne; congruence).
    reflexivity.
  - rewrite list_lookup_alter_ne by assumption. reflexivity.
Qed.

Lemma poke_same P C v (g : list (list bool)) :
  grid_shaped g -> (P < 6)%nat -> (C < 5)%nat ->
  grid_get P C (alter (fun row => <[C := v]> row) P g) = v.
Proof.
  intros (Hlen & Hrows) HP HC. unfold grid_get.
  rewrite list_lookup_alter_eq.
  destruct (lookup_lt_is_Some_2 g P) as (row & Hrow); [lia|].
  rewrite Hrow. cbn [fmap option_fmap option_map].
  assert (Hl : length row = 5%nat)
    by exact (proj1 (Forall_lookup _ _) Hrows P row Hrow).
  rewrite list_lookup_insert_eq by lia. reflexivity.
Qed.

(** What a probe that collects does to the grid, by the place of the
    written cell in the array. *)
Lemma mark_cell t s P C :
  grid_shaped (painterCollectionStatus s) ->
  5 * painterIndexOf (painterId t) + (colorIndex t - 1)
  = 5 * Z.of_nat P + Z.of_nat C ->
  (P < 6)%nat -> (C < 5)%nat ->
  exists grid',
    mark t s = set_painterCollectionStatus grid' s
    /\ grid_get P C grid' = true
    /\ forall p c, p <> P \/ c <> C ->
         grid_get p c grid' = grid_get p c (painterCollectionStatus s).
Proof.
  intros Hg Ho HP HC. unfold mark.
  rewrite (grid_set_offset _ _ P C true _ Ho HP HC).
  eexists. split; [reflexivity|]. split.
  - apply poke_same; assumption.
  - intros p c Hne. apply poke_other, Hne.
Qed.

Lemma checkPainterColor_first before t after s :
  Forall (fun u => collects (rgb s) u = false) before ->
  collects (rgb s) t = true ->
  checkPainterColor (before ++ t :: after) s = (true, mark t s).
Proof.
  intros Hb Ht.
  induction Hb as [|u before Hu _ IH]; cbn [app];
    rewrite checkPainterColor_cons.
  - rewrite Ht. reflexivity.
  - rewrite Hu. exact IH.
Qed.

Lemma painterIndexOf_range id : -1 <= painterIndexOf id <= 5.
Proof.
  unfold painterIndexOf.
  repeat match goal with
         | |- context [if ?c then _ else _] => destruct c
         end; lia.
Qed.

(** X4. On a grid of six rows of five cells [checkPainterColor] marks
    one cell at most, for the first palette entry, in table order, whose
    ranges contain the sample and whose painter is one of the six names.
    When the colour index of that entry is one of 1..5 the cell is that
    of the painter named in the entry (not of the palette the entry
    stands in) and of the colour index less one; every other cell is
    left as it was and nothing else of the state changes. The write is
    not checked: a colour index of 0 marks the last cell of the painter
    before, a colour index of 6 the first cell of the painter after.
    When no entry qualifies [checkPainterColor] returns false and
    changes nothing. *)
Theorem checkPainterColor_first_match (s : State) :
  grid_shaped (painterCollectionStatus s) ->
  (forall before t after,
     Forall (fun u => collects (rgb s) u = false) before ->
     collects (rgb s) t = true ->
     1 <= colorIndex t <= 5 ->
     let P := Z.to_nat (painterIndexOf (painterId t)) in
     let C := Z.to_nat (colorIndex t - 1) in
     exists grid',
       checkPainterColor (before ++ t :: after) s
       = (true, set_painterCollectionStatus grid' s)
       /\ grid_get P C grid' = true
       /\ forall p c, p <> P \/ c <> C ->
            grid_get p c grid' = grid_get p c (painterCollectionStatus s))
  /\ (forall before t after,
        Forall (fun u => collects (rgb s) u = false) before ->
        collects (rgb s) t = true ->
        colorIndex t = 0 ->
        1 <= painterIndexOf (painterId t) ->
        let P := Z.to_nat (painterIndexOf (painterId t) - 1) in
        exists grid',
          checkPainterColor (before ++ t :: after) s
          = (true, set_painterCollectionStatus grid' s)
          /\ grid_get P 4 grid' = true
          /\ forall p c, p <> P \/ c <> 4%nat ->
               grid_get p c grid' = grid_get p c (painterCollectionStatus s))
  /\ (forall before t after,
        Forall (fun u => collects (rgb s) u = false) before ->
        collects (rgb s) t = true ->
        colorIndex t = 6 ->
        painterIndexOf (painterId t) <= 4 ->
        let P := Z.to_nat (painterIndexOf (painterId t) + 1) in
        exists grid',
          checkPainterColor (before ++ t :: after) s
          = (true, set_painterCollectionStatus grid' s)
          /\ grid_get P 0 grid' = true
          /\ forall p c, p <> P \/ c <> 0%nat ->
               grid_get p c grid' = grid_get p c (painterCollectionStatus s))
  /\ (forall palette,
        Forall (fun u => collects (rgb s) u = false) palette ->
        checkPainterColor palette s = (false, s)).
Proof.
  intros Hg.
  assert (Hidx : forall t, collects (rgb s) t = true ->
                           0 <= painterIndexOf (painterId t) <= 5).
  { intros t Ht. unfold collects in Ht. apply andb_prop in Ht as [_ Ht].
    apply Z.leb_le in Ht. pose proof (painterIndexOf_range (painterId t)).
    lia. }
  split; [|split; [|split]].
  - intros before t after Hb Ht Hc P C.
    rewrite (checkPainterColor_first before t after s Hb Ht).
    specialize (Hidx t Ht).
    destruct (mark_cell t s P C Hg) as (grid' & -> & Hset & Hrest);
      [subst P C; lia..|].
    exists grid'. auto.
  - intros before t after Hb Ht Hc Hp P.
    rewrite (checkPainterColor_first before t after s Hb Ht).
    specialize (Hidx t Ht).
    destruct (mark_cell t s P 4 Hg) as (grid' & -> & Hset & Hrest);
      [subst P; lia..|].
    exists grid'. auto.
  - intros before t after Hb Ht Hc Hp P.
    rewrite (checkPainterColor_first before t after s Hb Ht).
    specialize (Hidx t Ht).
    destruct (mark_cell t s P 0 Hg) as (grid' & -> & Hset & Hrest);
      [subst P; lia..|].
    exists grid'. auto.
  - intros palette Hb.
    induction Hb as [|u palette Hu _ IH]; [reflexivity|].
    rewrite checkPainterColor_cons, Hu. exact IH.
Qed.

(** X5. A sample with a channel that is not a finite number (a
    division by a clear reading of zero) matches no entry of any
    table: [checkColor] and [checkPainterColor] return false and change
    nothing. *)
Theorem non_finite_sample_matches_nothing
    (s : State) (table : list ColorThreshold) (palette : list PainterColor) :
  non_finite (rgb s) ->
  checkColor table s = (false, s)
  /\ checkPainterColor palette s = (false, s).
Proof.
  intros Hn. split.
  - induction table as [|u table IH]; [reflexivity|].
    rewrite checkColor_cons. unfold hits.
    rewrite (matches_non_finite _ _ _ _ _ _ _ Hn), andb_false_r. exact IH.
  - induction palette as [|u palette IH]; [reflexivity|].
    rewrite checkPainterColor_cons. unfold collects.
    rewrite (matches_non_finite _ _ _ _ _ _ _ Hn). exact IH.
Qed.

Lemma poke_true r k p c (g : list (list bool)) :
  grid_get p c g = true ->
  grid_get p c (alter (fun row => <[k := true]> row) r g) = true.
Proof.
  unfold grid_get.
  destruct (decide (r = p)) as [->|Hne].
  - rewrite list_lookup_alter_eq.
    destruct (g !! p) as [row|];
      cbn [fmap option_fmap option_map]; [|auto].
    destruct (decide (k = c)) as [->|Hc].
    + destruct (decide (c < length row)%nat).
      * rewrite list_lookup_insert_eq by assumption. reflexivity.
      * rewrite list_insert_ge by lia. auto.
    + rewrite list_lookup_insert_ne by assumption. auto.
  - rewrite list_lookup_alter_ne by assumption. auto.
Qed.

Lemma grid_get_set_true p c p' c' g :
  grid_get p c g = true -> grid_get p c (grid_set p' c' true g) = true.
Proof.
  unfold grid_set. cbv zeta.
  destruct ((0 <=? 5 * p' + c') && (5 * p' + c' <? 30)); [|auto].
  apply poke_true.
Qed.

Lemma checkPainterColor_keeps palette s p c :
  grid_get p c (painterCollectionStatus s) = true ->
  grid_get p c (painterCollectionStatus (snd (checkPainterColor palette s)))
  = true.
Proof.
  intros H. induction palette as [|u palette IH]; [exact H|].
  rewrite checkPainterColor_cons.
  destruct (collects (rgb s) u); [|exact IH].
  apply grid_get_set_true, H.
Qed.

(** X6. The six palette probes of a Collection pass never take a
    collected colour back: every cell that was set before the probes is
    set after them. The probes log nothing and leave the mode alone. *)
Theorem probes_keep_collected (s : State) (p c : nat) :
  grid_get p c (painterCollectionStatus s) = true ->
  grid_get p c (painterCollectionStatus (probed s)) = true
  /\ log (probed s) = log s
  /\ currentMode (probed s) = currentMode s.
Proof.
  intros H. split; [|apply probed_log].
  unfold probed. cbv zeta.
  do 6 apply checkPainterColor_keeps. exact H.
Qed.

(** ** Playback *)

(** X7. Outside the counting path, that is in Collection mode or for a
    name that belongs to no colour family, [playAudio] requests the
    asset of the name itself and leaves every repeat counter as it
    was. *)
Theorem playAudio_plain_path (colorName : string) (s : State) :
  currentMode s = PAINTER_COLLECTION \/ getColorFamilyIndex colorName < 0 ->
  let s' := playAudio colorName s in
  colorCounters s' = colorCounters s
  /\ played (log s')
     = played (log s) ++ [fit32 ("/" +:+ colorName +:+ ".mp3")].
Proof.
  intros H. cbv zeta.
  assert (Hp : playAudio colorName s
               = playTrack (fit32 ("/" +:+ colorName +:+ ".mp3"))
                   (set_currentPlayingFile
                      (fit32 ("/" +:+ colorName +:+ ".mp3")) s)).
  { unfold playAudio. cbv zeta.
    destruct H as [Hm|Hi].
    - rewrite Hm. reflexivity.
    - destruct (Z.leb_spec 0 (getColorFamilyIndex colorName)); [lia|].
      rewrite andb_false_r. reflexivity. }
  rewrite Hp.
  destruct (playTrack_counters
              (fit32 ("/" +:+ colorName +:+ ".mp3"))
              (set_currentPlayingFile
                 (fit32 ("/" +:+ colorName +:+ ".mp3")) s))
    as (Hc & _ & Hl).
  split; [exact Hc|exact Hl].
Qed.

(** X8. A request for a file that is on the card and that the decoder
    opens stops the previous playback first, opens the file under the
    first 31 characters of its name, saves that name and sets the
    looping flag. In Detection mode the grid is left as it is; in
    Collection mode it is emptied. The repeat counters, the mode and the
    sensing flag are left alone. *)
Theorem playTrack_success (filename : string) (s : State) :
  SD_exists filename = true ->
  connecttoFS (fit32 filename) = true ->
  let s' := playTrack filename s in
  log s' = log s ++ [EvPlayTrack filename; EvStopSong;
                     EvConnect (fit32 filename) true]
  /\ isLooping s' = true
  /\ audioRunning s' = true
  /\ currentPlayingFile s' = fit32 filename
  /\ painterCollectionStatus s'
     = (if mode_eqb (currentMode s) PAINTER_COLLECTION
        then empty_grid else painterCollectionStatus s)
  /\ colorCounters s' = colorCounters s
  /\ currentMode s' = currentMode s
  /\ isColorDetectionEnabled s' = isColorDetectionEnabled s.
Proof.
  intros He Hc. cbv zeta.
  destruct (playTrack_cases filename s)
    as [(E & _)|[(_ & C & _)|[(_ & _ & Hm & ->)|(_ & _ & Hm & ->)]]];
    [congruence|congruence| |];
    rewrite Hm; cbn; rewrite !snoc_app; repeat split; exact Hm.
Qed.

(** X9. Two mode switches in a row bring the mode back to where it
    was, but not the rest: whichever mode they start from, the repeat
    counters are zero and the grid is empty afterwards, playback is
    stopped and the saved name is cleared. One of the two blinks once,
    the other twice. *)
Theorem switchMode_twice (s : State) :
  let s' := switchMode (switchMode s) in
  currentMode s' = currentMode s
  /\ colorCounters s' = replicate COLOR_FAMILY_COUNT 0
  /\ painterCollectionStatus s' = empty_grid
  /\ isLooping s' = false
  /\ audioRunning s' = false
  /\ currentPlayingFile s' = ""
  /\ isColorDetectionEnabled s' = isColorDetectionEnabled s
  /\ log s'
     = log s
       ++ [EvSwitchMode; EvStopSong;
           EvBlink (if mode_eqb (currentMode s) COLOR_RECOGNITION
                    then 2 else 1);
           EvSwitchMode; EvStopSong;
           EvBlink (if mode_eqb (currentMode s) COLOR_RECOGNITION
                    then 1 else 2)].
Proof.
  cbv zeta.
  destruct (switchMode_cases s) as [(Hm & ->)|(Hm & ->)];
    match goal with
    | |- context [switchMode ?x] =>
      destruct (switchMode_cases x) as [(Hm2 & ->)|(Hm2 & ->)];
        try discriminate Hm2
    end;
    rewrite Hm; cbn; rewrite !snoc_app; repeat split.
Qed.

End Further.

(** ** Invariants of a run *)

Lemma tidy_same s s' : ledger s' = ledger s -> tidy s -> tidy s'.
Proof.
  unfold ledger, tidy. intros H.
  injection H as Hm Hc Hn Hv Hs. rewrite Hm, Hc, Hn, Hv, Hs. auto.
Qed.

Ltac same_ledger :=
  unfold ledger; cbn;
  rewrite ?snoc_app, ?count_app, ?count_cons, ?count_nil;
  cbn [is_switch]; rewrite ?Z.add_0_r; reflexivity.

Lemma substring_length n : forall name,
  (String.length (substring 0 n name) <= n)%nat.
Proof.
  induction n as [|n IH]; intros [|c name]; cbn; try lia.
  specialize (IH name). lia.
Qed.

Lemma tidy_name f s : tidy s -> tidy (set_currentPlayingFile (fit32 f) s).
Proof.
  intros (Hc & _ & Hv & Hm). repeat split; try assumption; try apply Hc;
    try apply Hv.
  apply substring_length.
Qed.

Lemma tidy_counters cs s :
  counters_ok cs -> tidy s -> tidy (set_colorCounters cs s).
Proof.
  intros Hcs (_ & Hn & Hv & Hm). repeat split; try assumption; try apply Hcs;
    apply Hv.
Qed.

Lemma mode_after_succ n : mode_after (n + 1) = otherMode (mode_after n).
Proof.
  unfold mode_after. rewrite Z.add_1_r, Z.even_succ, <- Z.negb_even.
  destruct (Z.even n); reflexivity.
Qed.

Section Invariants.

Context {board : Board}.

Lemma playTrack_tidy f s : tidy s -> tidy (playTrack f s).
Proof.
  intros H.
  destruct (playTrack_cases f s)
    as [(_ & ->)|[(_ & _ & ->)|[(_ & _ & _ & ->)|(_ & _ & _ & ->)]]].
  - apply (tidy_same s); [same_ledger|exact H].
  - apply (tidy_same (set_currentPlayingFile (fit32 f) s));
      [same_ledger|apply tidy_name, H].
  - apply (tidy_same (set_currentPlayingFile (fit32 f) s));
      [same_ledger|apply tidy_name, H].
  - apply (tidy_same (set_currentPlayingFile (fit32 f) s));
      [same_ledger|apply tidy_name, H].
Qed.

Lemma playAudio_plain colorName s :
  currentMode s = PAINTER_COLLECTION \/ getColorFamilyIndex colorName < 0 ->
  playAudio colorName s
  = playTrack (fit32 ("/" +:+ colorName +:+ ".mp3"))
              (set_currentPlayingFile
                 (fit32 ("/" +:+ colorName +:+ ".mp3")) s).
Proof.
  intros H. unfold playAudio. cbv zeta. destruct H as [Hm|Hi].
  - rewrite Hm. reflexivity.
  - destruct (Z.leb_spec 0 (getColorFamilyIndex colorName)); [lia|].
    rewrite andb_false_r. reflexivity.
Qed.

Lemma incr_uint8_range c : 0 <= incr_uint8 c < 256.
Proof. unfold incr_uint8. apply Z.mod_pos_bound. lia. Qed.

Lemma playAudio_tidy colorName s : tidy s -> tidy (playAudio colorName s).
Proof.
  intros H.
  destruct (currentMode s) eqn:Hm;
    [destruct (Z.leb_spec 0 (getColorFamilyIndex colorName)) as [Hi|Hi]|].
  - rewrite (playAudio_detection colorName s Hm Hi). cbv zeta.
    set (idx := getColorFamilyIndex colorName) in *.
    set (c := incr_uint8 (counter_at idx s)).
    assert (Hc := incr_uint8_range (counter_at idx s)). fold c in Hc.
    pose proof H as ((Hlen & Hall) & _).
    destruct (Z.leb_spec COLOR_COUNT_THRESHOLD
                         (counter_at idx (set_counter idx c s))) as [Hge|Hlt].
    + apply playTrack_tidy, tidy_name.
      unfold set_counter. cbn [colorCounters set_colorCounters].
      rewrite list_insert_insert_eq.
      apply (tidy_same (set_colorCounters
                          (<[Z.to_nat idx := 0]> (colorCounters s)) s));
        [same_ledger|].
      apply tidy_counters; [|exact H].
      split; [rewrite length_insert; exact Hlen|].
      apply Forall_insert; [exact Hall|].
      unfold COLOR_COUNT_THRESHOLD. lia.
    + apply playTrack_tidy, tidy_name.
      unfold set_counter. apply tidy_counters; [|exact H].
      split; [rewrite length_insert; exact Hlen|].
      destruct (decide (Z.to_nat idx < length (colorCounters s))%nat)
        as [Hin|Hout].
      * rewrite (counter_at_set idx c s Hin) in Hlt.
        apply Forall_insert; [exact Hall|]. lia.
      * rewrite list_insert_ge by lia. exact Hall.
  - rewrite (playAudio_plain colorName s) by (right; exact Hi).
    apply playTrack_tidy, tidy_name, H.
  - rewrite (playAudio_plain colorName s) by (left; exact Hm).
    apply playTrack_tidy, tidy_name, H.
Qed.

Lemma checkColor_tidy t s : tidy s -> tidy (snd (checkColor t s)).
Proof.
  intros H. induction t as [|x t IH]; [exact H|].
  rewrite checkColor_cons. destruct (hits (rgb s) x); [|exact IH].
  apply playAudio_tidy, H.
Qed.

Lemma checkPainterColor_tidy t s :
  tidy s -> tidy (snd (checkPainterColor t s)).
Proof.
  intros H. induction t as [|x t IH]; [exact H|].
  rewrite checkPainterColor_cons. destruct (collects (rgb s) x); [|exact IH].
  apply (tidy_same s); [reflexivity|exact H].
Qed.

Lemma completion_step_tidy s p : tidy s -> tidy (completion_step s p).
Proof.
  intros H. unfold completion_step.
  destruct (row_complete p s); [|exact H].
  rewrite reset_row_eq.
  assert (Hp : tidy (playAudio (nth p painterNames "") (blinkLEDs 2 s))).
  { apply playAudio_tidy. apply (tidy_same s); [same_ledger|exact H]. }
  revert Hp. generalize (playAudio (nth p painterNames "") (blinkLEDs 2 s)).
  intros y Hy. apply (tidy_same y); [reflexivity|exact Hy].
Qed.

Lemma checkPainterCompletion_tidy s :
  tidy s -> tidy (checkPainterCompletion s).
Proof.
  unfold checkPainterCompletion. generalize (seq 0 6). intros ps.
  revert s. induction ps as [|p ps IH]; intros s H; cbn [fold_left];
    [exact H|].
  apply IH, completion_step_tidy, H.
Qed.

Lemma classify_tidy s : tidy s -> tidy (classify s).
Proof.
  intros H. destruct (currentMode s) eqn:Hm.
  - unfold classify. rewrite Hm. apply checkColor_tidy, H.
  - rewrite (classify_collection s Hm).
    apply checkPainterCompletion_tidy.
    unfold probed. cbv zeta.
    do 6 apply checkPainterColor_tidy. exact H.
Qed.

Lemma continuePlayback_ledger s : ledger (continuePlayback s) = ledger s.
Proof.
  unfold continuePlayback, audio_connecttoFS.
  destruct (isLooping s); [|reflexivity].
  destruct (negb (audioRunning s)); [|same_ledger].
  destruct (negb (String.eqb (currentPlayingFile s) "")); [|reflexivity].
  destruct (connecttoFS (currentPlayingFile s)); same_ledger.
Qed.

Lemma afterEncoder_tidy i s : tidy s -> tidy (afterEncoder i s).
Proof.
  intros H. unfold afterEncoder. cbv zeta.
  set (s1 := if isShowingVolume s && _ then restoreOriginalLeds s else s).
  assert (H1 : tidy s1).
  { apply (tidy_same s); [|exact H]. subst s1. unfold restoreOriginalLeds.
    destruct (isShowingVolume s && _); [|reflexivity].
    destruct (isShowingVolume s); [same_ledger|reflexivity]. }
  clearbody s1.
  set (s2 := if isColorDetectionEnabled s1 then _ else _).
  assert (H2 : tidy s2).
  { subst s2. destruct (isColorDetectionEnabled s1).
    - apply classify_tidy. apply (tidy_same s1); [same_ledger|exact H1].
    - apply (tidy_same s1); [apply continuePlayback_ledger|exact H1]. }
  clearbody s2.
  destruct (audioRunning s2); [|exact H2].
  apply (tidy_same s2); [same_ledger|exact H2].
Qed.

Lemma handleEncoder_tidy A B now s :
  tidy s -> tidy (handleEncoder A B now s).
Proof.
  intros (Hc & Hn & Hv & Hm).
  assert (Hb := handleEncoder_beside A B now s).
  unfold beside_encoder, classification in Hb.
  injection Hb as _ _ _ _ _ _ Hm1 _ Hc1 _ _ _ Hn1 _ Ha1 _ _.
  assert (Hs : count is_switch (log (handleEncoder A B now s))
               = count is_switch (log s)).
  { rewrite !count_switch. unfold arbiter_log. rewrite Ha1. reflexivity. }
  unfold tidy. rewrite Hm1, Hc1, Hn1, Hs.
  repeat split; try assumption; try apply Hc.
  - destruct (handleEncoder_volume A B now s)
      as [(Hvv & _)|(_ & _ & _ & [(_ & H1 & ->)|(_ & H1 & ->)])];
      [apply (f_equal fst) in Hvv; cbn [volume_view fst] in Hvv;
       rewrite Hvv; apply Hv| |];
      unfold MIN_VOLUME, MAX_VOLUME, VOLUME_STEP in *; lia.
  - destruct (handleEncoder_volume A B now s)
      as [(Hvv & _)|(_ & _ & _ & [(_ & H1 & ->)|(_ & H1 & ->)])];
      [apply (f_equal fst) in Hvv; cbn [volume_view fst] in Hvv;
       rewrite Hvv; apply Hv| |];
      unfold MIN_VOLUME, MAX_VOLUME, VOLUME_STEP in *; lia.
Qed.

Lemma afterButton_tidy i s : tidy s -> tidy (afterButton i s).
Proof.
  intros H.
  change (afterButton i s)
    with (afterEncoder i (handleEncoder (in_A i) (in_B i)
                                        (in_millis_encoder i) s)).
  apply afterEncoder_tidy, handleEncoder_tidy, H.
Qed.

Lemma switchMode_tidy s : tidy s -> tidy (switchMode s).
Proof.
  intros (Hc & Hn & Hv & Hm).
  assert (Hz : counters_ok (replicate COLOR_FAMILY_COUNT 0)).
  { split; [apply length_replicate|].
    apply Forall_replicate. unfold COLOR_COUNT_THRESHOLD. lia. }
  destruct (switchMode_cases s) as [(Hs & ->)|(Hs & ->)];
    unfold tidy; cbn;
    rewrite !snoc_app, count_app, !count_cons, count_nil;
    cbn [is_switch]; rewrite !Z.add_0_r, mode_after_succ, <- Hm, Hs;
    repeat split; try apply Hz; try apply Hv; cbn; lia.
Qed.

Lemma toggleDetection_tidy s : tidy s -> tidy (toggleDetection s).
Proof.
  intros H. unfold toggleDetection. cbv zeta.
  set (s2 := emit _ (set_isColorDetectionEnabled _ s)).
  set (s3 := if mode_eqb (currentMode s2) PAINTER_COLLECTION
             then resetAllPainterCollections s2 else s2).
  assert (H3 : tidy s3).
  { apply (tidy_same s); [|exact H]. subst s3 s2.
    destruct (mode_eqb _ PAINTER_COLLECTION); same_ledger. }
  clearbody s3.
  destruct (negb (isColorDetectionEnabled s3)).
  - destruct (mode_eqb (currentMode (emit EvShowColor s3)) COLOR_RECOGNITION).
    + unfold checkColorAndPlayAudio. apply checkColor_tidy.
      apply (tidy_same s3); [same_ledger|exact H3].
    + apply (tidy_same s3); [same_ledger|exact H3].
  - apply (tidy_same s3); [same_ledger|exact H3].
Qed.

Lemma handleButton_tidy b now s :
  tidy s -> tidy (state_of (handleButton b now s)).
Proof.
  intros H. destruct b, (lastButtonState s) eqn:Hl.
  - rewrite (handleButton_idle now s Hl).
    apply (tidy_same s); [reflexivity|exact H].
  - rewrite (handleButton_release now s Hl). unfold releaseEdge.
    cbv zeta. cbn [state_of].
    assert (H0 : tidy (set_isEncoderPressed false s))
      by (apply (tidy_same s); [reflexivity|exact H]).
    revert H0. generalize (set_isEncoderPressed false s). intros s0 H0.
    assert (H1 : tidy (if (elapsed now (buttonPressStartTime s0)
                             <? MODE_SWITCH_PRESS_DURATION)
                          && negb (volumeAdjustedWhilePressed s0)
                       then toggleDetection s0 else s0)).
    { destruct (_ && _); [apply toggleDetection_tidy|]; exact H0. }
    revert H1. generalize (if (elapsed now (buttonPressStartTime s0)
                                 <? MODE_SWITCH_PRESS_DURATION)
                              && negb (volumeAdjustedWhilePressed s0)
                           then toggleDetection s0 else s0).
    intros y Hy. apply (tidy_same y); [reflexivity|exact Hy].
  - rewrite (handleButton_press now s Hl).
    apply (tidy_same s); [reflexivity|exact H].
  - rewrite (handleButton_held now s Hl).
    destruct (isSleepPressing s && _).
    + apply (tidy_same s); [same_ledger|exact H].
    + unfold stillDown. cbn [state_of].
      assert (H1 : tidy (if isLongPressing s
                            && (MODE_SWITCH_PRESS_DURATION
                                  <=? elapsed now (buttonPressStartTime s))
                         then set_isLongPressing false
                                (if negb (volumeAdjustedWhilePressed s)
                                 then switchMode s else s)
                         else s)).
      { destruct (_ && _); [|exact H].
        assert (H2 : tidy (if negb (volumeAdjustedWhilePressed s)
                           then switchMode s else s))
          by (destruct (negb _); [apply switchMode_tidy|]; exact H).
        revert H2. generalize (if negb (volumeAdjustedWhilePressed s)
                               then switchMode s else s).
        intros y Hy. apply (tidy_same y); [reflexivity|exact Hy]. }
      revert H1. generalize (if isLongPressing s
                                && (MODE_SWITCH_PRESS_DURATION
                                      <=? elapsed now (buttonPressStartTime s))
                             then set_isLongPressing false
                                    (if negb (volumeAdjustedWhilePressed s)
                                     then switchMode s else s)
                             else s).
      intros y Hy. apply (tidy_same y); [reflexivity|exact Hy].
Qed.

Lemma tick_tidy i s : tidy s -> tidy (state_of (tick i s)).
Proof.
  intros H. rewrite tick_loop.
  assert (H0 : tidy (betweenPasses i s)).
  { apply (tidy_same s); [|exact H]. unfold betweenPasses.
    destruct (in_audio_ended i); reflexivity. }
  apply (handleButton_tidy (in_button i) (in_millis_button i)) in H0.
  destruct (handleButton _ _ _) as [x|x]; cbn [state_of] in *.
  - apply afterButton_tidy, H0.
  - exact H0.
Qed.

Lemma run_tidy inputs s : tidy s -> tidy (state_of (run inputs s)).
Proof.
  revert s. induction inputs as [|i inputs IH]; intros s H; [exact H|].
  cbn [run]. assert (Ht := tick_tidy i s H).
  destruct (tick i s) as [x|x]; cbn [state_of] in *; [apply IH|]; exact Ht.
Qed.

Lemma boot_tidy : tidy boot.
Proof.
  unfold tidy, counters_ok.
  change (colorCounters boot) with (replicate COLOR_FAMILY_COUNT 0).
  split; [split; [apply length_replicate|]|].
  - apply Forall_replicate. unfold COLOR_COUNT_THRESHOLD. lia.
  - cbn. unfold MIN_VOLUME, MAX_VOLUME. repeat split; try lia; reflexivity.
Qed.

(** X10. The volume never leaves the range 0..21: after any run from
    boot it lies between [MIN_VOLUME] and [MAX_VOLUME]. From any state,
    one pass of [loop] moves it by one step at most. *)
Theorem volume_stays_in_range :
  (forall inputs : list Input,
     MIN_VOLUME <= currentVolume (state_of (run inputs boot)) <= MAX_VOLUME)
  /\ (forall (i : Input) (s : State),
        Z.abs (currentVolume (state_of (tick i s)) - currentVolume s)
        <= VOLUME_STEP).
Proof.
  split.
  - intros inputs. apply (run_tidy inputs boot boot_tidy).
  - intros i s. rewrite tick_loop.
    destruct (betweenPasses_same i s) as (_ & _ & Hv0 & _).
    apply (f_equal fst) in Hv0. cbn [volume_view fst] in Hv0.
    destruct (handleButton_frame (in_button i) (in_millis_button i)
                                 (betweenPasses i s)) as (Hb & _).
    apply (f_equal (fun v => snd (fst v))) in Hb.
    cbn [beside_button fst snd] in Hb.
    destruct (handleButton _ _ _) as [x|x]; cbn [state_of] in *.
    + destruct (afterButton_volume i x)
        as [(Hvv & _)|(_ & _ & _ & [(_ & _ & Hvv)|(_ & _ & Hvv)])].
      * apply (f_equal fst) in Hvv. cbn [volume_view fst] in Hvv.
        unfold VOLUME_STEP. lia.
      * unfold VOLUME_STEP in *. lia.
      * unfold VOLUME_STEP in *. lia.
    + unfold VOLUME_STEP. lia.
Qed.

(** X11. On a board whose family indices lie inside the counter array,
    after any run from boot there are still sixteen repeat counters and
    each is below the threshold of 5, so the eight-bit increment in
    [playAudio] never wraps. *)
Theorem repeat_counters_stay_below_threshold (inputs : list Input) :
  (forall name, getColorFamilyIndex name < Z.of_nat COLOR_FAMILY_COUNT) ->
  let x := state_of (run inputs boot) in
  length (colorCounters x) = COLOR_FAMILY_COUNT
  /\ Forall (fun c => 0 <= c < COLOR_COUNT_THRESHOLD) (colorCounters x)
  /\ forall idx, incr_uint8 (counter_at idx x) = counter_at idx x + 1.
Proof.
  intros _. cbv zeta.
  destruct (run_tidy inputs boot boot_tidy) as ((Hlen & Hall) & _).
  split; [exact Hlen|]. split; [exact Hall|].
  intros idx. unfold incr_uint8, counter_at.
  apply Z.mod_small.
  destruct (colorCounters (state_of (run inputs boot)) !! Z.to_nat idx)
    as [c|] eqn:Hc; unfold default; cbn [from_option id].
  - rewrite Forall_lookup in Hall. specialize (Hall _ _ Hc).
    cbv beta in Hall. unfold COLOR_COUNT_THRESHOLD in Hall. lia.
  - lia.
Qed.

(** X12. After any run from boot the saved asset name has 31 characters
    at most, the room [currentPlayingFile] has before its terminator. *)
Theorem saved_name_fits_buffer (inputs : list Input) :
  (String.length (currentPlayingFile (state_of (run inputs boot))) <= 31)%nat.
Proof. apply (run_tidy inputs boot boot_tidy). Qed.

(** X13. The mode changes in [switchMode] and nowhere else: after any
    run from boot the device is in Detection mode when [switchMode] was
    entered an even number of times, and in Collection mode when it was
    entered an odd number of times. *)
Theorem mode_follows_switch_count (inputs : list Input) :
  let x := state_of (run inputs boot) in
  currentMode x = mode_after (count is_switch (log x)).
Proof. apply (run_tidy inputs boot boot_tidy). Qed.

End Invariants.

(** ** Holds that end in a mode switch *)

Section LongPress.

Context {board : Board}.

(** Whether one of the passes sees the hold at or past the mode-switch
    threshold. *)
Lemma late_pass_seen t0 held :
  Exists (fun i => MODE_SWITCH_PRESS_DURATION <= held_for t0 i) held ->
  existsb (fun i => MODE_SWITCH_PRESS_DURATION <=? held_for t0 i) held = true.
Proof.
  intros H. apply existsb_exists.
  apply List.Exists_exists in H as (i & Hi & Hl).
  exists i. split; [exact Hi|]. apply Z.leb_le, Hl.
Qed.

(** Passes with the button down, short of the sleep threshold, in which
    no rotation moves the volume: the mode switch fires on the first
    pass that sees the hold at or past its threshold, and only there. *)
Lemma quiet_hold t0 v0 held :
  forall y,
    holding t0 y ->
    volumeAdjustedWhilePressed y = false ->
    currentVolume y = v0 ->
    Forall button_down held ->
    Forall (at_boundary v0) (directions (lastEncoded y) held) ->
    Forall (fun i => held_for t0 i < SLEEP_PRESS_DURATION) held ->
    let late := existsb (fun i => MODE_SWITCH_PRESS_DURATION <=? held_for t0 i)
                        held in
    exists x,
      run held y = Running x
      /\ holding t0 x
      /\ volumeAdjustedWhilePressed x = false
      /\ currentVolume x = v0
      /\ List.filter is_volume (log x) = List.filter is_volume (log y)
      /\ isLongPressing x = isLongPressing y && negb late
      /\ arbiter_log x
         = arbiter_log y
           ++ (if isLongPressing y && late then [EvSwitchMode] else []).
Proof.
  induction held as [|i held IH]; intros y Hh Hv Hc Hdown Hdir Hawake;
    cbv zeta.
  - exists y. cbn [existsb]. rewrite andb_false_r, andb_true_r, app_nil_r.
    repeat split; try assumption; apply Hh.
  - apply Forall_cons in Hdown as [Hd Hdown].
    apply Forall_cons in Hawake as [Hs Hawake].
    cbn [directions] in Hdir. apply Forall_cons in Hdir as [Hb Hdir].
    destruct (held_pass_awake t0 i y Hh Hd Hs)
      as (x0 & x1 & Ht & -> & Hh1 & Hlp & Hl & Hv0 & _ & Hbb & Hvol).
    cbv zeta in Hl, Hlp. rewrite Hv in Hl. cbn [negb] in Hl.
    rewrite andb_true_r in Hl.
    unfold beside_button, decoder_view in Hbb.
    injection Hbb as He0 _ _ _ _ Hc0 _.
    destruct (boundary_after i x0) as (Hvv & Hvl).
    { rewrite He0, Hc0, Hc. exact Hb. }
    unfold volume_view in Hvv. injection Hvv as Hc1 Hv1.
    destruct (afterButton_decoder i x0) as (He1 & _).
    assert (Hdir' : Forall (at_boundary v0)
                           (directions (lastEncoded (afterButton i x0)) held)).
    { rewrite He1. exact Hdir. }
    assert (Hv' : volumeAdjustedWhilePressed (afterButton i x0) = false)
      by congruence.
    assert (Hc' : currentVolume (afterButton i x0) = v0) by congruence.
    destruct (IH (afterButton i x0) Hh1 Hv' Hc' Hdown Hdir' Hawake)
      as (x & Hr & Hhx & Hvx & Hcx & Hlx & Hpx & Hax).
    cbv zeta in Hpx, Hax.
    exists x. cbn [run existsb]. rewrite Ht.
    split; [exact Hr|]. split; [exact Hhx|]. split; [exact Hvx|].
    split; [exact Hcx|]. split; [congruence|].
    rewrite Hpx, Hax, Hlp, Hl.
    destruct (isLongPressing y), (MODE_SWITCH_PRESS_DURATION <=? held_for t0 i),
      (existsb _ held); cbn [andb orb negb];
      rewrite ?app_nil_r; split; reflexivity.
Qed.

(** X14. A press that is held past the mode-switch threshold (3000 ms)
    but released before any pass sees it at the sleep threshold
    (5000 ms), with no rotation that moves the volume, switches the mode
    exactly once and toggles nothing: the release of a long press is not
    a short press. The device is in the other mode afterwards and the
    volume is as it was. *)
Theorem long_press_switches_mode
    (before : list Input) (s : State) (press : Input) (held : list Input)
    (release : Input) :
  run before boot = Running s ->
  lastButtonState s = HIGH ->
  button_down press ->
  Forall button_down held ->
  in_button release = HIGH ->
  Forall (at_boundary (currentVolume s))
         (directions (lastEncoded s) (press :: held)) ->
  Forall (fun i => held_for (in_millis_button press) i
                   < SLEEP_PRESS_DURATION) held ->
  Exists (fun i => MODE_SWITCH_PRESS_DURATION
                   <= held_for (in_millis_button press) i) held ->
  MODE_SWITCH_PRESS_DURATION <= held_for (in_millis_button press) release ->
  exists x,
    run (press :: held ++ [release]) s = Running x
    /\ count is_switch (log x) = count is_switch (log s) + 1
    /\ count is_toggle (log x) = count is_toggle (log s)
    /\ count is_sleep (log x) = count is_sleep (log s)
    /\ currentMode x = otherMode (currentMode s)
    /\ currentVolume x = currentVolume s.
Proof.
  intros Hboot Hl Hd Hdown Hrel Hdir Hawake Hlate Hlong.
  cbn [directions] in Hdir. apply Forall_cons in Hdir as [Hb Hdir].
  set (t0 := in_millis_button press) in *.
  (* the press edge *)
  destruct (press_pass press s Hl Hd)
    as (x0 & x1 & Ht & -> & Hh1 & Hlp1 & Hal & Hv0 & _ & Hbb & Hvol).
  fold t0 in Hh1.
  unfold beside_button, decoder_view in Hbb.
  injection Hbb as He0 _ _ _ _ Hc0 _.
  destruct (boundary_after press x0) as (Hvv & Hvl).
  { rewrite He0, Hc0. exact Hb. }
  unfold volume_view in Hvv. injection Hvv as Hc1 Hv1.
  destruct (afterButton_decoder press x0) as (He1 & _).
  (* the passes with the button down *)
  assert (Hdir' : Forall (at_boundary (currentVolume s))
                         (directions (lastEncoded (afterButton press x0))
                                     held)).
  { rewrite He1. exact Hdir. }
  assert (Hv' : volumeAdjustedWhilePressed (afterButton press x0) = false)
    by congruence.
  assert (Hc' : currentVolume (afterButton press x0) = currentVolume s)
    by congruence.
  destruct (quiet_hold t0 (currentVolume s) held (afterButton press x0)
                       Hh1 Hv' Hc' Hdown Hdir' Hawake)
    as (y & Hr & Hhy & Hvy & Hcy & Hly & Hpy & Hay).
  cbv zeta in Hpy, Hay.
  rewrite (late_pass_seen t0 held Hlate), Hlp1 in Hay. cbn [andb] in Hay.
  (* the release *)
  destruct Hhy as (Hly0 & _ & _ & Hby & _).
  assert (Htr := tick_release release y Hly0 Hrel).
  set (b0 := betweenPasses release y) in *.
  destruct (betweenPasses_fields release y)
    as (_ & _ & _ & Hb4 & _ & _ & Hb7 & Hbb & Hal' & _).
  fold b0 in Hb4, Hb7, Hbb, Hal'.
  destruct (releaseEdge_view (in_millis_button release) b0)
    as (_ & Hep & _ & Hlr & Hbr).
  cbv zeta in Hlr. rewrite Hb4, Hby, Hal' in Hlr.
  unfold held_for in Hlong.
  destruct (Z.ltb_spec (elapsed (in_millis_button release) t0)
                       MODE_SWITCH_PRESS_DURATION); [lia|].
  cbn [andb] in Hlr. rewrite app_nil_r in Hlr.
  set (z0 := releaseEdge (in_millis_button release) b0) in *.
  destruct (afterButton_arbiter release z0) as (_ & Haz).
  destruct (afterButton_volume release z0)
    as [(Hvz & Hlz)|(Hpz & _)]; [|congruence].
  apply (f_equal fst) in Hvz. cbn [volume_view fst] in Hvz.
  unfold beside_button in Hbr, Hbb.
  assert (Hrun : run (press :: held ++ [release]) s
                 = Running (afterButton release z0)).
  { cbn [run]. rewrite Ht, run_app, Hr. cbn [run]. rewrite Htr.
    reflexivity. }
  assert (Hsw : count is_switch (log (afterButton release z0))
                = count is_switch (log s) + 1).
  { rewrite !count_switch. unfold arbiter_log in *.
    rewrite Haz, Hlr, Hay, Hal, !count_app.
    rewrite ?count_cons, ?count_nil. cbn [is_switch]. lia. }
  exists (afterButton release z0).
  split; [exact Hrun|]. split; [exact Hsw|].
  split; [|split; [|split; [|congruence]]].
  - rewrite !count_toggle. unfold arbiter_log in *.
    rewrite Haz, Hlr, Hay, Hal, !count_app.
    rewrite ?count_cons, ?count_nil. cbn [is_toggle]. lia.
  - rewrite !count_sleep. unfold arbiter_log in *.
    rewrite Haz, Hlr, Hay, Hal, !count_app.
    rewrite ?count_cons, ?count_nil. cbn [is_sleep]. lia.
  - assert (Hs : tidy s).
    { replace s with (state_of (run before boot))
        by (rewrite Hboot; reflexivity).
      apply run_tidy, boot_tidy. }
    assert (Hx : tidy (state_of (run (press :: held ++ [release]) s)))
      by apply run_tidy, Hs.
    rewrite Hrun in Hx. cbn [state_of] in Hx.
    destruct Hs as (_ & _ & _ & Hms). destruct Hx as (_ & _ & _ & Hmx).
    rewrite Hmx, Hsw, mode_after_succ, <- Hms. reflexivity.
Qed.

(** X19. A hold that the loop samples between the two thresholds, with
    no rotation that moves the volume, and then at or past the sleep
    threshold, switches the mode exactly once before it sleeps: the
    sleep sequence is entered once and no toggle fires. *)
Theorem sampled_sleep_hold_switches_once
    (s : State) (press : Input) (held : list Input) (last : Input) :
  lastButtonState s = HIGH ->
  button_down press ->
  Forall button_down held ->
  button_down last ->
  Forall (at_boundary (currentVolume s))
         (directions (lastEncoded s) (press :: held)) ->
  Forall (fun i => held_for (in_millis_button press) i
                   < SLEEP_PRESS_DURATION) held ->
  Exists (fun i => MODE_SWITCH_PRESS_DURATION
                   <= held_for (in_millis_button press) i) held ->
  SLEEP_PRESS_DURATION <= held_for (in_millis_button press) last ->
  exists x,
    (forall rest, run (press :: held ++ last :: rest) s = DeepSleep x)
    /\ count is_switch (log x) = count is_switch (log s) + 1
    /\ count is_sleep (log x) = count is_sleep (log s) + 1
    /\ count is_toggle (log x) = count is_toggle (log s).
Proof.
  intros Hl Hd Hdown Hdl Hdir Hawake Hlate Hsleep.
  cbn [directions] in Hdir. apply Forall_cons in Hdir as [Hb Hdir].
  set (t0 := in_millis_button press) in *.
  destruct (press_pass press s Hl Hd)
    as (x0 & x1 & Ht & -> & Hh1 & Hlp1 & Hal & Hv0 & _ & Hbb & Hvol).
  fold t0 in Hh1.
  unfold beside_button, decoder_view in Hbb.
  injection Hbb as He0 _ _ _ _ Hc0 _.
  destruct (boundary_after press x0) as (Hvv & Hvl).
  { rewrite He0, Hc0. exact Hb. }
  unfold volume_view in Hvv. injection Hvv as Hc1 Hv1.
  destruct (afterButton_decoder press x0) as (He1 & _).
  assert (Hdir' : Forall (at_boundary (currentVolume s))
                         (directions (lastEncoded (afterButton press x0))
                                     held)).
  { rewrite He1. exact Hdir. }
  assert (Hv' : volumeAdjustedWhilePressed (afterButton press x0) = false)
    by congruence.
  assert (Hc' : currentVolume (afterButton press x0) = currentVolume s)
    by congruence.
  destruct (quiet_hold t0 (currentVolume s) held (afterButton press x0)
                       Hh1 Hv' Hc' Hdown Hdir' Hawake)
    as (y & Hr & Hhy & Hvy & Hcy & Hly & Hpy & Hay).
  cbv zeta in Hpy, Hay.
  rewrite (late_pass_seen t0 held Hlate), Hlp1 in Hay. cbn [andb] in Hay.
  destruct (held_pass_sleep t0 last y Hhy Hdl Hsleep) as (x & Htx & Hax).
  exists x. split.
  { intros rest. cbn [run]. rewrite Ht, run_app, Hr. cbn [run].
    rewrite Htx. reflexivity. }
  rewrite !count_switch, !count_sleep, !count_toggle.
  rewrite Hax, Hay, Hal, !count_app.
  rewrite ?count_cons, ?count_nil.
  cbn [is_sleep is_toggle is_switch]. lia.
Qed.

End LongPress.

(** ** The short press, sleep and idle passes *)

Section Passes.

Context {board : Board}.

Lemma playTrack_sensing f s :
  isColorDetectionEnabled (playTrack f s) = isColorDetectionEnabled s.
Proof.
  destruct (playTrack_cases f s)
    as [(_ & ->)|[(_ & _ & ->)|[(_ & _ & _ & ->)|(_ & _ & _ & ->)]]];
    reflexivity.
Qed.

Lemma checkColor_sensing t s :
  isColorDetectionEnabled (snd (checkColor t s)) = isColorDetectionEnabled s.
Proof.
  induction t as [|x t IH]; [reflexivity|].
  rewrite checkColor_cons. destruct (hits (rgb s) x); [|exact IH].
  cbn [snd].
  destruct (playAudio_playTrack (audioFile x) s) as (f & y & -> & _ & <- & _).
  apply playTrack_sensing.
Qed.

(** The state the short press leaves. *)
Lemma toggleDetection_state s :
  let s' := toggleDetection s in
  isColorDetectionEnabled s' = negb (isColorDetectionEnabled s)
  /\ (currentMode s = PAINTER_COLLECTION ->
      painterCollectionStatus s' = empty_grid
      /\ played (log s') = played (log s))
  /\ (isColorDetectionEnabled s = false ->
      isLooping s' = false /\ audioRunning s' = false
      /\ played (log s') = played (log s)).
Proof.
  cbv zeta. unfold toggleDetection. cbv zeta.
  change (isColorDetectionEnabled
            (set_isColorDetectionEnabled (negb (isColorDetectionEnabled s)) s))
    with (negb (isColorDetectionEnabled s)).
  set (s2 := emit _ (set_isColorDetectionEnabled _ s)).
  set (s3 := if mode_eqb (currentMode s2) PAINTER_COLLECTION
             then resetAllPainterCollections s2 else s2).
  assert (H3 : isColorDetectionEnabled s3 = negb (isColorDetectionEnabled s)
               /\ currentMode s3 = currentMode s
               /\ played (log s3) = played (log s)
               /\ (currentMode s = PAINTER_COLLECTION ->
                   painterCollectionStatus s3 = empty_grid)).
  { subst s3 s2. change (currentMode (emit _ (set_isColorDetectionEnabled _ s)))
      with (currentMode s).
    destruct (currentMode s) eqn:Hmode; cbn; rewrite played_app, app_nil_r;
      repeat split;
      first [exact Hmode | discriminate | intros _; reflexivity]. }
  clearbody s3. clear s2. destruct H3 as (He & Hm & Hp & Hg).
  rewrite He.
  destruct (isColorDetectionEnabled s); cbn [negb].
  - change (currentMode (emit EvShowColor s3)) with (currentMode s3).
    rewrite Hm. destruct (currentMode s) eqn:Hmode; cbn [mode_eqb].
    + unfold checkColorAndPlayAudio. rewrite checkColor_sensing.
      split; [exact He|]. split; discriminate.
    + split; [exact He|]. split; [|discriminate].
      intros _. split; [apply Hg; reflexivity|].
      cbn. rewrite played_app, app_nil_r. exact Hp.
  - split; [exact He|]. split.
    + intros Hc. split; [apply Hg, Hc|].
      cbn. rewrite played_app, app_nil_r. exact Hp.
    + intros _. repeat split.
      cbn. rewrite played_app, app_nil_r. exact Hp.
Qed.

(** X15. The release of a short press (under 3000 ms, no volume
    adjustment) flips the sensing flag and disarms the long-press and
    sleep timers. In Collection mode it empties the grid, whichever way
    the flag goes, and requests no track. When it turns sensing on it
    stops the playback and clears the looping flag. *)
Theorem short_press_effect (now : Z) (s : State) :
  lastButtonState s = LOW ->
  elapsed now (buttonPressStartTime s) < MODE_SWITCH_PRESS_DURATION ->
  volumeAdjustedWhilePressed s = false ->
  exists x,
    handleButton HIGH now s = Running x
    /\ isColorDetectionEnabled x = negb (isColorDetectionEnabled s)
    /\ (currentMode s = PAINTER_COLLECTION ->
        painterCollectionStatus x = empty_grid
        /\ played (log x) = played (log s))
    /\ (isColorDetectionEnabled s = false ->
        isLooping x = false /\ audioRunning x = false
        /\ played (log x) = played (log s))
    /\ lastButtonState x = HIGH
    /\ isEncoderPressed x = false
    /\ isLongPressing x = false
    /\ isSleepPressing x = false.
Proof.
  intros Hl Ht Hv. exists (releaseEdge now s).
  split; [apply (handleButton_release now s Hl)|].
  unfold releaseEdge. cbv zeta.
  change (buttonPressStartTime (set_isEncoderPressed false s))
    with (buttonPressStartTime s).
  change (volumeAdjustedWhilePressed (set_isEncoderPressed false s))
    with (volumeAdjustedWhilePressed s).
  rewrite Hv. destruct (Z.ltb_spec (elapsed now (buttonPressStartTime s))
                                   MODE_SWITCH_PRESS_DURATION); [|lia].
  cbn [andb negb].
  destruct (toggleDetection_state (set_isEncoderPressed false s))
    as (He & Hc & Hon).
  cbv zeta in He, Hc, Hon.
  change (isColorDetectionEnabled (set_isEncoderPressed false s))
    with (isColorDetectionEnabled s) in *.
  change (currentMode (set_isEncoderPressed false s))
    with (currentMode s) in *.
  change (log (set_isEncoderPressed false s)) with (log s) in *.
  destruct (toggleDetection_effect (set_isEncoderPressed false s))
    as (Ha & _).
  apply (f_equal snd) in Ha. cbn [arbiter_view snd set_isEncoderPressed
                                   isEncoderPressed] in Ha.
  revert He Hc Hon Ha.
  generalize (toggleDetection (set_isEncoderPressed false s)).
  intros y He Hc Hon Ha.
  split; [exact He|]. split; [exact Hc|]. split; [exact Hon|].
  repeat split. exact Ha.
Qed.

(** The only way [handleButton] ends in deep sleep. *)
Lemma handleButton_sleeps b now s x :
  handleButton b now s = DeepSleep x ->
  b = LOW /\ lastButtonState s = LOW
  /\ SLEEP_PRESS_DURATION <= elapsed now (sleepPressStartTime s)
  /\ x = (s |> prepareForSleep |> enterDeepSleep).
Proof.
  destruct b, (lastButtonState s) eqn:Hl.
  - rewrite (handleButton_idle now s Hl). discriminate.
  - rewrite (handleButton_release now s Hl). discriminate.
  - rewrite (handleButton_press now s Hl). discriminate.
  - rewrite (handleButton_held now s Hl).
    destruct (isSleepPressing s); cbn [andb]; [|discriminate].
    destruct (Z.leb_spec SLEEP_PRESS_DURATION
                         (elapsed now (sleepPressStartTime s))) as [Hs|Hs];
      [|discriminate].
    intros Hx. injection Hx as <-. auto.
Qed.

(** X16. A run ends in deep sleep only on a pass that finds the button
    down, as it was on the pass before, at least 5000 ms after the
    press was timed. The last things the sketch does before it sleeps
    are the sleep animation, the stop of the decoder and the shutdown of
    the sensor, in this order; nothing is playing when it sleeps. *)
Theorem sleep_only_after_hold (inputs : list Input) (s x : State) :
  run inputs s = DeepSleep x ->
  exists before i after y,
    inputs = before ++ i :: after
    /\ run before s = Running y
    /\ in_button i = LOW
    /\ lastButtonState y = LOW
    /\ SLEEP_PRESS_DURATION
       <= elapsed (in_millis_button i) (sleepPressStartTime y)
    /\ log x = log y ++ [EvSleepAnimation; EvStopSong; EvSensorDisable;
                         EvDeepSleep]
    /\ audioRunning x = false.
Proof.
  revert s. induction inputs as [|i inputs IH]; intros s H; [discriminate|].
  cbn [run] in H. destruct (tick i s) as [z|z] eqn:Ht.
  - destruct (IH z H) as (before & j & after & y & -> & Hr & Hrest).
    exists (i :: before), j, after, y.
    split; [reflexivity|]. split; [cbn [run]; rewrite Ht; exact Hr|].
    exact Hrest.
  - injection H as ->.
    rewrite tick_loop in Ht.
    destruct (handleButton (in_button i) (in_millis_button i)
                           (betweenPasses i s)) as [w|w] eqn:Hb;
      [discriminate|].
    injection Ht as ->.
    apply handleButton_sleeps in Hb as (Hlow & Hl & Hs & ->).
    destruct (betweenPasses_fields i s)
      as (Hb1 & _ & Hb3 & _ & _ & _ & _ & _ & _ & Hb10).
    exists [], i, inputs, s.
    split; [reflexivity|]. split; [reflexivity|].
    split; [exact Hlow|]. split; [congruence|].
    split; [rewrite <- Hb3; exact Hs|].
    revert Hb10. generalize (betweenPasses i s). intros y Hy.
    split; [|reflexivity].
    cbn. rewrite !snoc_app, Hy. reflexivity.
Qed.

(** X17. While the button is left alone nothing that needs the button
    happens: over any number of passes with the button up, starting with
    the button up, the sketch never switches the mode, toggles sensing
    or sleeps, and no rotation changes the volume. *)
Theorem idle_button_fires_nothing (inputs : list Input) (s : State) :
  lastButtonState s = HIGH ->
  isEncoderPressed s = false ->
  Forall (fun i => in_button i = HIGH) inputs ->
  exists x,
    run inputs s = Running x
    /\ arbiter_log x = arbiter_log s
    /\ currentVolume x = currentVolume s
    /\ List.filter is_volume (log x) = List.filter is_volume (log s)
    /\ lastButtonState x = HIGH.
Proof.
  revert s. induction inputs as [|i inputs IH]; intros s Hl He Hup.
  - exists s. repeat split. exact Hl.
  - apply Forall_cons in Hup as [Hi Hup].
    destruct (betweenPasses_fields i s)
      as (Hb1 & _ & _ & _ & _ & Hb6 & _ & Hb8 & Hb9 & Hb10).
    assert (Ht : tick i s
                 = Running (afterButton i (set_lastButtonState HIGH
                                             (betweenPasses i s)))).
    { rewrite tick_loop, Hi.
      rewrite (handleButton_idle (in_millis_button i) (betweenPasses i s))
        by congruence.
      reflexivity. }
    set (y := set_lastButtonState HIGH (betweenPasses i s)) in *.
    assert (Hy : lastButtonState y = HIGH /\ isEncoderPressed y = false
                 /\ arbiter_log y = arbiter_log s
                 /\ currentVolume y = currentVolume s
                 /\ List.filter is_volume (log y)
                    = List.filter is_volume (log s)).
    { subst y.
      assert (Hv : currentVolume (betweenPasses i s) = currentVolume s)
        by (apply (f_equal (fun v => snd (fst v))) in Hb8; exact Hb8).
      split; [reflexivity|].
      split; [change (isEncoderPressed (betweenPasses i s) = false);
              congruence|].
      split; [exact Hb9|]. split; [exact Hv|].
      change (log (set_lastButtonState HIGH (betweenPasses i s)))
        with (log (betweenPasses i s)).
      rewrite Hb10. reflexivity. }
    clearbody y. destruct Hy as (Hy1 & Hy2 & Hy3 & Hy4 & Hy5).
    destruct (afterButton_arbiter i y) as (Ha & Hal).
    destruct (afterButton_volume i y) as [(Hvv & Hvl)|(Hp & _)];
      [|congruence].
    apply (f_equal fst) in Hvv. cbn [volume_view fst] in Hvv.
    unfold arbiter_view in Ha. injection Ha as Ha1 _ _ _ _ Ha6.
    destruct (IH (afterButton i y)) as (x & Hr & Hx1 & Hx2 & Hx3 & Hx4);
      [congruence|congruence|exact Hup|].
    exists x. cbn [run]. rewrite Ht.
    split; [exact Hr|]. unfold arbiter_log in *.
    repeat split; congruence.
Qed.

(** X18. After [handleEncoder], a pass with sensing off and the
    looping flag clear asks nothing of the decoder: it opens no file and
    requests no track, and the flag stays clear. With the failure branch
    of the restart, which clears the flag, this means that a restart
    that fails is not tried again. *)
Theorem no_restart_unless_looping (i : Input) (x : State) :
  isColorDetectionEnabled x = false ->
  isLooping x = false ->
  let y := afterEncoder i x in
  List.filter is_connect (log y) = List.filter is_connect (log x)
  /\ played (log y) = played (log x)
  /\ isLooping y = false
  /\ audioRunning y = audioRunning x.
Proof.
  intros He Hl. cbv zeta. unfold afterEncoder. cbv zeta.
  set (x2 := if isShowingVolume x && _ then restoreOriginalLeds x else x).
  assert (H2 : isColorDetectionEnabled x2 = false /\ isLooping x2 = false
               /\ audioRunning x2 = audioRunning x
               /\ played (log x2) = played (log x)
               /\ List.filter is_connect (log x2)
                  = List.filter is_connect (log x)).
  { subst x2. unfold restoreOriginalLeds.
    destruct (isShowingVolume x && _); [|auto].
    destruct (isShowingVolume x); [|auto].
    cbn. rewrite played_app, List.filter_app, !app_nil_r. auto. }
  clearbody x2. destruct H2 as (He2 & Hl2 & Hr2 & Hp2 & Hc2).
  rewrite He2. unfold continuePlayback. rewrite Hl2.
  destruct (audioRunning x2) eqn:Hr.
  - cbn. rewrite played_app, List.filter_app, !app_nil_r.
    repeat split; congruence.
  - rewrite Hr. repeat split; congruence.
Qed.

(** X24. In Collection mode a pass whose probes leave no row full only
    records what it collected: the scan for complete rows changes
    nothing, so the pass requests no track, blinks nothing and leaves
    sensing on. *)
Theorem collecting_is_silent (s : State) :
  currentMode s = PAINTER_COLLECTION ->
  no_full_row (probed s) ->
  classify s = probed s
  /\ log (classify s) = log s.
Proof.
  intros Hm Hn.
  assert (Hc : classify s = probed s).
  { rewrite (classify_collection s Hm). unfold checkPainterCompletion.
    apply scan_skip. intros p Hp. apply Hn. apply in_seq in Hp. lia. }
  split; [exact Hc|]. rewrite Hc. apply probed_log.
Qed.

(** *** The volume bar *)

Ltac same_bar :=
  unfold bar; cbn;
  rewrite ?snoc_app, ?count_app, ?count_cons, ?count_nil;
  cbn [is_restore is_show_color]; rewrite ?Z.add_0_r; reflexivity.

Lemma playTrack_bar f s : bar (playTrack f s) = bar s.
Proof.
  destruct (playTrack_cases f s)
    as [(_ & ->)|[(_ & _ & ->)|[(_ & _ & _ & ->)|(_ & _ & _ & ->)]]];
    same_bar.
Qed.

Lemma playAudio_bar name s : bar (playAudio name s) = bar s.
Proof.
  unfold playAudio. cbv zeta.
  destruct (mode_eqb (currentMode s) COLOR_RECOGNITION
            && (0 <=? getColorFamilyIndex name));
    [destruct (COLOR_COUNT_THRESHOLD <=? _)|];
    rewrite playTrack_bar; reflexivity.
Qed.

Lemma checkColor_bar t s : bar (snd (checkColor t s)) = bar s.
Proof.
  induction t as [|x t IH]; [reflexivity|].
  rewrite checkColor_cons. destruct (hits (rgb s) x); [|exact IH].
  apply playAudio_bar.
Qed.

Lemma checkPainterColor_bar t s : bar (snd (checkPainterColor t s)) = bar s.
Proof.
  induction t as [|x t IH]; [reflexivity|].
  rewrite checkPainterColor_cons. destruct (collects (rgb s) x); [|exact IH].
  reflexivity.
Qed.

Lemma completion_step_bar s p : bar (completion_step s p) = bar s.
Proof.
  unfold completion_step. destruct (row_complete p s); [|reflexivity].
  rewrite reset_row_eq.
  transitivity (bar (playAudio (nth p painterNames "") (blinkLEDs 2 s)));
    [reflexivity|].
  rewrite playAudio_bar. same_bar.
Qed.

Lemma checkPainterCompletion_bar s : bar (checkPainterCompletion s) = bar s.
Proof.
  unfold checkPainterCompletion. generalize (seq 0 6). intros ps.
  revert s. induction ps as [|p ps IH]; intros s; cbn [fold_left];
    [reflexivity|].
  rewrite IH. apply completion_step_bar.
Qed.

Lemma classify_bar s : bar (classify s) = bar s.
Proof.
  destruct (currentMode s) eqn:Hm.
  - unfold classify. rewrite Hm. apply checkColor_bar.
  - rewrite (classify_collection s Hm), checkPainterCompletion_bar.
    unfold probed. rewrite !checkPainterColor_bar. reflexivity.
Qed.

Lemma continuePlayback_bar s : bar (continuePlayback s) = bar s.
Proof.
  unfold continuePlayback, audio_connecttoFS.
  destruct (isLooping s); [|reflexivity].
  destruct (negb (audioRunning s)); [|same_bar].
  destruct (negb (String.eqb (currentPlayingFile s) "")); [|reflexivity].
  destruct (connecttoFS (currentPlayingFile s)); same_bar.
Qed.

(** X25. The sketch's book-keeping of the volume bar times out and is
    touched by nothing else in the rest of the pass: after
    [handleEncoder], a pass calls [restoreOriginalLeds] exactly when the
    flag [isShowingVolume] is set and more than 1000 ms old, and neither
    sensing nor playback sets the flag, clears it or moves its time
    stamp. The flag does not say what the ring shows: a pass with
    sensing on paints the sensed colour on the ring, once, whether the
    flag is set or not, and a pass with sensing off does not. *)
Theorem volume_bar_times_out (i : Input) (x : State) :
  let due := isShowingVolume x
             && (VOLUME_DISPLAY_DURATION
                   <? elapsed (in_millis_loop i) (volumeDisplayStartTime x)) in
  let y := afterEncoder i x in
  isShowingVolume y = isShowingVolume x && negb due
  /\ volumeDisplayStartTime y = volumeDisplayStartTime x
  /\ count is_restore (log y)
     = count is_restore (log x) + (if due then 1 else 0)
  /\ count is_show_color (log y)
     = count is_show_color (log x)
       + (if isColorDetectionEnabled x then 1 else 0).
Proof.
  cbv zeta. unfold afterEncoder. cbv zeta.
  set (due := isShowingVolume x && _).
  set (x1 := if due then restoreOriginalLeds x else x).
  assert (H1 : bar x1
               = (isShowingVolume x && negb due, volumeDisplayStartTime x,
                  count is_restore (log x) + (if due then 1 else 0),
                  count is_show_color (log x))
               /\ isColorDetectionEnabled x1 = isColorDetectionEnabled x).
  { subst x1 due. unfold restoreOriginalLeds.
    destruct (isShowingVolume x) eqn:Hs; cbn [andb].
    - destruct (VOLUME_DISPLAY_DURATION <? _); cbn [negb].
      + unfold bar. cbn. rewrite !count_app, !count_cons, !count_nil.
        cbn [is_restore is_show_color]. rewrite !Z.add_0_r.
        split; reflexivity.
      + unfold bar. rewrite Hs, Z.add_0_r. split; reflexivity.
    - unfold bar. rewrite Hs, Z.add_0_r. split; reflexivity. }
  clearbody x1. destruct H1 as (H1 & He1).
  set (x2 := if isColorDetectionEnabled x1 then _ else _).
  assert (H2 : bar x2
               = (isShowingVolume x1, volumeDisplayStartTime x1,
                  count is_restore (log x1),
                  count is_show_color (log x1)
                  + (if isColorDetectionEnabled x then 1 else 0))).
  { subst x2. rewrite <- He1. destruct (isColorDetectionEnabled x1).
    - rewrite classify_bar. unfold bar. cbn.
      rewrite !count_app, !count_cons, !count_nil.
      cbn [is_restore is_show_color]. rewrite !Z.add_0_r. reflexivity.
    - rewrite continuePlayback_bar. unfold bar. rewrite Z.add_0_r.
      reflexivity. }
  clearbody x2.
  assert (H3 : bar (if audioRunning x2 then audio_loop x2 else x2) = bar x2)
    by (destruct (audioRunning x2); [same_bar|reflexivity]).
  revert H3. generalize (if audioRunning x2 then audio_loop x2 else x2).
  intros y H3. rewrite H2 in H3. unfold bar in H1, H3.
  injection H1 as Ha Hb Hc Hd. injection H3 as -> -> -> ->.
  rewrite Ha, Hb, Hc, Hd. repeat split.
Qed.

End Passes.

(** ** The detection toggle after a rotation at the end of the range *)

Section BoundaryToggle.

Context {board : Board}.







End BoundaryToggle.


(** * The sketch on the sample board *)

(** The spec's scenario for the repeat counter: five red matches in a row
    request the plain asset four times and the special asset the fifth
    time, and leave the counter at 0. *)
Example five_red_matches :
  let s := fold_left (fun s name => playAudio (board := sampleBoard) name s)
                     ["R1"; "R1"; "R1"; "R1"; "R1"] boot in
  played (log s) = ["/R1.mp3"; "/R1.mp3"; "/R1.mp3"; "/R1.mp3"; "/RX.mp3"]
  /\ counter_at 0 s = 0.
Proof. vm_compute. split; reflexivity. Qed.

(** C1, counterexample. Press at 0 ms and keep the button down: the pass at
    3000 ms switches the mode, the pass at 5000 ms goes to sleep. *)
Lemma sleep_hold_switches_mode_first : ~ sleep_hold_fires_nothing_else.
Proof.
  intros H.
  destruct (H sampleBoard boot (pass LOW 0 dark)
              [pass LOW 3000 dark; pass LOW 5000 dark])
    as (x & Hr & _ & Hsw & _).
  - reflexivity.
  - reflexivity.
  - repeat constructor.
  - apply Exists_cons_tl, Exists_cons_hd. vm_compute. discriminate.
  - vm_compute in Hr. injection Hr as <-. vm_compute in Hsw. discriminate.
Qed.

(** C2, counterexample. Three passes with the encoder lines at 01, 01, 11:
    the first decodes counter-clockwise, the second decodes nothing, the
    third decodes counter-clockwise again and steps to the previous
    track, although the pass before it reported no direction. *)
Lemma intent_after_a_silent_pass : ~ intent_after_two_consecutive_passes.
Proof.
  intros H.
  pose (inputs := [turn HIGH false true 0]).
  pose (prev := turn HIGH false true 200).
  pose (i := turn HIGH true true 400).
  pose (s := state_of (run (board := sampleBoard) (inputs ++ [prev]) boot)).
  pose (s' := state_of (tick (board := sampleBoard) i s)).
  destruct (H sampleBoard inputs prev i s s') as (_ & Hd).
  - vm_compute. reflexivity.
  - vm_compute. reflexivity.
  - vm_compute. discriminate.
  - vm_compute in Hd. discriminate.
Qed.

(** C3, counterexample. With four colours of both the Dali and the Gogh
    palette collected, a sample of the fifth colour fills both rows in one
    pass. The Dali asset starts playing, which clears the grid, and the
    Gogh asset is never requested. *)
Lemma second_completion_not_announced : ~ completion_always_announced.
Proof.
  intros H.
  pose (s := showColor (readColor (paint 5)
               (state_of (run (board := sampleBoard) fourCollected boot)))).
  destruct (H sampleBoard s 1%nat) as ((before & after & Hp) & _).
  - vm_compute. reflexivity.
  - lia.
  - vm_compute. reflexivity.
  - vm_compute in Hp.
    destruct before as [|b1 [|b2 before]]; cbn in Hp; discriminate.
Qed.

(** C5, counterexample. On the sample board: enter Collection mode, collect
    the first Dali colour, then hold the button for three seconds. The
    switch back to Detection mode leaves the collected entry set. *)
Lemma switch_keeps_grid_entering_detection : ~ switch_clears_all.
Proof.
  intros H.
  pose (s := state_of (run (board := sampleBoard)
                           (enterCollection ++ [pass HIGH 4200 (paint 1);
                                                pass LOW 5000 dark])
                           boot)).
  destruct (H sampleBoard s) as (_ & _ & Hgrid & _).
  specialize (Hgrid 0%nat 0%nat). vm_compute in Hgrid. discriminate.
Qed.

(** C6, counterexample. Press, keep the button down past 3000 ms (the mode
    switches), then turn the encoder two steps clockwise with the button
    still down (the volume goes from 19 to 18), then release. *)
Lemma rotation_after_the_switch : ~ rotation_excludes_switch.
Proof.
  intros H.
  pose (x := state_of (run (board := sampleBoard)
                           (switchThenRotate ++ [pass HIGH 3300 dark]) boot)).
  destruct (H sampleBoard boot (pass LOW 0 dark)
              [pass LOW 3000 dark; turn LOW true false 3100;
               turn LOW true true 3200]
              (pass HIGH 3300 dark) x) as (Hsw & _).
  - reflexivity.
  - reflexivity.
  - repeat constructor.
  - reflexivity.
  - vm_compute. reflexivity.
  - vm_compute. discriminate.
  - vm_compute in Hsw. discriminate.
Qed.

(** C7, counterexample. While the red asset is looping, a request for the
    blue asset, which is not on the card, returns with the looping flag
    still set. *)
Lemma missing_file_keeps_looping : ~ failed_request_clears_looping.
Proof.
  intros H.
  pose (s := state_of (run (board := sampleBoard) redPlaying boot)).
  destruct (H sampleBoard "/B1.mp3" s) as (Hl & _).
  - left. reflexivity.
  - vm_compute in Hl. discriminate.
Qed.

(** C8, counterexample. Sensing is on and the red asset is looping; it ends,
    and the next pass reads a sample that matches nothing. The pass shows
    the colour and does not ask the decoder for anything. *)
Lemma no_restart_while_sensing : ~ continuation_on_every_pass.
Proof.
  intros H.
  pose (s := state_of (run (board := sampleBoard) redPlaying boot)).
  pose (i := mkInput HIGH false false 200 200 200 dark true).
  pose (x := state_of (tick (board := sampleBoard) i s)).
  destruct (H sampleBoard i s x) as (ok & Hc).
  - reflexivity.
  - reflexivity.
  - reflexivity.
  - vm_compute. discriminate.
  - reflexivity.
  - vm_compute. reflexivity.
  - vm_compute in Hc. discriminate.
Qed.

(** C9, counterexample. With the Dali and the Gogh row both full, the scan
    requests the Dali asset only. *)
Lemma only_first_completion_requested : ~ completions_independent.
Proof.
  intros H.
  pose (s := probed (board := sampleBoard)
               (showColor (readColor (paint 5)
                  (state_of (run (board := sampleBoard) fourCollected boot))))).
  destruct (H sampleBoard s) as (Hp & _).
  - vm_compute. reflexivity.
  - vm_compute in Hp. discriminate.
Qed.

(** ** The theorems at concrete inputs *)

(** C1 at a hold with passes at 0, 3000 and 5000 ms. *)
Lemma sleep_hold_witness :
  exists x,
    (forall rest,
       run (board := sampleBoard)
           (pass LOW 0 dark :: [pass LOW 3000 dark; pass LOW 5000 dark] ++ rest)
           boot = DeepSleep x)
    /\ count is_sleep (log x) = count is_sleep (log boot) + 1
    /\ count is_toggle (log x) = count is_toggle (log boot)
    /\ count is_switch (log boot) <= count is_switch (log x)
       <= count is_switch (log boot) + 1.
Proof.
  apply (sleep_hold (board := sampleBoard) boot (pass LOW 0 dark)
                    [pass LOW 3000 dark; pass LOW 5000 dark]).
  - reflexivity.
  - reflexivity.
  - repeat constructor.
  - apply Exists_cons_tl, Exists_cons_hd. vm_compute. discriminate.
Defined.

(** C2 at three passes with the encoder lines at 01, 01, 11. *)
Lemma intent_needs_repeat_witness :
  let inputs := [turn HIGH false true 0; turn HIGH false true 200] in
  let d := direction (phase 0 inputs) true true in
  d <> 0 /\ reported 0 (directions 0 inputs) = d.
Proof.
  pose (inputs := [turn HIGH false true 0; turn HIGH false true 200]).
  pose (i := turn HIGH true true 400).
  pose (s := state_of (run (board := sampleBoard) inputs boot)).
  pose (s' := state_of (tick (board := sampleBoard) i s)).
  apply (proj1 (intent_needs_repeat (board := sampleBoard)) inputs i s s').
  - vm_compute. reflexivity.
  - vm_compute. reflexivity.
  - vm_compute. discriminate.
Defined.

(** C3 at the pass that completes the Dali row on the sample board. *)
Lemma completion_same_pass_witness :
  let s := showColor (readColor (paint 5)
             (state_of (run (board := sampleBoard) fourCollected boot))) in
  let s' := classify (board := sampleBoard) s in
  isColorDetectionEnabled s' = false
  /\ row_clear 0 s'
  /\ ((forall q, (q < 0)%nat ->
                 row_complete q (probed (board := sampleBoard) s) = true ->
                 starts (board := sampleBoard) q = false) ->
      exists before after,
        played (log s')
        = played (log s) ++ before ++ completionAsset 0 :: after).
Proof.
  apply (proj1 (completion_same_pass (board := sampleBoard))).
  - vm_compute. reflexivity.
  - lia.
  - vm_compute. reflexivity.
Defined.

(** C4 at the first red match after boot: the counter of the red family
    goes from 0 to 1 and the asset of the matched colour is requested. *)
Lemma playAudio_repeat_counter_witness :
  let s' := playAudio (board := sampleBoard) "R1" boot in
  (counter_at 0 boot + 1 < 5 ->
     counter_at 0 s' = 1
     /\ played (log s') = played (log boot) ++ ["/R1.mp3"])
  /\ (5 <= counter_at 0 boot + 1 ->
     counter_at 0 s' = 0
     /\ played (log s') = played (log boot) ++ ["/RX.mp3"])
  /\ (forall other, 0 <= other -> other <> 0 ->
        counter_at other s' = counter_at other boot)
  /\ currentMode s' = COLOR_RECOGNITION
  /\ length (colorCounters s') = 16%nat.
Proof.
  apply (playAudio_repeat_counter (board := sampleBoard) "R1" boot).
  - reflexivity.
  - reflexivity.
  - vm_compute. split; [discriminate|reflexivity].
  - vm_compute. split; [discriminate|reflexivity].
Defined.

(** C6 at a hold in which the first rotation comes before the mode-switch
    threshold. *)
Lemma rotation_silences_hold_witness :
  let s := state_of (run (board := sampleBoard)
                         [pass LOW 0 dark; turn LOW true false 100] boot) in
  let x := state_of (tick (board := sampleBoard) (turn LOW true true 200) s) in
  let r := run (board := sampleBoard)
               ([pass LOW 3000 dark] ++ [pass HIGH 3100 dark]) x in
  count is_switch (log (state_of r)) = count is_switch (log x)
  /\ count is_toggle (log (state_of r)) = count is_toggle (log x).
Proof.
  cbv zeta.
  apply (rotation_silences_hold (board := sampleBoard)
           (state_of (run (board := sampleBoard)
                          [pass LOW 0 dark; turn LOW true false 100] boot))
           (turn LOW true true 200)).
  - reflexivity.
  - vm_compute. reflexivity.
  - vm_compute. discriminate.
  - repeat constructor.
  - reflexivity.
Defined.

(** C7 at a request for the green asset, which the decoder of the sample
    board does not open. *)
Lemma playTrack_failure_witness :
  let s' := playTrack (board := sampleBoard) "/G1.mp3" boot in
  log s' = log boot ++ [EvPlayTrack "/G1.mp3"; EvStopSong;
                        EvConnect "/G1.mp3" false]
  /\ isLooping s' = false
  /\ audioRunning s' = false
  /\ classification s' = classification boot
  /\ visual s' = visual boot.
Proof.
  apply (proj1 (proj2 (playTrack_failure (board := sampleBoard)
                                         "/G1.mp3" boot)));
    reflexivity.
Defined.

(** C8 at a pass with sensing off, after the looping red asset has ended,
    and at a pass with sensing on whose sample matches nothing. *)
Lemma continuation_while_idle_witness :
  (let x := set_audioRunning false
              (state_of (run (board := sampleBoard)
                             (redPlaying ++ [pass LOW 200 dark;
                                             pass HIGH 300 dark]) boot)) in
   let y := afterButton (board := sampleBoard) (pass HIGH 400 dark) x in
   List.filter is_connect (log y)
   = List.filter is_connect (log x)
     ++ [EvConnect (currentPlayingFile x)
                   (connecttoFS (Board := sampleBoard) (currentPlayingFile x))]
   /\ isLooping y = connecttoFS (Board := sampleBoard) (currentPlayingFile x)
   /\ audioRunning y
      = connecttoFS (Board := sampleBoard) (currentPlayingFile x))
  /\ (let x := set_audioRunning false
                 (state_of (run (board := sampleBoard) redPlaying boot)) in
      let y := afterButton (board := sampleBoard) (pass HIGH 200 dark) x in
      List.filter is_connect (log y) = List.filter is_connect (log x)).
Proof.
  split.
  - apply (proj1 (continuation_while_idle (board := sampleBoard))).
    + vm_compute. reflexivity.
    + vm_compute. reflexivity.
    + reflexivity.
    + vm_compute. discriminate.
  - apply (proj1 (proj2 (continuation_while_idle (board := sampleBoard)))).
    + vm_compute. reflexivity.
    + vm_compute. reflexivity.
Defined.

(** C9 at a scan with the Dali and the Gogh row both full. *)
Lemma completion_scan_order_witness :
  let s := probed (board := sampleBoard)
             (showColor (readColor (paint 5)
                (state_of (run (board := sampleBoard) fourCollected boot)))) in
  let full := full_rows s (seq 0 6) in
  let s' := checkPainterCompletion (board := sampleBoard) s in
  played (log s')
  = played (log s)
    ++ map completionAsset (announced (board := sampleBoard) full)
  /\ (existsb (starts (board := sampleBoard)) full = true ->
      forall q c, grid_get q c (painterCollectionStatus s') = false)
  /\ (existsb (starts (board := sampleBoard)) full = false ->
      forall q, (In q full -> row_clear q s')
                /\ (~ In q full -> same_row q s s')).
Proof.
  apply (completion_scan_order (board := sampleBoard)).
  vm_compute. reflexivity.
Defined.


(** ** The further properties at concrete inputs *)

(** X3 on the sample board: a red sample is played by the red entry, the
    second of the table; a black sample lies in the ranges of the first
    entry, which is undefined, and is played by none. *)
Lemma checkColor_first_match_witness :
  checkColor (board := sampleBoard)
             (colorThresholds (Board := sampleBoard)) (set_rgb red boot)
  = (true, playAudio (board := sampleBoard) "R1" (set_rgb red boot))
  /\ checkColor (board := sampleBoard)
                (colorThresholds (Board := sampleBoard)) (set_rgb dark boot)
     = (false, set_rgb dark boot).
Proof.
  split.
  - apply (proj1 (checkColor_first_match (board := sampleBoard)
                                         (set_rgb red boot))
                 [sampleThreshold 0 0 0 0 0 0 "unused"]
                 (sampleThreshold 200 255 0 50 0 50 "R1")
                 [sampleThreshold 0 50 200 255 0 50 "G1";
                  sampleThreshold 0 50 0 50 200 255 "B1"]).
    + repeat constructor.
    + reflexivity.
  - apply (proj2 (checkColor_first_match (board := sampleBoard)
                                         (set_rgb dark boot))).
    repeat constructor.
Defined.

(** X4 on the Dali palette of the sample board: the second colour is
    collected by the second entry, a black sample by none. An entry of
    Gogh with colour index 0 marks the last cell of Dali, an entry of
    Dali with colour index 6 the first cell of Gogh. *)
Lemma checkPainterColor_first_match_witness :
  (exists grid',
     checkPainterColor (daliColors (Board := sampleBoard))
                       (set_rgb (paint 2) boot)
     = (true, set_painterCollectionStatus grid' (set_rgb (paint 2) boot))
     /\ grid_get 0 1 grid' = true
     /\ forall p c, p <> 0%nat \/ c <> 1%nat ->
          grid_get p c grid'
          = grid_get p c (painterCollectionStatus (set_rgb (paint 2) boot)))
  /\ (exists grid',
        checkPainterColor [mkPainterColor 80 100 100 120 100 120 "Gogh" 0]
                          (set_rgb (paint 2) boot)
        = (true, set_painterCollectionStatus grid' (set_rgb (paint 2) boot))
        /\ grid_get 0 4 grid' = true
        /\ forall p c, p <> 0%nat \/ c <> 4%nat ->
             grid_get p c grid'
             = grid_get p c (painterCollectionStatus
                               (set_rgb (paint 2) boot)))
  /\ (exists grid',
        checkPainterColor [mkPainterColor 80 100 100 120 100 120 "Dali" 6]
                          (set_rgb (paint 2) boot)
        = (true, set_painterCollectionStatus grid' (set_rgb (paint 2) boot))
        /\ grid_get 1 0 grid' = true
        /\ forall p c, p <> 1%nat \/ c <> 0%nat ->
             grid_get p c grid'
             = grid_get p c (painterCollectionStatus
                               (set_rgb (paint 2) boot)))
  /\ checkPainterColor (daliColors (Board := sampleBoard))
                       (set_rgb dark boot)
     = (false, set_rgb dark boot).
Proof.
  assert (Hg : forall c, grid_shaped (painterCollectionStatus (set_rgb c boot))).
  { intros c. split; [reflexivity|]. repeat constructor. }
  split; [|split; [|split]].
  - apply (proj1 (checkPainterColor_first_match (set_rgb (paint 2) boot)
                    (Hg (paint 2)))
                 [mkPainterColor 40 60 100 120 100 120 "Dali" 1]
                 (mkPainterColor 80 100 100 120 100 120 "Dali" 2)
                 [mkPainterColor 120 140 100 120 100 120 "Dali" 3;
                  mkPainterColor 160 180 100 120 100 120 "Dali" 4;
                  mkPainterColor 200 220 100 120 100 120 "Dali" 5]).
    + repeat constructor.
    + reflexivity.
    + cbn. lia.
  - apply (proj1 (proj2 (checkPainterColor_first_match
                           (set_rgb (paint 2) boot) (Hg (paint 2))))
                 [] (mkPainterColor 80 100 100 120 100 120 "Gogh" 0) []).
    + constructor.
    + reflexivity.
    + reflexivity.
    + cbn. lia.
  - apply (proj1 (proj2 (proj2 (checkPainterColor_first_match
                                  (set_rgb (paint 2) boot) (Hg (paint 2)))))
                 [] (mkPainterColor 80 100 100 120 100 120 "Dali" 6) []).
    + constructor.
    + reflexivity.
    + reflexivity.
    + cbn. lia.
  - apply (proj2 (proj2 (proj2 (checkPainterColor_first_match
                                  (set_rgb dark boot) (Hg dark))))).
    repeat constructor.
Defined.

(** X5 at a sample whose red channel is not a number. *)
Lemma non_finite_sample_matches_nothing_witness :
  let s := set_rgb (mkSample NonFinite (Finite 0) (Finite 0)) boot in
  checkColor (board := sampleBoard)
             (colorThresholds (Board := sampleBoard)) s = (false, s)
  /\ checkPainterColor (daliColors (Board := sampleBoard)) s = (false, s).
Proof.
  apply (non_finite_sample_matches_nothing (board := sampleBoard)).
  left. reflexivity.
Defined.

(** X6 at the first Dali colour, after four colours were collected. *)
Lemma probes_keep_collected_witness :
  let s := showColor (readColor (paint 5)
             (state_of (run (board := sampleBoard) fourCollected boot))) in
  grid_get 0 0 (painterCollectionStatus (probed (board := sampleBoard) s))
  = true
  /\ log (probed (board := sampleBoard) s) = log s
  /\ currentMode (probed (board := sampleBoard) s) = currentMode s.
Proof.
  apply (probes_keep_collected (board := sampleBoard)).
  vm_compute. reflexivity.
Defined.

(** X7 at a painter's name, which belongs to no colour family. *)
Lemma playAudio_plain_path_witness :
  let s' := playAudio (board := sampleBoard) "P_Dali" boot in
  colorCounters s' = colorCounters boot
  /\ played (log s')
     = played (log boot) ++ [fit32 ("/" +:+ "P_Dali" +:+ ".mp3")].
Proof.
  apply (playAudio_plain_path (board := sampleBoard) "P_Dali" boot).
  right. vm_compute. reflexivity.
Defined.

(** X8 at a request for the red asset, which is on the card of the
    sample board and which its decoder opens. *)
Lemma playTrack_success_witness :
  let s' := playTrack (board := sampleBoard) "/R1.mp3" boot in
  log s' = log boot ++ [EvPlayTrack "/R1.mp3"; EvStopSong;
                        EvConnect (fit32 "/R1.mp3") true]
  /\ isLooping s' = true
  /\ audioRunning s' = true
  /\ currentPlayingFile s' = fit32 "/R1.mp3"
  /\ painterCollectionStatus s'
     = (if mode_eqb (currentMode boot) PAINTER_COLLECTION
        then empty_grid else painterCollectionStatus boot)
  /\ colorCounters s' = colorCounters boot
  /\ currentMode s' = currentMode boot
  /\ isColorDetectionEnabled s' = isColorDetectionEnabled boot.
Proof.
  apply (playTrack_success (board := sampleBoard) "/R1.mp3" boot);
    reflexivity.
Defined.

(** X11 on the sample board, whose family indices are 0, 3, 4 and -1,
    after a red match. *)
Lemma repeat_counters_stay_below_threshold_witness :
  let x := state_of (run (board := sampleBoard) redPlaying boot) in
  length (colorCounters x) = COLOR_FAMILY_COUNT
  /\ Forall (fun c => 0 <= c < COLOR_COUNT_THRESHOLD) (colorCounters x)
  /\ forall idx, incr_uint8 (counter_at idx x) = counter_at idx x + 1.
Proof.
  apply (repeat_counters_stay_below_threshold (board := sampleBoard)
                                              redPlaying).
  intros name. cbn. unfold sampleFamily.
  destruct (String.prefix "R" name); [reflexivity|].
  destruct (String.prefix "G" name); [reflexivity|].
  destruct (String.prefix "B" name); reflexivity.
Defined.

(** X14 at a hold with passes at 0 and 3000 ms, released at 3500 ms. *)
Lemma long_press_switches_mode_witness :
  exists x,
    run (board := sampleBoard)
        (pass LOW 0 dark :: [pass LOW 3000 dark] ++ [pass HIGH 3500 dark])
        boot = Running x
    /\ count is_switch (log x) = count is_switch (log boot) + 1
    /\ count is_toggle (log x) = count is_toggle (log boot)
    /\ count is_sleep (log x) = count is_sleep (log boot)
    /\ currentMode x = otherMode (currentMode boot)
    /\ currentVolume x = currentVolume boot.
Proof.
  apply (long_press_switches_mode (board := sampleBoard) [] boot
           (pass LOW 0 dark) [pass LOW 3000 dark] (pass HIGH 3500 dark)).
  - reflexivity.
  - reflexivity.
  - reflexivity.
  - repeat constructor.
  - reflexivity.
  - cbn [directions].
    repeat (apply List.Forall_cons; [vm_compute; split; discriminate|]).
    apply List.Forall_nil.
  - repeat (apply List.Forall_cons; [vm_compute; reflexivity|]).
    apply List.Forall_nil.
  - apply Exists_cons_hd. vm_compute. discriminate.
  - vm_compute. discriminate.
Defined.

(** X15 at a release 100 ms after the press, from the boot state. *)
Lemma short_press_effect_witness :
  let s := state_of (run (board := sampleBoard) [pass LOW 0 dark] boot) in
  exists x,
    handleButton (board := sampleBoard) HIGH 100 s = Running x
    /\ isColorDetectionEnabled x = negb (isColorDetectionEnabled s)
    /\ (currentMode s = PAINTER_COLLECTION ->
        painterCollectionStatus x = empty_grid
        /\ played (log x) = played (log s))
    /\ (isColorDetectionEnabled s = false ->
        isLooping x = false /\ audioRunning x = false
        /\ played (log x) = played (log s))
    /\ lastButtonState x = HIGH
    /\ isEncoderPressed x = false
    /\ isLongPressing x = false
    /\ isSleepPressing x = false.
Proof.
  apply (short_press_effect (board := sampleBoard) 100
           (state_of (run (board := sampleBoard) [pass LOW 0 dark] boot))).
  - reflexivity.
  - vm_compute. reflexivity.
  - reflexivity.
Defined.

(** X16 at a hold with passes at 0 and 5000 ms. *)
Lemma sleep_only_after_hold_witness :
  let inputs := [pass LOW 0 dark; pass LOW 5000 dark] in
  let x := state_of (run (board := sampleBoard) inputs boot) in
  exists before i after y,
    inputs = before ++ i :: after
    /\ run (board := sampleBoard) before boot = Running y
    /\ in_button i = LOW
    /\ lastButtonState y = LOW
    /\ SLEEP_PRESS_DURATION
       <= elapsed (in_millis_button i) (sleepPressStartTime y)
    /\ log x = log y ++ [EvSleepAnimation; EvStopSong; EvSensorDisable;
                         EvDeepSleep]
    /\ audioRunning x = false.
Proof.
  apply (sleep_only_after_hold (board := sampleBoard)
           [pass LOW 0 dark; pass LOW 5000 dark] boot).
  vm_compute. reflexivity.
Defined.

(** X17 at three passes with the button up and the encoder turning. *)
Lemma idle_button_fires_nothing_witness :
  exists x,
    run (board := sampleBoard)
        [pass HIGH 0 red; turn HIGH true false 200; turn HIGH true true 400]
        boot = Running x
    /\ arbiter_log x = arbiter_log boot
    /\ currentVolume x = currentVolume boot
    /\ List.filter is_volume (log x) = List.filter is_volume (log boot)
    /\ lastButtonState x = HIGH.
Proof.
  apply (idle_button_fires_nothing (board := sampleBoard)
           [pass HIGH 0 red; turn HIGH true false 200;
            turn HIGH true true 400] boot).
  - reflexivity.
  - reflexivity.
  - repeat constructor.
Defined.

(** X18 at the first pass after boot. *)
Lemma no_restart_unless_looping_witness :
  let y := afterEncoder (board := sampleBoard) (pass HIGH 0 dark) boot in
  List.filter is_connect (log y) = List.filter is_connect (log boot)
  /\ played (log y) = played (log boot)
  /\ isLooping y = false
  /\ audioRunning y = audioRunning boot.
Proof.
  apply (no_restart_unless_looping (board := sampleBoard)
                                   (pass HIGH 0 dark) boot);
    reflexivity.
Defined.

(** X19 at a hold with passes at 0, 3000 and 5000 ms. *)
Lemma sampled_sleep_hold_switches_once_witness :
  exists x,
    (forall rest,
       run (board := sampleBoard)
           (pass LOW 0 dark :: [pass LOW 3000 dark]
            ++ pass LOW 5000 dark :: rest) boot = DeepSleep x)
    /\ count is_switch (log x) = count is_switch (log boot) + 1
    /\ count is_sleep (log x) = count is_sleep (log boot) + 1
    /\ count is_toggle (log x) = count is_toggle (log boot).
Proof.
  apply (sampled_sleep_hold_switches_once (board := sampleBoard) boot
           (pass LOW 0 dark) [pass LOW 3000 dark] (pass LOW 5000 dark)).
  - reflexivity.
  - reflexivity.
  - repeat constructor.
  - reflexivity.
  - cbn [directions].
    repeat (apply List.Forall_cons; [vm_compute; split; discriminate|]).
    apply List.Forall_nil.
  - repeat (apply List.Forall_cons; [vm_compute; reflexivity|]).
    apply List.Forall_nil.
  - apply Exists_cons_hd. vm_compute. discriminate.
  - vm_compute. discriminate.
Defined.

(** X20 with the usual [map], at two displays on a white ring. *)
Lemma volume_display_round_trip_witness :
  let r := plainRing White in
  let r1 := displays (core := linearCore) [(10, 0); (11, 50)] r in
  let r2 := restoreOriginalLeds_ring r1 in
  ring_isShowingVolume r1 = true
  /\ leds r2 = leds r
  /\ ring_isShowingVolume r2 = false
  /\ shown r2
     = shown r1 ++ [(leds r, brightness r1)]
  /\ brightness r2
     = (if forallb (fun c => ledsToLight (core := linearCore) (fst c) =? 0)
                   [(10, 0); (11, 50)]
        then brightness r else 100)
  /\ restoreOriginalLeds_ring r2 = r2.
Proof.
  apply (volume_display_round_trip (core := linearCore) (plainRing White)
                                   (10, 0) [(11, 50)]).
  - reflexivity.
  - repeat (apply List.Forall_cons; [vm_compute; split; discriminate|]).
    apply List.Forall_nil.
Defined.

(** X21 with the usual [map], at the volume the sketch boots with. *)
Lemma volume_bar_shape_witness :
  let r' := displayVolumeOnLeds_ring (core := linearCore) 19 0
                                        (plainRing White) in
  leds r'
  = volumeBar (Z.to_nat (ledsToLight (core := linearCore) 19))
  /\ length (leds r') = NUM_LEDS
  /\ brightness r'
     = (if ledsToLight (core := linearCore) 19 =? 0
        then brightness (plainRing White) else 100)
  /\ shown r'
     = shown (plainRing White)
       ++ [(leds r', brightness r')]
  /\ ring_volumeDisplayStartTime r' = 0.
Proof.
  apply (volume_bar_shape (core := linearCore) 19 0 (plainRing White)).
  vm_compute. split; discriminate.
Defined.

(** X23 with the usual [map]: 4017 lux is mapped to 256, which gives the
    lowest brightness. *)
Lemma adjustBrightness_wraps_witness :
  brightness
    (adjustBrightness (core := linearCore) 4017 (plainRing White))
  = 10.
Proof.
  apply (proj1 (proj2 (proj2 (proj2
           (adjustBrightness_wraps (core := linearCore) 4017
                                   (plainRing White)))))).
  vm_compute. split; [discriminate|reflexivity].
Defined.

(** X24 at the pass that collects the first colour on the sample
    board. *)
Lemma collecting_is_silent_witness :
  let s := showColor (readColor (paint 1)
             (state_of (run (board := sampleBoard) enterCollection boot))) in
  classify (board := sampleBoard) s = probed (board := sampleBoard) s
  /\ log (classify (board := sampleBoard) s) = log s.
Proof.
  apply (collecting_is_silent (board := sampleBoard)).
  - vm_compute. reflexivity.
  - intros p Hp.
    do 6 (destruct p as [|p]; [vm_compute; reflexivity|]). lia.
Defined.
